(** * MCP2515 SPI CAN controller driver: a shallow embedding of mcp2515.c

    The development follows the layout of the C file: instruction set and
    register constants, the private data of the network device, the
    synchronous bring-up, the asynchronous steps with their completion
    callbacks, the interrupt handler and the transmit entry.  Machine
    integers are [Z] with the wrap-around written out, the two 14-byte SPI
    buffers are lists of bytes indexed with stdpp's lookup and insert, and
    every access outside a buffer (undefined behaviour in C) makes the
    operation return [None]. *)

From stdpp Require Import base numbers list option.

Open Scope Z_scope.

(** ** Machine integers and buffers *)

(** Conversion to [u8] (assignment to a byte). *)
Definition u8 (z : Z) : Z := Z.land z 0xff.

(** Conversion to [u32] ([canid_t], [unsigned]). *)
Definition u32 (z : Z) : Z := Z.land z 0xffffffff.

(** [unsigned long] counters of [struct net_device_stats]; the width is that
    of a 64-bit kernel. *)
Definition BITS_PER_LONG : Z := 64.
Definition ulong (z : Z) : Z := z mod 2 ^ BITS_PER_LONG.

(** The kernel's [BIT(n)]. *)
Definition BIT (n : Z) : Z := Z.shiftl 1 n.

(** C truth value of an integer expression. *)
Definition truthy (z : Z) : bool := negb (z =? 0).

(** [buf[i] = v] on a [u8 *]: the value is truncated to a byte; a store
    outside the array has no defined behaviour. *)
Definition store (i : nat) (v : Z) (buf : list Z) : option (list Z) :=
  if decide (i < length buf)%nat then Some (<[i := u8 v]> buf) else None.

(** [buf[i]] as an rvalue. *)
Definition load (i : nat) (buf : list Z) : option Z := buf !! i.

(** [memset(buf, c, n)]. *)
Definition memset (c : Z) (n : nat) (buf : list Z) : option (list Z) :=
  if decide (n <= length buf)%nat
  then Some (replicate n (u8 c) ++ drop n buf) else None.

(** [memcpy(dst + doff, src + soff, n)]: both ranges must lie inside their
    arrays. *)
Definition memcpy (doff : nat) (src : list Z) (soff n : nat) (dst : list Z)
  : option (list Z) :=
  if decide (soff + n <= length src /\ doff + n <= length dst)%nat
  then Some (take doff dst ++ take n (drop soff src) ++ drop (doff + n) dst)
  else None.

(** ** SPI interface instruction set *)

Definition MCP2515_INSTRUCTION_WRITE : Z := 0x02.
Definition MCP2515_INSTRUCTION_READ : Z := 0x03.
Definition MCP2515_INSTRUCTION_BIT_MODIFY : Z := 0x05.
Definition MCP2515_INSTRUCTION_LOAD_TXB (n : Z) : Z := 0x40 + Z.shiftl n 1.
Definition MCP2515_INSTRUCTION_RTS (n : Z) : Z := 0x80 + Z.shiftl 1 n.
Definition MCP2515_INSTRUCTION_READ_RXB (n : Z) : Z := 0x90 + Z.shiftl n 2.
Definition MCP2515_INSTRUCTION_RESET : Z := 0xc0.

(** ** Registers *)

Definition CANSTAT : Z := 0x0e.
Definition CANCTRL : Z := 0x0f.
Definition TEC : Z := 0x1c.
Definition REC : Z := 0x1d.
Definition CANINTF : Z := 0x2c.
Definition EFLAG : Z := 0x2d.
Definition CNF3 : Z := 0x28.
Definition RXB0CTRL : Z := 0x60.
Definition RXB1CTRL : Z := 0x70.

(** CANCTRL bits *)
Definition CANCTRL_REQOP_NORMAL : Z := 0x00.
Definition CANCTRL_REQOP_SLEEP : Z := 0x20.
Definition CANCTRL_REQOP_LOOPBACK : Z := 0x40.
Definition CANCTRL_REQOP_LISTEN_ONLY : Z := 0x60.
Definition CANCTRL_REQOP_CONF : Z := 0x80.
Definition CANCTRL_REQOP_MASK : Z := 0xe0.
Definition CANCTRL_OSM : Z := BIT 3.
Definition CANCTRL_ABAT : Z := BIT 4.

(** CANINTF bits *)
Definition CANINTF_RX0IF : Z := BIT 0.
Definition CANINTF_RX1IF : Z := BIT 1.
Definition CANINTF_TX0IF : Z := BIT 2.
Definition CANINTF_TX1IF : Z := BIT 3.
Definition CANINTF_TX2IF : Z := BIT 4.
Definition CANINTF_ERRIF : Z := BIT 5.
Definition CANINTF_WAKIF : Z := BIT 6.
Definition CANINTF_MERRF : Z := BIT 7.

(** EFLG bits *)
Definition EFLG_RX0OVR : Z := BIT 6.
Definition EFLG_RX1OVR : Z := BIT 7.

(** CNF2 bits *)
Definition CNF2_BTLMODE : Z := BIT 7.
Definition CNF2_SAM : Z := BIT 6.

(** CANINTE bits *)
Definition CANINTE_RX0IE : Z := BIT 0.
Definition CANINTE_RX1IE : Z := BIT 1.
Definition CANINTE_TX0IE : Z := BIT 2.
Definition CANINTE_TX1IE : Z := BIT 3.
Definition CANINTE_TX2IE : Z := BIT 4.
Definition CANINTE_ERRIE : Z := BIT 5.
Definition CANINTE_RX : Z := Z.lor CANINTE_RX0IE CANINTE_RX1IE.
Definition CANINTE_TX : Z :=
  Z.lor (Z.lor CANINTE_TX0IE CANINTE_TX1IE) CANINTE_TX2IE.
Definition CANINTE_ERR : Z := CANINTE_ERRIE.

(** RXBnCTRL bits *)
Definition RXBCTRL_BUKT : Z := BIT 2.
Definition RXBCTRL_RXM0 : Z := BIT 5.
Definition RXBCTRL_RXM1 : Z := BIT 6.

(** RXBnSIDL bits *)
Definition RXBSIDL_IDE : Z := BIT 3.
Definition RXBSIDL_SRR : Z := BIT 4.

(** RXBnDLC bits *)
Definition RXBDLC_RTR : Z := BIT 6.

(** Size of each of [rx_buf] and [tx_buf] in [struct mcp2515_priv]. *)
Definition MCP2515_BUF_SIZE : nat := 14.

(** ** Declarations of the kernel headers the driver includes *)

(** Modelled from the spec: [CAN_EFF_FLAG] and [CAN_RTR_FLAG] of
    linux/can.h, which is not part of the sources; the spec names them the
    extended-frame and remote-request flags of the frame identifier, the
    values are those of the kernel's user API. *)
Definition CAN_EFF_FLAG : Z := 0x80000000.
Definition CAN_RTR_FLAG : Z := 0x40000000.

(** Modelled from the spec: the control-mode bitset of linux/can/netlink.h
    (LOOPBACK, LISTENONLY, 3_SAMPLES, ONE_SHOT), which is not part of the
    sources; the values are those of the kernel's user API. *)
Definition CAN_CTRLMODE_LOOPBACK : Z := 0x01.
Definition CAN_CTRLMODE_LISTENONLY : Z := 0x02.
Definition CAN_CTRLMODE_3_SAMPLES : Z := 0x04.
Definition CAN_CTRLMODE_ONE_SHOT : Z := 0x08.

(** Modelled from the spec: the error numbers of errno.h behind "no device",
    "busy" and "not supported"; the header is not part of the sources. *)
Definition ENOMEM : Z := 12.
Definition EBUSY : Z := 16.
Definition ENODEV : Z := 19.
Definition EOPNOTSUPP : Z := 95.

(** Modelled from the spec: [get_can_dlc] of linux/can/dev.h, which is not
    part of the sources; the spec describes it as the data length clamped to
    0..8. *)
Definition CAN_MAX_DLC : Z := 8.
Definition get_can_dlc (i : Z) : Z := Z.min (u8 i) CAN_MAX_DLC.

(** ** Data model *)

(** [struct can_frame]: identifier with the EFF/RTR flags, data length code
    and the eight data bytes. *)
Record can_frame := mk_can_frame {
  can_id : Z;
  can_dlc : Z;
  data : list Z
}.

(** [struct sk_buff], reduced to what the driver reads: [skb->data] seen as a
    CAN frame. *)
Record sk_buff := mk_sk_buff { skb_data : can_frame }.

(** A frame as the C types allow it. *)
Definition frame_wf (f : can_frame) : Prop :=
  0 <= can_id f < 2 ^ 32 /\ 0 <= can_dlc f < 256 /\ length (data f) = 8%nat.

(** The frame [alloc_can_skb] hands out: all zero. *)
Definition zero_frame : can_frame := mk_can_frame 0 0 (replicate 8 0).

(** [enum can_state], the two values the driver assigns plus the rest. *)
Inductive can_state :=
  | CAN_STATE_ERROR_ACTIVE
  | CAN_STATE_ERROR_WARNING
  | CAN_STATE_ERROR_PASSIVE
  | CAN_STATE_BUS_OFF
  | CAN_STATE_STOPPED
  | CAN_STATE_SLEEPING.

(** [struct can_bittiming], the fields the driver programs. *)
Record can_bittiming := mk_can_bittiming {
  brp : Z;
  prop_seg : Z;
  phase_seg1 : Z;
  phase_seg2 : Z;
  sjw : Z
}.

(** The completion callbacks that [message.complete] can point to. *)
Inductive completion :=
  | read_flags_complete
  | read_rxb0_complete
  | read_rxb1_complete
  | clear_canintf_complete
  | clear_eflg_complete
  | load_txb0_complete
  | rts_txb0_complete.

#[global] Instance completion_eq_dec : EqDecision completion.
Proof. solve_decision. Defined.

(** [struct net_device_stats], the counters the driver touches. *)
Record net_device_stats := mk_stats {
  rx_packets : Z;
  rx_bytes : Z;
  rx_dropped : Z;
  rx_over_errors : Z;
  tx_packets : Z;
  tx_bytes : Z
}.

(** The network device with its private data ([struct mcp2515_priv]) laid out
    flat.  [spi_queue] records the messages handed to [spi_async] (callback
    and the [transfer.len] bytes of the TX buffer), [delivered] the frames
    passed to [netif_rx_ni], [echo_skb] is slot 0 of the echo queue of the
    CAN framework and [queue_stopped] the state of the transmit queue. *)
Record net_device := mk_net_device {
  can_ctrlmode : Z;
  can_bt : can_bittiming;
  can_st : can_state;
  canintf : Z;
  eflg : Z;
  skb : option sk_buff;
  busy : bool;
  interrupt : bool;
  transmit : bool;
  message_complete : option completion;
  transfer_len : Z;
  tx_buf : list Z;
  rx_buf : list Z;
  stats : net_device_stats;
  queue_stopped : bool;
  echo_skb : option sk_buff;
  spi_queue : list (option completion * list Z);
  delivered : list can_frame
}.

(** Field updates. *)
Definition set_can_st (v : can_state) (d : net_device) : net_device :=
  mk_net_device (can_ctrlmode d) (can_bt d) v (canintf d) (eflg d) (skb d)
    (busy d) (interrupt d) (transmit d) (message_complete d) (transfer_len d)
    (tx_buf d) (rx_buf d) (stats d) (queue_stopped d) (echo_skb d)
    (spi_queue d) (delivered d).
Definition set_canintf (v : Z) (d : net_device) : net_device :=
  mk_net_device (can_ctrlmode d) (can_bt d) (can_st d) v (eflg d) (skb d)
    (busy d) (interrupt d) (transmit d) (message_complete d) (transfer_len d)
    (tx_buf d) (rx_buf d) (stats d) (queue_stopped d) (echo_skb d)
    (spi_queue d) (delivered d).
Definition set_eflg (v : Z) (d : net_device) : net_device :=
  mk_net_device (can_ctrlmode d) (can_bt d) (can_st d) (canintf d) v (skb d)
    (busy d) (interrupt d) (transmit d) (message_complete d) (transfer_len d)
    (tx_buf d) (rx_buf d) (stats d) (queue_stopped d) (echo_skb d)
    (spi_queue d) (delivered d).
Definition set_skb (v : option sk_buff) (d : net_device) : net_device :=
  mk_net_device (can_ctrlmode d) (can_bt d) (can_st d) (canintf d) (eflg d) v
    (busy d) (interrupt d) (transmit d) (message_complete d) (transfer_len d)
    (tx_buf d) (rx_buf d) (stats d) (queue_stopped d) (echo_skb d)
    (spi_queue d) (delivered d).
Definition set_busy (v : bool) (d : net_device) : net_device :=
  mk_net_device (can_ctrlmode d) (can_bt d) (can_st d) (canintf d) (eflg d)
    (skb d) v (interrupt d) (transmit d) (message_complete d) (transfer_len d)
    (tx_buf d) (rx_buf d) (stats d) (queue_stopped d) (echo_skb d)
    (spi_queue d) (delivered d).
Definition set_interrupt (v : bool) (d : net_device) : net_device :=
  mk_net_device (can_ctrlmode d) (can_bt d) (can_st d) (canintf d) (eflg d)
    (skb d) (busy d) v (transmit d) (message_complete d) (transfer_len d)
    (tx_buf d) (rx_buf d) (stats d) (queue_stopped d) (echo_skb d)
    (spi_queue d) (delivered d).
Definition set_transmit (v : bool) (d : net_device) : net_device :=
  mk_net_device (can_ctrlmode d) (can_bt d) (can_st d) (canintf d) (eflg d)
    (skb d) (busy d) (interrupt d) v (message_complete d) (transfer_len d)
    (tx_buf d) (rx_buf d) (stats d) (queue_stopped d) (echo_skb d)
    (spi_queue d) (delivered d).
Definition set_message_complete (v : option completion) (d : net_device)
  : net_device :=
  mk_net_device (can_ctrlmode d) (can_bt d) (can_st d) (canintf d) (eflg d)
    (skb d) (busy d) (interrupt d) (transmit d) v (transfer_len d)
    (tx_buf d) (rx_buf d) (stats d) (queue_stopped d) (echo_skb d)
    (spi_queue d) (delivered d).
Definition set_transfer_len (v : Z) (d : net_device) : net_device :=
  mk_net_device (can_ctrlmode d) (can_bt d) (can_st d) (canintf d) (eflg d)
    (skb d) (busy d) (interrupt d) (transmit d) (message_complete d) v
    (tx_buf d) (rx_buf d) (stats d) (queue_stopped d) (echo_skb d)
    (spi_queue d) (delivered d).
Definition set_tx_buf (v : list Z) (d : net_device) : net_device :=
  mk_net_device (can_ctrlmode d) (can_bt d) (can_st d) (canintf d) (eflg d)
    (skb d) (busy d) (interrupt d) (transmit d) (message_complete d)
    (transfer_len d) v (rx_buf d) (stats d) (queue_stopped d) (echo_skb d)
    (spi_queue d) (delivered d).
Definition set_rx_buf (v : list Z) (d : net_device) : net_device :=
  mk_net_device (can_ctrlmode d) (can_bt d) (can_st d) (canintf d) (eflg d)
    (skb d) (busy d) (interrupt d) (transmit d) (message_complete d)
    (transfer_len d) (tx_buf d) v (stats d) (queue_stopped d) (echo_skb d)
    (spi_queue d) (delivered d).
Definition set_stats (v : net_device_stats) (d : net_device) : net_device :=
  mk_net_device (can_ctrlmode d) (can_bt d) (can_st d) (canintf d) (eflg d)
    (skb d) (busy d) (interrupt d) (transmit d) (message_complete d)
    (transfer_len d) (tx_buf d) (rx_buf d) v (queue_stopped d) (echo_skb d)
    (spi_queue d) (delivered d).
Definition set_queue_stopped (v : bool) (d : net_device) : net_device :=
  mk_net_device (can_ctrlmode d) (can_bt d) (can_st d) (canintf d) (eflg d)
    (skb d) (busy d) (interrupt d) (transmit d) (message_complete d)
    (transfer_len d) (tx_buf d) (rx_buf d) (stats d) v (echo_skb d)
    (spi_queue d) (delivered d).
Definition set_echo_skb (v : option sk_buff) (d : net_device) : net_device :=
  mk_net_device (can_ctrlmode d) (can_bt d) (can_st d) (canintf d) (eflg d)
    (skb d) (busy d) (interrupt d) (transmit d) (message_complete d)
    (transfer_len d) (tx_buf d) (rx_buf d) (stats d) (queue_stopped d) v
    (spi_queue d) (delivered d).
Definition set_spi_queue (v : list (option completion * list Z))
    (d : net_device)
  : net_device :=
  mk_net_device (can_ctrlmode d) (can_bt d) (can_st d) (canintf d) (eflg d)
    (skb d) (busy d) (interrupt d) (transmit d) (message_complete d)
    (transfer_len d) (tx_buf d) (rx_buf d) (stats d) (queue_stopped d)
    (echo_skb d) v (delivered d).
Definition set_delivered (v : list can_frame) (d : net_device) : net_device :=
  mk_net_device (can_ctrlmode d) (can_bt d) (can_st d) (canintf d) (eflg d)
    (skb d) (busy d) (interrupt d) (transmit d) (message_complete d)
    (transfer_len d) (tx_buf d) (rx_buf d) (stats d) (queue_stopped d)
    (echo_skb d) (spi_queue d) v.

(** ** Synchronous SPI

    The bus and the chip behind it are an oracle: [answers n] is what the
    [n]-th synchronous operation returns (error code and, for a read, the
    byte found in the destination afterwards); [wire] records the bytes
    written by each operation, oldest first. *)

Record spi_reply := mk_spi_reply { reply_err : Z; reply_val : Z }.

Record spi_device := mk_spi_device {
  answers : nat -> spi_reply;
  wire : list (list Z)
}.

(** [spi_write(spi, buf, n)]. *)
Definition spi_write (spi : spi_device) (buf : list Z) (n : nat)
  : Z * spi_device :=
  (reply_err (answers spi (length (wire spi))),
   mk_spi_device (answers spi) (wire spi ++ [take n buf])).

(** [spi_write_then_read(spi, tx, n, val, 1)]. *)
Definition spi_write_then_read (spi : spi_device) (tx : list Z) (n : nat)
  : Z * Z * spi_device :=
  let r := answers spi (length (wire spi)) in
  (reply_err r, u8 (reply_val r),
   mk_spi_device (answers spi) (wire spi ++ [take n tx])).

Definition mcp2515_write_reg (spi : spi_device) (reg val : Z)
  : Z * spi_device :=
  spi_write spi [u8 MCP2515_INSTRUCTION_WRITE; u8 reg; u8 val] 3.

Definition mcp2515_read_reg (spi : spi_device) (reg : Z)
  : Z * Z * spi_device :=
  spi_write_then_read spi [u8 MCP2515_INSTRUCTION_READ; u8 reg] 2.

Definition mcp2515_hw_reset (spi : spi_device) : Z * spi_device :=
  spi_write spi [u8 MCP2515_INSTRUCTION_RESET] 1.

(** The three board hooks have empty bodies in the source (their contents
    are commented out). *)
Definition mcp2515_power_switch (on : Z) (spi : spi_device) : spi_device :=
  spi.
Definition mcp2515_transceiver_switch (on : Z) (spi : spi_device)
  : spi_device := spi.
Definition mcp2515_board_specific_setup (spi : spi_device) : spi_device :=
  spi.

(** The request-mode value of [mcp2515_chip_start] (the block under
    "handle can.ctrlmode"), as passed to [mcp2515_write_reg]. *)
Definition chip_start_mode (ctrlmode : Z) : Z :=
  let mode :=
    if truthy (Z.land ctrlmode CAN_CTRLMODE_LOOPBACK)
    then CANCTRL_REQOP_LOOPBACK
    else if truthy (Z.land ctrlmode CAN_CTRLMODE_LISTENONLY)
    then CANCTRL_REQOP_LISTEN_ONLY
    else CANCTRL_REQOP_NORMAL in
  let mode :=
    if truthy (Z.land mode CAN_CTRLMODE_ONE_SHOT)
    then u8 (Z.lor mode CANCTRL_OSM)
    else mode in
  mode.

(** The wait loop of [mcp2515_chip_start]: poll CANSTAT until the mode is
    reached; [polls] is the number of further polls before
    [time_after(jiffies, timeout)] becomes true. *)
Fixpoint chip_start_wait (mode : Z) (polls : nat) (spi : spi_device)
  : Z * spi_device :=
  let '(err, reg_stat, spi) := mcp2515_read_reg spi CANSTAT in
  if truthy err then (err, spi)
  else if Z.land reg_stat CANCTRL_REQOP_MASK =? mode then (0, spi)
  else match polls with
       | O => (- EBUSY, spi)
       | S polls' => chip_start_wait mode polls' spi
       end.

(** [mcp2515_chip_start]; the scratch buffer is [priv->transfer.tx_buf]. *)
Definition mcp2515_chip_start (polls : nat) (dev : net_device)
    (spi : spi_device) : option (Z * net_device * spi_device) :=
  let bt := can_bt dev in
  let '(err, spi) := mcp2515_hw_reset spi in
  if truthy err then Some (err, dev, spi) else
  buf ← store 0 MCP2515_INSTRUCTION_WRITE (tx_buf dev);
  buf ← store 1 CNF3 buf;
  buf ← store 2 (phase_seg2 bt - 1) buf;
  buf ← store 3
    (Z.lor (Z.lor (Z.lor CNF2_BTLMODE
       (if truthy (Z.land (can_ctrlmode dev) CAN_CTRLMODE_3_SAMPLES)
        then CNF2_SAM else 0x0))
       (Z.shiftl (u32 (phase_seg1 bt - 1)) 3)) (u32 (prop_seg bt - 1))) buf;
  buf ← store 4
    (Z.lor (Z.shiftl (u32 (sjw bt - 1)) 6) (u32 (brp bt - 1))) buf;
  buf ← store 5 (Z.lor (Z.lor CANINTE_RX CANINTE_TX) CANINTE_ERR) buf;
  let '(err, spi) := spi_write spi buf 6 in
  if truthy err then Some (err, set_tx_buf buf dev, spi) else
  buf ← store 1 RXB0CTRL buf;
  buf ← store 2 (Z.lor (Z.lor RXBCTRL_RXM1 RXBCTRL_RXM0) RXBCTRL_BUKT) buf;
  buf ← store 3 (Z.lor RXBCTRL_RXM1 RXBCTRL_RXM0) buf;
  let dev := set_tx_buf buf dev in
  let '(err, spi) := spi_write spi buf 4 in
  if truthy err then Some (err, dev, spi) else
  let mode := chip_start_mode (can_ctrlmode dev) in
  let spi := mcp2515_transceiver_switch 1 spi in
  let '(_, spi) := mcp2515_write_reg spi CANCTRL mode in
  let '(err, spi) := chip_start_wait mode polls spi in
  if truthy err then Some (err, dev, mcp2515_transceiver_switch 0 spi)
  else Some (0, set_can_st CAN_STATE_ERROR_ACTIVE dev, spi).

(** The result of [mcp2515_register_candev]: its return value and whether
    [register_candev] of the CAN framework was called. *)
Record register_result := mk_register_result {
  reg_ret : Z;
  reg_called : bool;
  reg_spi : spi_device
}.

(** [mcp2515_register_candev]; [register_err] is what the framework's
    [register_candev] returns when it is called. *)
Definition mcp2515_register_candev (register_err : Z) (spi : spi_device)
  : register_result :=
  let err := 0 in
  let spi := mcp2515_board_specific_setup spi in
  let spi := mcp2515_power_switch 1 spi in
  let '(_, spi) := mcp2515_hw_reset spi in
  let '(e, reg_stat, spi) := mcp2515_read_reg spi CANSTAT in
  let err := Z.lor err e in
  let '(e, reg_ctrl, spi) := mcp2515_read_reg spi CANCTRL in
  let err := Z.lor err e in
  if negb ((Z.land reg_stat 0xee =? 0x80) && (Z.land reg_ctrl 0x17 =? 0x07))
     || truthy err
  then mk_register_result (- ENODEV) false (mcp2515_power_switch 0 spi)
  else
    let err := register_err in
    if truthy err
    then mk_register_result err true (mcp2515_power_switch 0 spi)
    else mk_register_result 0 true (mcp2515_power_switch 0 spi).

(** [mcp2515_probe], up to the call of [mcp2515_register_candev]:
    [pdata] tells whether platform data is present, [alloc] whether
    [alloc_candev] succeeded. *)
Definition mcp2515_probe (pdata alloc : bool) (register_err : Z)
    (spi : spi_device) : register_result :=
  if negb pdata then mk_register_result (- ENODEV) false spi
  else if negb alloc then mk_register_result (- ENOMEM) false spi
  else
    let r := mcp2515_register_candev register_err spi in
    if truthy (reg_ret r) then r
    else mk_register_result 0 (reg_called r) (reg_spi r).

(** ** Frame to buffer mapping *)

(** The first part of [mcp2515_set_txbuf] (up to [buf[4] |= 0x40]): the
    four identifier bytes and the DLC byte, written at [buf + off]. *)
Definition mcp2515_set_txbuf_head (off : nat) (frame : can_frame)
    (buf : list Z) : option (list Z) :=
  buf ←
    (if truthy (Z.land (can_id frame) CAN_EFF_FLAG) then
       buf ← store (off + 0) (Z.shiftr (can_id frame) 21) buf;
       buf ← store (off + 1)
         (Z.lor (Z.lor (Z.land (Z.shiftr (can_id frame) 13) 0xe0) 8)
                (Z.land (Z.shiftr (can_id frame) 16) 3)) buf;
       buf ← store (off + 2) (Z.shiftr (can_id frame) 8) buf;
       store (off + 3) (can_id frame) buf
     else
       buf ← store (off + 0) (Z.shiftr (can_id frame) 3) buf;
       buf ← store (off + 1) (u32 (Z.shiftl (can_id frame) 5)) buf;
       buf ← store (off + 2) 0 buf;
       store (off + 3) 0 buf);
  buf ← store (off + 4) (can_dlc frame) buf;
  if truthy (Z.land (can_id frame) CAN_RTR_FLAG) then
    b4 ← load (off + 4) buf;
    store (off + 4) (Z.lor b4 0x40) buf
  else Some buf.

(** [mcp2515_set_txbuf(buf + off, skb)]: returns the buffer and the number
    of bytes set.  The [memcpy] reads [can_dlc] bytes of [frame->data]. *)
Definition mcp2515_set_txbuf (off : nat) (skb : sk_buff) (buf : list Z)
  : option (list Z * Z) :=
  let frame := skb_data skb in
  buf ← mcp2515_set_txbuf_head off frame buf;
  buf ← memcpy (off + 5) (data frame) 0 (Z.to_nat (can_dlc frame)) buf;
  Some (buf, 5 + can_dlc frame).

(** The decoding part of [mcp2515_read_rxb_complete] (from the test of
    [RXBSIDL_IDE] to the [memcpy]): fills [frame] from the RX buffer. *)
Definition mcp2515_rxb_to_frame (buf : list Z) (frame : can_frame)
  : option can_frame :=
  b2 ← load 2 buf;
  id ←
    (if truthy (Z.land b2 RXBSIDL_IDE) then
       b1 ← load 1 buf;
       b3 ← load 3 buf;
       b4 ← load 4 buf;
       let id :=
         u32 (Z.lor (Z.lor (Z.lor (Z.lor (Z.lor
           (Z.shiftl b1 21)
           (Z.shiftl (Z.land b2 0xe0) 13))
           (Z.shiftl (Z.land b2 3) 16))
           (Z.shiftl b3 8))
           b4)
           CAN_EFF_FLAG) in
       b5 ← load 5 buf;
       Some (if truthy (Z.land b5 RXBDLC_RTR)
             then Z.lor id CAN_RTR_FLAG else id)
     else
       b1 ← load 1 buf;
       let id := u32 (Z.lor (Z.shiftl b1 3) (Z.shiftr b2 5)) in
       Some (if truthy (Z.land b2 RXBSIDL_SRR)
             then Z.lor id CAN_RTR_FLAG else id));
  b5 ← load 5 buf;
  let dlc := get_can_dlc (Z.land b5 0xf) in
  dat ←
    (if negb (truthy (Z.land id CAN_RTR_FLAG))
     then memcpy 0 buf 6 (Z.to_nat dlc) (data frame)
     else Some (data frame));
  Some (mk_can_frame id dlc dat).

(** ** Counters and the CAN framework *)

Definition zero_stats : net_device_stats := mk_stats 0 0 0 0 0 0.

Definition add_rx_packets (n : Z) (s : net_device_stats) : net_device_stats :=
  mk_stats (ulong (rx_packets s + n)) (rx_bytes s) (rx_dropped s)
    (rx_over_errors s) (tx_packets s) (tx_bytes s).
Definition add_rx_bytes (n : Z) (s : net_device_stats) : net_device_stats :=
  mk_stats (rx_packets s) (ulong (rx_bytes s + n)) (rx_dropped s)
    (rx_over_errors s) (tx_packets s) (tx_bytes s).
Definition add_rx_dropped (n : Z) (s : net_device_stats) : net_device_stats :=
  mk_stats (rx_packets s) (rx_bytes s) (ulong (rx_dropped s + n))
    (rx_over_errors s) (tx_packets s) (tx_bytes s).
Definition add_rx_over_errors (n : Z) (s : net_device_stats)
  : net_device_stats :=
  mk_stats (rx_packets s) (rx_bytes s) (rx_dropped s)
    (ulong (rx_over_errors s + n)) (tx_packets s) (tx_bytes s).
Definition add_tx_packets (n : Z) (s : net_device_stats) : net_device_stats :=
  mk_stats (rx_packets s) (rx_bytes s) (rx_dropped s) (rx_over_errors s)
    (ulong (tx_packets s + n)) (tx_bytes s).
Definition add_tx_bytes (n : Z) (s : net_device_stats) : net_device_stats :=
  mk_stats (rx_packets s) (rx_bytes s) (rx_dropped s) (rx_over_errors s)
    (tx_packets s) (ulong (tx_bytes s + n)).

(** Modelled from the spec: the echo-queue function [put_echo(skb, idx)] of
    the CAN device framework, which is not part of the sources: the skb is
    parked in slot 0 when the slot is free. *)
Definition can_put_echo_skb (s : sk_buff) (dev : net_device) : net_device :=
  match echo_skb dev with
  | None => set_echo_skb (Some s) dev
  | Some _ => dev
  end.

(** Modelled from the spec: the echo-queue function
    [get_echo(dev, idx) -> byte_count] of the CAN device framework, which is
    not part of the sources: slot 0 is emptied and the data length of the
    frame that was parked there is returned (0 when the slot was empty). *)
Definition can_get_echo_skb (dev : net_device) : Z * net_device :=
  match echo_skb dev with
  | None => (0, dev)
  | Some s => (can_dlc (skb_data s), set_echo_skb None dev)
  end.

(** The transmit queue of the network stack, reduced to its stopped flag,
    and the receive path, reduced to the list of frames handed over. *)
Definition netif_stop_queue (dev : net_device) : net_device :=
  set_queue_stopped true dev.
Definition netif_wake_queue (dev : net_device) : net_device :=
  set_queue_stopped false dev.
Definition netif_start_queue (dev : net_device) : net_device :=
  set_queue_stopped false dev.
Definition netif_rx_ni (frame : can_frame) (dev : net_device) : net_device :=
  set_delivered (delivered dev ++ [frame]) dev.

(** [enum can_mode]. *)
Inductive can_mode := CAN_MODE_STOP | CAN_MODE_START | CAN_MODE_SLEEP.

(** ** The asynchronous steps *)

(** [mcp2515_spi_async]: the message (callback and the [transfer.len] bytes
    of the TX buffer) is handed to the bus.  When [spi_async] fails the
    source only logs, so the driver state is the same in both cases.
    [spi_queue] is the log of the submissions, with the bytes the TX buffer
    holds at that moment.  The message of the source points at the TX
    buffer, so a write to the buffer while the message is in flight (only
    [mcp2515_chip_start] does that, using it as scratch) changes what the bus
    sends but not the entry of the log. *)
Definition mcp2515_spi_async (dev : net_device) : net_device :=
  set_spi_queue
    (spi_queue dev ++
       [(message_complete dev,
         take (Z.to_nat (transfer_len dev)) (tx_buf dev))]) dev.

Definition mcp2515_read_flags (dev : net_device) : option net_device :=
  buf ← store 0 MCP2515_INSTRUCTION_READ (tx_buf dev);
  buf ← store 1 CANINTF buf;
  buf ← store 2 0 buf;
  buf ← store 3 0 buf;
  let dev := set_tx_buf buf dev in
  let dev := set_transfer_len 4 dev in
  let dev := set_message_complete (Some read_flags_complete) dev in
  Some (mcp2515_spi_async dev).

Definition mcp2515_read_rxb (instruction : Z) (complete : completion)
    (dev : net_device) : option net_device :=
  buf ← memset 0 14 (tx_buf dev);
  buf ← store 0 instruction buf;
  let dev := set_tx_buf buf dev in
  let dev := set_transfer_len 14 dev in
  let dev := set_message_complete (Some complete) dev in
  Some (mcp2515_spi_async dev).

Definition mcp2515_read_rxb0 (dev : net_device) : option net_device :=
  mcp2515_read_rxb (MCP2515_INSTRUCTION_READ_RXB 0) read_rxb0_complete dev.

Definition mcp2515_read_rxb1 (dev : net_device) : option net_device :=
  mcp2515_read_rxb (MCP2515_INSTRUCTION_READ_RXB 1) read_rxb1_complete dev.

Definition mcp2515_clear_canintf (dev : net_device) : option net_device :=
  buf ← store 0 MCP2515_INSTRUCTION_BIT_MODIFY (tx_buf dev);
  buf ← store 1 CANINTF buf;
  buf ← store 2
    (Z.land (canintf dev) (Z.lnot (Z.lor CANINTF_RX0IF CANINTF_RX1IF))) buf;
  buf ← store 3 0 buf;
  let dev := set_tx_buf buf dev in
  let dev := set_transfer_len 4 dev in
  let dev := set_message_complete (Some clear_canintf_complete) dev in
  Some (mcp2515_spi_async dev).

Definition mcp2515_clear_eflg (dev : net_device) : option net_device :=
  buf ← store 0 MCP2515_INSTRUCTION_BIT_MODIFY (tx_buf dev);
  buf ← store 1 EFLAG buf;
  buf ← store 2 (eflg dev) buf;
  buf ← store 3 0 buf;
  let dev := set_tx_buf buf dev in
  let dev := set_transfer_len 4 dev in
  let dev := set_message_complete (Some clear_eflg_complete) dev in
  Some (mcp2515_spi_async dev).

(** [mcp2515_load_txb0(skb, dev)]; a null [skb] is dereferenced by
    [mcp2515_set_txbuf]. *)
Definition mcp2515_load_txb0 (s : option sk_buff) (dev : net_device)
  : option net_device :=
  buf ← store 0 (MCP2515_INSTRUCTION_LOAD_TXB 0) (tx_buf dev);
  s ← s;
  '(buf, n) ← mcp2515_set_txbuf 1 s buf;
  let dev := set_tx_buf buf dev in
  let dev := set_transfer_len (n + 1) dev in
  let dev := set_message_complete (Some load_txb0_complete) dev in
  let dev := can_put_echo_skb s dev in
  Some (mcp2515_spi_async dev).

Definition mcp2515_rts_txb0 (dev : net_device) : option net_device :=
  buf ← store 0 (MCP2515_INSTRUCTION_RTS 0) (tx_buf dev);
  let dev := set_tx_buf buf dev in
  let dev := set_transfer_len 1 dev in
  let dev := set_message_complete (Some rts_txb0_complete) dev in
  Some (mcp2515_spi_async dev).

(** ** Completion callbacks

    Each critical section of the source ([spin_lock_irqsave] ...
    [spin_unlock_irqrestore]) reads and writes the three flags in one go, so
    a callback is modelled as one atomic function of the device. *)

Definition mcp2515_read_flags_complete (dev : net_device)
  : option net_device :=
  b2 ← load 2 (rx_buf dev);
  let canintf_ := b2 in
  let dev := set_canintf canintf_ dev in
  b3 ← load 3 (rx_buf dev);
  let dev := set_eflg b3 dev in
  if truthy (Z.land canintf_ CANINTF_RX0IF) then mcp2515_read_rxb0 dev
  else if truthy (Z.land canintf_ CANINTF_RX1IF) then mcp2515_read_rxb1 dev
  else if truthy canintf_ then mcp2515_clear_canintf dev
  else if transmit dev then
    let dev := set_transmit false dev in
    mcp2515_load_txb0 (skb dev) dev
  else if interrupt dev then
    let dev := set_interrupt false dev in
    mcp2515_read_flags dev
  else
    Some (set_busy false dev).

(** [alloc] tells whether [alloc_can_skb] succeeds. *)
Definition mcp2515_read_rxb_complete (alloc : bool) (dev : net_device)
  : option net_device :=
  if negb alloc then
    Some (set_stats (add_rx_dropped 1 (stats dev)) dev)
  else
    frame ← mcp2515_rxb_to_frame (rx_buf dev) zero_frame;
    let dev := set_stats (add_rx_packets 1 (stats dev)) dev in
    let dev := set_stats (add_rx_bytes (can_dlc frame) (stats dev)) dev in
    Some (netif_rx_ni frame dev).

Definition mcp2515_transmit_or_read_flags (dev : net_device)
  : option net_device :=
  if transmit dev then
    let dev := set_transmit false dev in
    mcp2515_load_txb0 (skb dev) dev
  else
    mcp2515_read_flags dev.

Definition mcp2515_read_rxb0_complete (alloc : bool) (dev : net_device)
  : option net_device :=
  dev ← mcp2515_read_rxb_complete alloc dev;
  if truthy (Z.land (canintf dev) CANINTF_RX1IF)
  then mcp2515_read_rxb1 dev
  else mcp2515_transmit_or_read_flags dev.

Definition mcp2515_read_rxb1_complete (alloc : bool) (dev : net_device)
  : option net_device :=
  dev ← mcp2515_read_rxb_complete alloc dev;
  mcp2515_transmit_or_read_flags dev.

Definition mcp2515_clear_canintf_complete (dev : net_device)
  : option net_device :=
  let dev :=
    if truthy (Z.land (canintf dev) CANINTF_TX0IF) then
      let dev :=
        match skb dev with
        | Some _ =>
            let '(n, dev) := can_get_echo_skb dev in
            let dev := set_stats (add_tx_bytes n (stats dev)) dev in
            set_stats (add_tx_packets 1 (stats dev)) dev
        | None => dev
        end in
      let dev := set_skb None dev in
      netif_wake_queue dev
    else dev in
  if truthy (eflg dev) then mcp2515_clear_eflg dev
  else mcp2515_read_flags dev.

Definition mcp2515_clear_eflg_complete (dev : net_device)
  : option net_device :=
  let dev :=
    if truthy (Z.land (eflg dev) (Z.lor EFLG_RX0OVR EFLG_RX1OVR))
    then set_stats (add_rx_over_errors 1 (stats dev)) dev
    else dev in
  mcp2515_read_flags dev.

Definition mcp2515_load_txb0_complete (dev : net_device)
  : option net_device :=
  mcp2515_rts_txb0 dev.

Definition mcp2515_rts_txb0_complete (dev : net_device)
  : option net_device :=
  mcp2515_read_flags dev.

(** ** Interrupt handler *)

Definition mcp2515_interrupt (dev : net_device) : option net_device :=
  if busy dev then
    Some (set_interrupt true dev)
  else
    let dev := set_busy true dev in
    mcp2515_read_flags dev.

(** ** Open, close and mode changes *)

Definition mcp2515_chip_stop (dev : net_device) (spi : spi_device)
  : net_device * spi_device :=
  let '(_, spi) := mcp2515_hw_reset spi in
  let spi := mcp2515_transceiver_switch 0 spi in
  (set_can_st CAN_STATE_STOPPED dev, spi).

(** [mcp2515_open]; [open_err] and [irq_err] are the results of the
    framework's [open_candev] and of [request_irq]. *)
Definition mcp2515_open (open_err irq_err : Z) (polls : nat)
    (dev : net_device) (spi : spi_device)
  : option (Z * net_device * spi_device) :=
  let spi := mcp2515_power_switch 1 spi in
  if truthy open_err then Some (open_err, dev, mcp2515_power_switch 0 spi)
  else if truthy irq_err
  then Some (irq_err, dev, mcp2515_power_switch 0 spi)
  else
    '(err, dev, spi) ← mcp2515_chip_start polls dev spi;
    if truthy err then Some (err, dev, mcp2515_power_switch 0 spi)
    else Some (0, netif_start_queue dev, spi).

Definition mcp2515_close (dev : net_device) (spi : spi_device)
  : Z * net_device * spi_device :=
  let dev := netif_stop_queue dev in
  let '(dev, spi) := mcp2515_chip_stop dev spi in
  let spi := mcp2515_power_switch 0 spi in
  (0, dev, spi).

Definition mcp2515_set_mode (mode : can_mode) (polls : nat)
    (dev : net_device) (spi : spi_device)
  : option (Z * net_device * spi_device) :=
  match mode with
  | CAN_MODE_START =>
      '(err, dev, spi) ← mcp2515_chip_start polls dev spi;
      if truthy err then Some (err, dev, spi)
      else Some (0, netif_wake_queue dev, spi)
  | _ => Some (- EOPNOTSUPP, dev, spi)
  end.

(** The device as [mcp2515_probe] leaves it: [alloc_candev] zeroes the
    private data (state STOPPED), the control mode and bit timing are set by
    the framework, and the two buffers hold 14 bytes each with unspecified
    contents. *)
Definition probed_device (ctrlmode : Z) (bt : can_bittiming)
    (txb rxb : list Z) : net_device :=
  mk_net_device ctrlmode bt CAN_STATE_STOPPED 0 0 None false false false
    None 0
    (u8 <$> resize MCP2515_BUF_SIZE 0 txb)
    (u8 <$> resize MCP2515_BUF_SIZE 0 rxb)
    zero_stats false None [] [].

(** What can happen to a probed device.  The events are not restricted to
    those the bus and the network stack produce in a given state (a
    completion is accepted whenever a callback is set), so the properties
    below hold for every interleaving. *)
Inductive event :=
  | ev_interrupt
  | ev_start_xmit (s : sk_buff)
  | ev_spi_complete (rx : list Z) (alloc : bool)
  | ev_open (open_err irq_err : Z) (polls : nat) (spi : spi_device)
  | ev_close (spi : spi_device)
  | ev_set_mode (mode : can_mode) (polls : nat) (spi : spi_device).

Section Driver.

(** The verdict of the framework's [can_dropped_invalid_skb] (declared in
    linux/can/dev.h, outside the sources): [true] when the skb is invalid
    and has been dropped. *)
Variable can_dropped_invalid_skb : sk_buff -> bool.

(** ** Transmit entry *)

Definition mcp2515_start_xmit (s : sk_buff) (dev : net_device)
  : option net_device :=
  if can_dropped_invalid_skb s then Some dev
  else
    let dev := netif_stop_queue dev in
    let dev := set_skb (Some s) dev in
    if busy dev then
      Some (set_transmit true dev)
    else
      let dev := set_busy true dev in
      mcp2515_load_txb0 (Some s) dev.

(** ** The bus completes the message in flight

    The bus clocks in [transfer.len] bytes ([rx], padded with zeros) and
    stores them at the start of the RX buffer, then calls
    [message.complete]. *)
Definition spi_complete (rx : list Z) (alloc : bool) (dev : net_device)
  : option net_device :=
  let n := Z.to_nat (transfer_len dev) in
  buf ← memcpy 0 (u8 <$> resize n 0 rx) 0 n (rx_buf dev);
  let dev := set_rx_buf buf dev in
  match message_complete dev with
  | None => Some dev
  | Some read_flags_complete => mcp2515_read_flags_complete dev
  | Some read_rxb0_complete => mcp2515_read_rxb0_complete alloc dev
  | Some read_rxb1_complete => mcp2515_read_rxb1_complete alloc dev
  | Some clear_canintf_complete => mcp2515_clear_canintf_complete dev
  | Some clear_eflg_complete => mcp2515_clear_eflg_complete dev
  | Some load_txb0_complete => mcp2515_load_txb0_complete dev
  | Some rts_txb0_complete => mcp2515_rts_txb0_complete dev
  end.

(** One operation of the driver. *)
Definition step (dev : net_device) (ev : event) : option net_device :=
  match ev with
  | ev_interrupt => mcp2515_interrupt dev
  | ev_start_xmit s => mcp2515_start_xmit s dev
  | ev_spi_complete rx alloc => spi_complete rx alloc dev
  | ev_open open_err irq_err polls spi =>
      r ← mcp2515_open open_err irq_err polls dev spi; Some (r.1.2)
  | ev_close spi => Some ((mcp2515_close dev spi).1.2)
  | ev_set_mode mode polls spi =>
      r ← mcp2515_set_mode mode polls dev spi; Some (r.1.2)
  end.

(** The states a probed device can get into. *)
Inductive reachable : net_device -> Prop :=
  | reachable_probe ctrlmode bt txb rxb :
      reachable (probed_device ctrlmode bt txb rxb)
  | reachable_step dev ev dev' :
      reachable dev -> step dev ev = Some dev' -> reachable dev'.

(** Running a list of events. *)
Fixpoint run (dev : net_device) (evs : list event) : option net_device :=
  match evs with
  | [] => Some dev
  | ev :: evs' => dev' ← step dev ev; run dev' evs'
  end.

End Driver.

(** The asynchronous steps of the state machine, by name. *)
Inductive async_step :=
  | READ_FLAGS
  | READ_RXB0
  | READ_RXB1
  | CLEAR_CANINTF
  | CLEAR_EFLG
  | LOAD_TXB0 (s : sk_buff)
  | RTS_TXB0.

Definition issue (st : async_step) (dev : net_device) : option net_device :=
  match st with
  | READ_FLAGS => mcp2515_read_flags dev
  | READ_RXB0 => mcp2515_read_rxb0 dev
  | READ_RXB1 => mcp2515_read_rxb1 dev
  | CLEAR_CANINTF => mcp2515_clear_canintf dev
  | CLEAR_EFLG => mcp2515_clear_eflg dev
  | LOAD_TXB0 s => mcp2515_load_txb0 (Some s) dev
  | RTS_TXB0 => mcp2515_rts_txb0 dev
  end.

(** The frames of properties P3 and P4 of the spec. *)
Definition frame_std : can_frame :=
  mk_can_frame 0x123 3 [0xAA; 0xBB; 0xCC; 0; 0; 0; 0; 0].
Definition frame_ext : can_frame :=
  mk_can_frame (Z.lor 0x1ABCDEF0 CAN_EFF_FLAG) 2
    [0x11; 0x22; 0; 0; 0; 0; 0; 0].

(** A READ-RXB buffer whose bytes 1..13 are the LOAD-TXB payload made by
    [mcp2515_set_txbuf] for [f] (byte 0 is clocked in while the instruction
    goes out). *)
Definition encode_then_decode (f : can_frame) : option can_frame :=
  '(buf, _) ← mcp2515_set_txbuf 1 (mk_sk_buff f) (replicate 14 0);
  mcp2515_rxb_to_frame buf zero_frame.

(** ** Definitions used by the properties *)

(** A bus on which every operation succeeds and every register reads [v]. *)
Definition quiet_bus (v : Z) : spi_device :=
  mk_spi_device (fun _ => mk_spi_reply 0 v) [].

(** A bus with a chip just out of reset: CANSTAT reads 0x80 and CANCTRL
    reads 0x07 (operations 1 and 2 of the probe), every operation
    succeeds. *)
Definition reset_bus : spi_device :=
  mk_spi_device
    (fun n => match n with
              | 1%nat => mk_spi_reply 0 0x80
              | 2%nat => mk_spi_reply 0 0x07
              | _ => mk_spi_reply 0 0
              end) [].

(** A bit timing (brp 4, prop_seg 2, phase_seg1 7, phase_seg2 6, sjw 1). *)
Definition bt_125k : can_bittiming := mk_can_bittiming 4 2 7 6 1.

(** What the spec calls "RTR indicated" in a READ-RXB buffer: the SRR bit of
    SIDL for a standard frame, the RTR bit of the DLC byte for an extended
    one. *)
Definition rxb_rtr_indicated (buf : list Z) : bool :=
  match buf !! 2%nat, buf !! 5%nat with
  | Some b2, Some b5 =>
      if truthy (Z.land b2 RXBSIDL_IDE) then truthy (Z.land b5 RXBDLC_RTR)
      else truthy (Z.land b2 RXBSIDL_SRR)
  | _, _ => false
  end.

(** The claim of C4 on the encode side, as the spec words it: a frame with
    the RTR flag yields a payload that ends after the DLC byte. *)
Definition rtr_payload_ends_after_dlc (f : can_frame) : Prop :=
  exists buf', mcp2515_set_txbuf 0 (mk_sk_buff f) (replicate 13 0)
               = Some (buf', 5).

(** Sample inputs: a READ-RXB buffer of a standard remote frame (SRR set),
    the frame it decodes to, a remote frame to encode and its payload. *)
Definition rxb_remote : list Z :=
  [0; 0x24; 0x70; 0; 0; 3; 9; 9; 9; 0; 0; 0; 0; 0].
Definition frame_remote_rx : can_frame :=
  mk_can_frame (Z.lor 0x123 CAN_RTR_FLAG) 3 (replicate 8 0).
Definition frame_remote_tx : can_frame :=
  mk_can_frame (Z.lor 0x123 CAN_RTR_FLAG) 3 [1; 2; 3; 0; 0; 0; 0; 0].
Definition txb_remote : list Z :=
  [0x24; 0x60; 0; 0; 0x43; 1; 2; 3; 0; 0; 0; 0; 0].

(** The claim of C6 on the encode side, as the spec words it: the low four
    bits of the DLC byte are the data length clamped to 0..8, bit 6 is the
    RTR flag. *)
Definition dlc_byte_as_claimed (f : can_frame) : Prop :=
  exists buf b,
    mcp2515_set_txbuf_head 0 f (replicate 13 0) = Some buf /\
    buf !! 4%nat = Some b /\
    Z.land b 0xf = Z.max 0 (Z.min (can_dlc f) 8) /\
    Z.testbit b 6 = truthy (Z.land (can_id f) CAN_RTR_FLAG).

(** Sample inputs: an extended remote frame as READ-RXB delivers it. *)
Definition rxb_ext_remote : list Z :=
  [0; 0xD5; 0xE8; 0xDE; 0xF0; 0x42; 0; 0; 0; 0; 0; 0; 0; 0].
Definition frame_ext_remote : can_frame :=
  mk_can_frame (Z.lor (Z.lor 0x1ABCDEF0 CAN_EFF_FLAG) CAN_RTR_FLAG) 2
    (replicate 8 0).

(** The device after a step has put [buf] and [len] in the transfer, set the
    callback [c] and called [mcp2515_spi_async]. *)
Definition queued (c : completion) (len : Z) (buf : list Z)
    (dev : net_device) : net_device :=
  mcp2515_spi_async
    (set_message_complete (Some c)
       (set_transfer_len len (set_tx_buf buf dev))).

(** [dev'] differs from [dev] at most in the transfer (TX buffer contents,
    length, callback), the echo slot and one more message on the bus. *)
Definition same_control (dev dev' : net_device) : Prop :=
  can_ctrlmode dev' = can_ctrlmode dev /\
  busy dev' = busy dev /\
  interrupt dev' = interrupt dev /\
  transmit dev' = transmit dev /\
  skb dev' = skb dev /\
  canintf dev' = canintf dev /\
  eflg dev' = eflg dev /\
  stats dev' = stats dev /\
  queue_stopped dev' = queue_stopped dev /\
  rx_buf dev' = rx_buf dev /\
  delivered dev' = delivered dev /\
  length (tx_buf dev') = length (tx_buf dev) /\
  exists bytes,
    spi_queue dev' = spi_queue dev ++ [(message_complete dev', bytes)].

(** A device in the middle of scenario 4 of the spec: CANINTF = 0x23 and
    EFLG = 0x40 have been read. *)
Definition dev_overflow : net_device :=
  set_eflg 0x40 (set_canintf 0x23 (probed_device 0 bt_125k [] [])).

(** The transfer length each step asks for. *)
Definition step_len (st : async_step) : Z :=
  match st with
  | READ_FLAGS | CLEAR_CANINTF | CLEAR_EFLG => 4
  | READ_RXB0 | READ_RXB1 => 14
  | RTS_TXB0 => 1
  | LOAD_TXB0 s => 1 + 5 + can_dlc (skb_data s)
  end.

(** A device whose READ_FLAGS has just completed with CANINTF = 0x01. *)
Definition dev_rx0 : net_device :=
  set_busy true (probed_device 0 bt_125k [] [0; 0; 0x01; 0]).

(** Invariant I6 of the spec. *)
Definition I6 (dev : net_device) : Prop :=
  busy dev = false -> transmit dev = false /\ interrupt dev = false.

(** An operation that keeps [busy], [interrupt] and the pending skb, and
    either keeps [transmit] or clears it. *)
Definition keeps_flags (dev dev' : net_device) : Prop :=
  busy dev' = busy dev /\
  interrupt dev' = interrupt dev /\
  (transmit dev' = transmit dev \/ transmit dev' = false) /\
  skb dev' = skb dev.

(** A sample verdict for the transmit entry: frames of more than 8 bytes are
    dropped. *)
Definition dropped_over_8 (s : sk_buff) : bool :=
  negb (can_dlc (skb_data s) <=? 8).

(** Scenario 3 of the spec: a frame is submitted, an interrupt fires while
    LOAD_TXB0 is in flight, the flags read 0x05, RXB0 is read, the flags
    read 0x04, TX0IF is cleared, and the flags then read 0 twice (the second
    READ_FLAGS serves the recorded interrupt). *)
Definition scenario_rx_during_tx : list event :=
  [ev_start_xmit (mk_sk_buff frame_std);
   ev_interrupt;
   ev_spi_complete [] true;
   ev_spi_complete [] true;
   ev_spi_complete [0; 0; 0x05; 0] true;
   ev_spi_complete [0; 0x40; 0; 0; 0; 1; 0x5A] true;
   ev_spi_complete [0; 0; 0x04; 0] true;
   ev_spi_complete [] true;
   ev_spi_complete [0; 0; 0; 0] true;
   ev_spi_complete [0; 0; 0; 0] true].

(** A freshly probed device. *)
Definition dev_probed : net_device := probed_device 0 bt_125k [] [].

(** The device after the first [n] events of scenario 3. *)
Definition dev_scenario (n : nat) : net_device :=
  default dev_probed
    (run dropped_over_8 dev_probed (take n scenario_rx_during_tx)).

(** The outcome [r] of an operation on [dev] is a device to which exactly
    one more message was handed over: the callback [c] and the bytes [bytes]
    were passed to [mcp2515_spi_async], with [transfer.len] their number, and
    [busy] is as it was. *)
Definition hands_to_bus (c : completion) (bytes : list Z) (dev : net_device)
    (r : option net_device) : Prop :=
  exists dev',
    r = Some dev' /\
    message_complete dev' = Some c /\
    transfer_len dev' = Z.of_nat (length bytes) /\
    spi_queue dev' = spi_queue dev ++ [(Some c, bytes)] /\
    busy dev' = busy dev.

(** ** Definitions used by the further properties *)

(** A frame as the network stack hands it over: at most 8 data bytes, and
    the bytes of the data array beyond the length are zero. *)
Definition data_ok (f : can_frame) : Prop :=
  0 <= can_dlc f <= 8 /\ length (data f) = 8%nat /\
  drop (Z.to_nat (can_dlc f)) (data f) =
    replicate (8 - Z.to_nat (can_dlc f)) 0.

(** Sample frames: a standard frame with the highest identifier and a full
    payload, an extended one with the highest identifier, and an extended
    remote frame whose data array still holds two bytes. *)
Definition frame_std_full : can_frame :=
  mk_can_frame 0x7FF 8 [1; 2; 3; 4; 5; 6; 7; 8].
Definition frame_ext_max : can_frame :=
  mk_can_frame (Z.lor 0x1FFFFFFF CAN_EFF_FLAG) 1 [0xA5; 0; 0; 0; 0; 0; 0; 0].
Definition frame_ext_remote_tx : can_frame :=
  mk_can_frame (Z.lor (Z.lor 0x1ABCDEF0 CAN_EFF_FLAG) CAN_RTR_FLAG) 2
    [0x11; 0x22; 0; 0; 0; 0; 0; 0].

(** Sample input: a READ-RXB buffer of the standard frame 0x123 whose DLC
    nibble reads 15, with 8 data bytes behind it. *)
Definition rxb_dlc15 : list Z :=
  [0; 0x24; 0x60; 0; 0; 0x0F; 1; 2; 3; 4; 5; 6; 7; 8].

(** Sample input: a TX buffer holding the LOAD_TXB0 instruction and stale
    bytes, and the same buffer after the frame of P3 was written at
    offset 1. *)
Definition txb_stale : list Z := 0x40 :: replicate 13 0xEE.
Definition txb_loaded : list Z :=
  [0x40; 0x24; 0x60; 0; 0; 3; 0xAA; 0xBB; 0xCC; 0xEE; 0xEE; 0xEE; 0xEE; 0xEE].

(** A step has handed one more message to the bus, with callback [c], and
    left [busy] as it was. *)
Definition dispatched (c : completion) (dev dev' : net_device) : Prop :=
  message_complete dev' = Some c /\ busy dev' = busy dev /\
  exists bytes, spi_queue dev' = spi_queue dev ++ [(Some c, bytes)].

(** A completion callback has handed the chain on: one message dispatched;
    [transmit] is kept, or cleared by dispatching LOAD_TXB0; [interrupt] is
    kept, or cleared by the drain dispatching READ_FLAGS. *)
Definition handed_on (dev dev' : net_device) : Prop :=
  exists c, dispatched c dev dev' /\
    (transmit dev' = transmit dev \/
     transmit dev = true /\ transmit dev' = false /\
     c = load_txb0_complete) /\
    (interrupt dev' = interrupt dev \/
     interrupt dev = true /\ interrupt dev' = false /\
     transmit dev = false /\ c = read_flags_complete).

(** The drain found nothing to do: [busy] cleared, nothing dispatched. *)
Definition went_idle (dev dev' : net_device) : Prop :=
  busy dev' = false /\ spi_queue dev' = spi_queue dev /\
  message_complete dev' = message_complete dev /\
  transmit dev = false /\ interrupt dev = false /\
  transmit dev' = false /\ interrupt dev' = false.

(** The number of messages an operation handed to the bus. *)
Definition issued (dev dev' : net_device) : nat :=
  (length (spi_queue dev') - length (spi_queue dev))%nat.

(** Running events against a bus that completes only messages it was
    given: [pending] counts the messages handed to the bus and not yet
    completed; a completion with nothing pending cannot happen. *)
Fixpoint run_bus (can_dropped_invalid_skb : sk_buff -> bool)
    (dev : net_device) (pending : nat) (evs : list event)
  : option (net_device * nat) :=
  match evs with
  | [] => Some (dev, pending)
  | ev :: evs' =>
      match ev, pending with
      | ev_spi_complete _ _, O => None
      | _, _ =>
          dev' ← step can_dropped_invalid_skb dev ev;
          let done :=
            match ev with ev_spi_complete _ _ => 1%nat | _ => 0%nat end in
          run_bus can_dropped_invalid_skb dev'
            (pending - done + issued dev dev') evs'
      end
  end.

(** What the synchronous operations (open, close, mode change) may change:
    the scratch use of the TX buffer, the CAN state and the stopped flag of
    the transmit queue. *)
Definition only_config_changed (dev dev' : net_device) : Prop :=
  exists b st q,
    length b = length (tx_buf dev) /\
    dev' = set_queue_stopped q (set_can_st st (set_tx_buf b dev)).

(** The bus invariant: the number of messages in flight is one while [busy]
    and none otherwise, and a message in flight has its callback set. *)
Definition bus_inv (dev : net_device) (pending : nat) : Prop :=
  pending = (if busy dev then 1 else 0)%nat /\
  (busy dev = true -> is_Some (message_complete dev)).

(** A frame the transmit entry may keep: at most 8 data bytes, in a data
    array of 8. *)
Definition skb_ok (s : sk_buff) : Prop :=
  length (data (skb_data s)) = 8%nat /\ 0 <= can_dlc (skb_data s) <= 8.

(** The memory-safety invariant of the transfer: both buffers have their 14
    bytes, the transfer length fits in them, and the pending skb is one the
    transmit entry accepted. *)
Definition buffers_ok (dev : net_device) : Prop :=
  length (tx_buf dev) = MCP2515_BUF_SIZE /\
  length (rx_buf dev) = MCP2515_BUF_SIZE /\
  0 <= transfer_len dev <= 14 /\
  (forall s, skb dev = Some s -> skb_ok s).

(** What a callback can do on a device that satisfies the invariant: go on
    with the invariant kept, or fault on the null skb of a recorded
    transmit. *)
Definition safe_or_null_skb (dev : net_device) (r : option net_device)
  : Prop :=
  (exists dev', r = Some dev' /\ buffers_ok dev') \/
  (r = None /\ transmit dev = true /\ skb dev = None).

(** A sample verdict for the transmit entry: an skb is dropped unless its
    frame has 0 to 8 data bytes in a data array of 8. *)
Definition dropped_malformed (s : sk_buff) : bool :=
  negb ((0 <=? can_dlc (skb_data s)) && (can_dlc (skb_data s) <=? 8) &&
        (length (data (skb_data s)) =? 8)%nat).

(** A run on a bus that reports TX0IF although no frame was loaded: an
    interrupt starts READ_FLAGS, a frame is submitted meanwhile (recorded in
    [transmit]), the flags read 0x04, and the completion of CLEAR_CANINTF
    releases the pending skb. *)
Definition scenario_null_skb : list event :=
  [ev_interrupt;
   ev_start_xmit (mk_sk_buff frame_std);
   ev_spi_complete [0; 0; 0x04; 0] true;
   ev_spi_complete [] true].

(** The device after the first [n] events of that run. *)
Definition dev_null_skb (n : nat) : net_device :=
  default dev_probed
    (run dropped_malformed dev_probed (take n scenario_null_skb)).

(** The data bytes of a list of frames. *)
Definition frames_bytes (l : list can_frame) : Z :=
  foldr (fun f n => can_dlc f + n) 0 l.

(** The receive side is as it was: the two receive counters and the frames
    handed to the network stack. *)
Definition rx_kept (dev dev' : net_device) : Prop :=
  rx_packets (stats dev') = rx_packets (stats dev) /\
  rx_bytes (stats dev') = rx_bytes (stats dev) /\
  delivered dev' = delivered dev.

(** One more frame was received. *)
Definition rx_one_more (f : can_frame) (dev dev' : net_device) : Prop :=
  rx_packets (stats dev') = ulong (rx_packets (stats dev) + 1) /\
  rx_bytes (stats dev') = ulong (rx_bytes (stats dev) + can_dlc f) /\
  delivered dev' = delivered dev ++ [f].

(** The receive counters agree with the frames delivered. *)
Definition rx_counted (dev : net_device) : Prop :=
  rx_packets (stats dev) = ulong (Z.of_nat (length (delivered dev))) /\
  rx_bytes (stats dev) = ulong (frames_bytes (delivered dev)).

(** The device of scenario 3 when READ_RXB0 completes and [alloc_can_skb]
    fails. *)
Definition dev_rx_dropped : net_device :=
  default dev_probed (mcp2515_read_rxb0_complete false (dev_scenario 5)).

(** The RX buffer after the bus has clocked in the [transfer.len] bytes of
    an answer [rx]. *)
Definition clocked_in (rx : list Z) (dev : net_device) : list Z :=
  (u8 <$> resize (Z.to_nat (transfer_len dev)) 0 rx) ++
  drop (Z.to_nat (transfer_len dev)) (rx_buf dev).

(** The callback [c]. *)
Definition callback (c : completion) (alloc : bool) (dev : net_device)
  : option net_device :=
  match c with
  | read_flags_complete => mcp2515_read_flags_complete dev
  | read_rxb0_complete => mcp2515_read_rxb0_complete alloc dev
  | read_rxb1_complete => mcp2515_read_rxb1_complete alloc dev
  | clear_canintf_complete => mcp2515_clear_canintf_complete dev
  | clear_eflg_complete => mcp2515_clear_eflg_complete dev
  | load_txb0_complete => mcp2515_load_txb0_complete dev
  | rts_txb0_complete => mcp2515_rts_txb0_complete dev
  end.

(** What the [k]-th read after the messages already on the wire returns:
    its error code and its byte. *)
Definition read_err (spi : spi_device) (k : nat) : Z :=
  reply_err (answers spi (length (wire spi) + k)).
Definition read_val (spi : spi_device) (k : nat) : Z :=
  u8 (reply_val (answers spi (length (wire spi) + k))).

(** The mode field of a CANSTAT byte. *)
Definition reqop (v : Z) : Z := Z.land v CANCTRL_REQOP_MASK.

(** Bit-timing values that fit the fields of CNF1, CNF2 and CNF3: segments
    of 1 to 8 quanta, a jump width of 1 to 4, a prescaler of 1 to 64. *)
Definition bt_in_range (bt : can_bittiming) : Prop :=
  1 <= prop_seg bt <= 8 /\ 1 <= phase_seg1 bt <= 8 /\
  1 <= phase_seg2 bt <= 8 /\ 1 <= sjw bt <= 4 /\ 1 <= brp bt <= 64.

(** Sample runs of [mcp2515_chip_start] and [mcp2515_open] on a probed
    device, with [polls] further polls and a bus on which every register
    reads [v]. *)
Definition started (polls : nat) (v : Z) : Z * net_device * spi_device :=
  default (0, dev_probed, quiet_bus v)
    (mcp2515_chip_start polls dev_probed (quiet_bus v)).
Definition opened (polls : nat) (v : Z) : Z * net_device * spi_device :=
  default (0, dev_probed, quiet_bus v)
    (mcp2515_open 0 0 polls dev_probed (quiet_bus v)).



(** * Properties *)

(** ** Buffers *)

Lemma store_Some (i : nat) (v : Z) (buf : list Z) :
  (i < length buf)%nat -> store i v buf = Some (<[i := u8 v]> buf).
Proof. intros Hi. unfold store. by rewrite decide_True. Qed.

Lemma store_inv (i : nat) (v : Z) (buf buf' : list Z) :
  store i v buf = Some buf' ->
  (i < length buf)%nat /\ buf' = <[i := u8 v]> buf.
Proof. unfold store. case_decide; naive_solver. Qed.

Lemma store_length (i : nat) (v : Z) (buf buf' : list Z) :
  store i v buf = Some buf' -> length buf' = length buf.
Proof.
  intros [_ ->]%store_inv. apply length_insert.
Qed.

Lemma memset_inv (c : Z) (n : nat) (buf buf' : list Z) :
  memset c n buf = Some buf' ->
  (n <= length buf)%nat /\ buf' = replicate n (u8 c) ++ drop n buf.
Proof. unfold memset. case_decide; naive_solver. Qed.

Lemma memset_length (c : Z) (n : nat) (buf buf' : list Z) :
  memset c n buf = Some buf' -> length buf' = length buf.
Proof.
  intros [Hn ->]%memset_inv.
  rewrite length_app, length_replicate, length_drop. lia.
Qed.

Lemma memcpy_inv (doff : nat) (src : list Z) (soff n : nat)
    (dst dst' : list Z) :
  memcpy doff src soff n dst = Some dst' ->
  (soff + n <= length src)%nat /\ (doff + n <= length dst)%nat /\
  dst' = take doff dst ++ take n (drop soff src) ++ drop (doff + n) dst.
Proof.
  unfold memcpy. case_decide; [|done]. intros [= <-]. tauto.
Qed.

Lemma memcpy_Some (doff : nat) (src : list Z) (soff n : nat) (dst : list Z) :
  (soff + n <= length src)%nat -> (doff + n <= length dst)%nat ->
  memcpy doff src soff n dst =
    Some (take doff dst ++ take n (drop soff src) ++ drop (doff + n) dst).
Proof. intros Hs Hd. unfold memcpy. by rewrite decide_True. Qed.

Lemma memcpy_length (doff : nat) (src : list Z) (soff n : nat)
    (dst dst' : list Z) :
  memcpy doff src soff n dst = Some dst' -> length dst' = length dst.
Proof.
  intros (Hs & Hd & ->)%memcpy_inv.
  rewrite !length_app, !length_take, !length_drop. lia.
Qed.

(** A memcpy leaves the bytes before its destination alone. *)
Lemma memcpy_lookup_before (doff : nat) (src : list Z) (soff n : nat)
    (dst dst' : list Z) (i : nat) :
  memcpy doff src soff n dst = Some dst' -> (i < doff)%nat ->
  dst' !! i = dst !! i.
Proof.
  intros (Hs & Hd & ->)%memcpy_inv Hi.
  rewrite lookup_app_l by (rewrite length_take; lia).
  by rewrite lookup_take_lt.
Qed.

(** ** Bytes and bits *)

Lemma u8_id (z : Z) : 0 <= z < 256 -> u8 z = z.
Proof.
  intros H. unfold u8. change 0xff with (Z.ones 8).
  rewrite Z.land_ones by lia. apply Z.mod_small. lia.
Qed.

Lemma byte_testbit_high (b i : Z) :
  0 <= b < 256 -> 8 <= i -> Z.testbit b i = false.
Proof.
  intros Hb Hi. rewrite <- (u8_id b Hb). unfold u8.
  rewrite Z.land_spec. change 0xff with (Z.ones 8).
  rewrite Z.ones_spec_high by lia. apply andb_false_r.
Qed.

Lemma truthy_true (z : Z) : truthy z = true <-> z <> 0.
Proof. unfold truthy. destruct (Z.eqb_spec z 0); naive_solver. Qed.

Lemma truthy_false (z : Z) : truthy z = false <-> z = 0.
Proof. unfold truthy. destruct (Z.eqb_spec z 0); naive_solver. Qed.

(** Testing a single flag bit. *)
Lemma truthy_land_bit (z : Z) (n : Z) :
  0 <= n -> truthy (Z.land z (BIT n)) = Z.testbit z n.
Proof.
  intros Hn. unfold BIT. rewrite Z.shiftl_1_l.
  destruct (Z.testbit z n) eqn:Hb.
  - apply truthy_true. intros H0.
    apply (f_equal (fun x => Z.testbit x n)) in H0.
    rewrite Z.land_spec, Hb, Z.pow2_bits_true, Z.bits_0 in H0 by lia.
    discriminate.
  - apply truthy_false. apply Z.bits_inj'. intros m Hm.
    rewrite Z.land_spec, Z.bits_0.
    destruct (decide (m = n)) as [->|Hne].
    + by rewrite Hb.
    + rewrite Z.pow2_bits_false by lia. apply andb_false_r.
Qed.

Lemma rtr_flag_set (id : Z) :
  truthy (Z.land (Z.lor id CAN_RTR_FLAG) CAN_RTR_FLAG) = true.
Proof.
  change CAN_RTR_FLAG with (BIT 30). rewrite truthy_land_bit by lia.
  rewrite Z.lor_spec. unfold BIT. rewrite Z.shiftl_1_l.
  rewrite Z.pow2_bits_true by lia. apply orb_true_r.
Qed.

(** ** Synchronous bring-up *)

(** The request mode is one of the three REQOP codes, whatever the control
    mode: the one-shot test looks at the register value, whose bit 3 is
    never set. *)
Lemma chip_start_mode_cases (ctrlmode : Z) :
  chip_start_mode ctrlmode =
    if truthy (Z.land ctrlmode CAN_CTRLMODE_LOOPBACK)
    then CANCTRL_REQOP_LOOPBACK
    else if truthy (Z.land ctrlmode CAN_CTRLMODE_LISTENONLY)
    then CANCTRL_REQOP_LISTEN_ONLY
    else CANCTRL_REQOP_NORMAL.
Proof.
  unfold chip_start_mode.
  destruct (truthy (Z.land ctrlmode CAN_CTRLMODE_LOOPBACK)); [reflexivity|].
  destruct (truthy (Z.land ctrlmode CAN_CTRLMODE_LISTENONLY)); reflexivity.
Qed.

(** C5 (the code departs from the claim).  The value written to CANCTRL never
    has the OSM bit, and requesting one-shot does not change it: the source
    tests [mode & CAN_CTRLMODE_ONE_SHOT] on the register value [mode]
    instead of the control-mode bitset.  With one-shot requested and nothing
    else, [mcp2515_chip_start] writes [WRITE, CANCTRL, 0x00], where the claim
    asks for [0x08]. *)
Theorem chip_start_drops_one_shot :
  (forall ctrlmode, Z.testbit (chip_start_mode ctrlmode) 3 = false) /\
  (forall ctrlmode,
     chip_start_mode (Z.lor ctrlmode CAN_CTRLMODE_ONE_SHOT) =
     chip_start_mode ctrlmode) /\
  chip_start_mode CAN_CTRLMODE_ONE_SHOT = CANCTRL_REQOP_NORMAL /\
  Z.lor CANCTRL_REQOP_NORMAL CANCTRL_OSM = 0x08 /\
  exists dev spi,
    mcp2515_chip_start 3 (probed_device CAN_CTRLMODE_ONE_SHOT bt_125k [] [])
      (quiet_bus 0) = Some (0, dev, spi) /\
    can_ctrlmode dev = CAN_CTRLMODE_ONE_SHOT /\
    wire spi !! 3%nat = Some [0x02; 0x0f; 0x00].
Proof.
  split; [|split; [|split; [reflexivity|split; [reflexivity|]]]].
  - intros ctrlmode. rewrite chip_start_mode_cases.
    destruct (truthy _); [reflexivity|].
    destruct (truthy _); reflexivity.
  - intros ctrlmode. rewrite !chip_start_mode_cases.
    rewrite !Z.land_lor_distr_l.
    change (Z.land CAN_CTRLMODE_ONE_SHOT CAN_CTRLMODE_LOOPBACK) with 0.
    change (Z.land CAN_CTRLMODE_ONE_SHOT CAN_CTRLMODE_LISTENONLY) with 0.
    by rewrite !Z.lor_0_r.
  - eexists _, _. split; [vm_compute; reflexivity|]. split; reflexivity.
Qed.

(** C7.  Encoding the standard frame (id 0x123, dlc 3, data AA BB CC) with
    [mcp2515_set_txbuf] and decoding a READ-RXB buffer whose bytes 1..13 are
    that payload gives the frame back (SIDL has IDE clear); the same holds
    for the extended frame (id 0x1ABCDEF0 with EFF, dlc 2, data 11 22). *)
Theorem encode_decode_roundtrip :
  mcp2515_set_txbuf 1 (mk_sk_buff frame_std) (replicate 14 0) =
    Some ([0; 0x24; 0x60; 0; 0; 3; 0xAA; 0xBB; 0xCC; 0; 0; 0; 0; 0], 8) /\
  Z.land 0x60 RXBSIDL_IDE = 0 /\
  encode_then_decode frame_std = Some frame_std /\
  encode_then_decode frame_ext = Some frame_ext.
Proof. repeat split; vm_compute; reflexivity. Qed.

(** C8.  [mcp2515_register_candev] calls the framework's [register_candev]
    exactly when CANSTAT and CANCTRL read back with
    [(CANSTAT & 0xEE) = 0x80], [(CANCTRL & 0x17) = 0x07] and both reads
    succeeded; otherwise it returns [-ENODEV] without registering, and so
    does [mcp2515_probe]. *)
Theorem detect_iff_register (register_err : Z) (spi : spi_device) :
  let stat := answers spi (S (length (wire spi))) in
  let ctrl := answers spi (S (S (length (wire spi)))) in
  let detected :=
    Z.land (u8 (reply_val stat)) 0xee = 0x80 /\
    Z.land (u8 (reply_val ctrl)) 0x17 = 0x07 /\
    reply_err stat = 0 /\ reply_err ctrl = 0 in
  let r := mcp2515_register_candev register_err spi in
  let p := mcp2515_probe true true register_err spi in
  (reg_called r = true <-> detected) /\
  (detected -> reg_ret r = register_err) /\
  (~ detected -> reg_ret r = - ENODEV /\ reg_called r = false) /\
  reg_ret p = reg_ret r /\ reg_called p = reg_called r.
Proof.
  intros stat ctrl detected r p.
  assert (Hr : r =
    if negb ((Z.land (u8 (reply_val stat)) 0xee =? 0x80) &&
             (Z.land (u8 (reply_val ctrl)) 0x17 =? 0x07))
       || truthy (Z.lor (Z.lor 0 (reply_err stat)) (reply_err ctrl))
    then mk_register_result (- ENODEV) false (reg_spi r)
    else if truthy register_err
         then mk_register_result register_err true (reg_spi r)
         else mk_register_result 0 true (reg_spi r)).
  { subst r stat ctrl.
    unfold mcp2515_register_candev, mcp2515_power_switch,
      mcp2515_board_specific_setup. cbn.
    rewrite !length_app. cbn. rewrite !Nat.add_1_r.
    destruct (negb _ || truthy _); [reflexivity|].
    destruct (truthy register_err); reflexivity. }
  assert (Hd : detected <->
    negb ((Z.land (u8 (reply_val stat)) 0xee =? 0x80) &&
          (Z.land (u8 (reply_val ctrl)) 0x17 =? 0x07))
      || truthy (Z.lor (Z.lor 0 (reply_err stat)) (reply_err ctrl)) = false).
  { subst detected. rewrite orb_false_iff, negb_false_iff, andb_true_iff.
    rewrite !Z.eqb_eq, truthy_false, Z.lor_0_l, Z.lor_eq_0_iff. tauto. }
  assert (Hp : reg_ret p = reg_ret r /\ reg_called p = reg_called r).
  { subst p. unfold mcp2515_probe. cbn [negb]. fold r.
    destruct (truthy (reg_ret r)) eqn:E; [done|].
    apply truthy_false in E. by rewrite E. }
  clearbody r p. destruct Hp as [-> ->].
  destruct (negb _ || truthy _) eqn:E in Hr.
  - assert (~ detected) by (rewrite Hd, E; discriminate).
    rewrite Hr. cbn. split_and!; try tauto.
    split; [discriminate|tauto].
  - assert (detected) by (by rewrite Hd).
    split_and!; try tauto.
    + rewrite Hr. by destruct (truthy register_err).
    + intros _. rewrite Hr.
      destruct (truthy register_err) eqn:E'; [done|].
      apply truthy_false in E'. by rewrite E'.
Qed.

(** A concrete instance: a chip just out of reset is registered; with no
    chip on the bus (scenario 5: both registers read 0xFF) the probe fails
    with [-ENODEV] and nothing is registered. *)
Lemma detect_iff_register_witness :
  (Z.land (u8 0x80) 0xee = 0x80 /\ Z.land (u8 0x07) 0x17 = 0x07) /\
  reg_called (mcp2515_register_candev 0 reset_bus) = true /\
  reg_ret (mcp2515_register_candev 0 reset_bus) = 0 /\
  ~ (Z.land (u8 0xFF) 0xee = 0x80) /\
  reg_ret (mcp2515_probe true true 0 (quiet_bus 0xFF)) = - ENODEV /\
  reg_called (mcp2515_probe true true 0 (quiet_bus 0xFF)) = false.
Proof.
  destruct (detect_iff_register 0 reset_bus) as (Hiff & Hret & _ & _ & _).
  destruct (detect_iff_register 0 (quiet_bus 0xFF))
    as (_ & _ & Hno & Hp1 & Hp2).
  assert (Hyes : Z.land (u8 0x80) 0xee = 0x80 /\ Z.land (u8 0x07) 0x17 = 0x07
                 /\ 0 = 0 /\ 0 = 0) by (repeat split; reflexivity).
  assert (Habsent : ~ (Z.land (u8 0xFF) 0xee = 0x80))
    by (vm_compute; discriminate).
  split; [split; apply Hyes|].
  split; [apply Hiff, Hyes|]. split; [apply Hret, Hyes|].
  split; [exact Habsent|].
  rewrite Hp1, Hp2. apply Hno. intros [H _]. exact (Habsent H).
Defined.

(** ** Frame to buffer mapping *)

(** The DLC byte that [mcp2515_set_txbuf_head] leaves at [buf[4]]. *)
Lemma set_txbuf_head_dlc (off : nat) (f : can_frame) (buf buf1 : list Z) :
  mcp2515_set_txbuf_head off f buf = Some buf1 ->
  buf1 !! (off + 4)%nat =
    Some (if truthy (Z.land (can_id f) CAN_RTR_FLAG)
          then u8 (Z.lor (u8 (can_dlc f)) 0x40) else u8 (can_dlc f)).
Proof.
  unfold mcp2515_set_txbuf_head. intros H.
  destruct (if truthy (Z.land (can_id f) CAN_EFF_FLAG) then _ else _)
    as [bufa|]; simpl in H; [|done].
  destruct (store (off + 4) (can_dlc f) bufa) as [bufb|] eqn:Hb;
    simpl in H; [|done].
  apply store_inv in Hb as [Hlt ->].
  destruct (truthy (Z.land (can_id f) CAN_RTR_FLAG)).
  - unfold load in H. rewrite list_lookup_insert_eq in H by done.
    simpl in H. apply store_inv in H as [_ ->].
    by rewrite list_lookup_insert_eq by (by rewrite length_insert).
  - injection H as <-. by rewrite list_lookup_insert_eq.
Qed.

Lemma set_txbuf_inv (off : nat) (s : sk_buff) (buf buf' : list Z) (n : Z) :
  mcp2515_set_txbuf off s buf = Some (buf', n) ->
  exists buf1,
    mcp2515_set_txbuf_head off (skb_data s) buf = Some buf1 /\
    memcpy (off + 5) (data (skb_data s)) 0
      (Z.to_nat (can_dlc (skb_data s))) buf1 = Some buf' /\
    n = 5 + can_dlc (skb_data s).
Proof.
  unfold mcp2515_set_txbuf. intros H.
  destruct (mcp2515_set_txbuf_head off (skb_data s) buf) as [buf1|];
    simpl in H; [|done].
  destruct (memcpy _ _ _ _ buf1) as [buf2|] eqn:Hm; simpl in H; [|done].
  injection H as <- <-. eauto.
Qed.

Lemma set_txbuf_head_length (off : nat) (f : can_frame) (buf buf1 : list Z) :
  mcp2515_set_txbuf_head off f buf = Some buf1 -> length buf1 = length buf.
Proof.
  unfold mcp2515_set_txbuf_head. intros H.
  apply bind_Some in H as (bufa & Ha & H).
  apply bind_Some in H as (bufb & Hb%store_length & H).
  assert (length bufa = length buf) as Hla.
  { destruct (truthy (Z.land (can_id f) CAN_EFF_FLAG));
      repeat (apply bind_Some in Ha as (? & ?%store_length & Ha));
      apply store_length in Ha; congruence. }
  destruct (truthy (Z.land (can_id f) CAN_RTR_FLAG)).
  - apply bind_Some in H as (b4 & _ & H%store_length). congruence.
  - injection H as <-. congruence.
Qed.

(** The data bytes in the payload after [mcp2515_set_txbuf]. *)
Lemma set_txbuf_data (off : nat) (s : sk_buff) (buf buf' : list Z) (n : Z) :
  mcp2515_set_txbuf off s buf = Some (buf', n) ->
  take (Z.to_nat (can_dlc (skb_data s))) (drop (off + 5) buf') =
  take (Z.to_nat (can_dlc (skb_data s))) (data (skb_data s)).
Proof.
  intros (buf1 & Hh & Hm & _)%set_txbuf_inv.
  apply memcpy_inv in Hm as (Hs & Hd & ->).
  rewrite drop_app_length'; [|rewrite length_take; lia].
  rewrite take_app_length'; [done|]. rewrite length_take, length_drop. lia.
Qed.

(** The shape of a decoded frame. *)
Lemma rxb_to_frame_inv (buf : list Z) (frame f' : can_frame) :
  mcp2515_rxb_to_frame buf frame = Some f' ->
  exists b5,
    buf !! 5%nat = Some b5 /\
    can_dlc f' = get_can_dlc (Z.land b5 0xf) /\
    (if truthy (Z.land (can_id f') CAN_RTR_FLAG)
     then data f' = data frame
     else memcpy 0 buf 6 (Z.to_nat (can_dlc f')) (data frame) =
          Some (data f')) /\
    (rxb_rtr_indicated buf = true ->
     truthy (Z.land (can_id f') CAN_RTR_FLAG) = true).
Proof.
  unfold mcp2515_rxb_to_frame, rxb_rtr_indicated, load. intros H.
  destruct (buf !! 2%nat) as [b2|]; simpl in H; [|done].
  destruct (if truthy (Z.land b2 RXBSIDL_IDE) then _ else _) as [id|] eqn:Hid;
    simpl in H; [|done].
  destruct (buf !! 5%nat) as [b5|]; simpl in H; [|done].
  exists b5. split; [done|].
  assert (Hrtr : (if truthy (Z.land b2 RXBSIDL_IDE)
                  then truthy (Z.land b5 RXBDLC_RTR)
                  else truthy (Z.land b2 RXBSIDL_SRR)) = true ->
                 truthy (Z.land id CAN_RTR_FLAG) = true).
  { destruct (truthy (Z.land b2 RXBSIDL_IDE)).
    - destruct (buf !! 1%nat); simpl in Hid; [|done].
      destruct (buf !! 3%nat); simpl in Hid; [|done].
      destruct (buf !! 4%nat); simpl in Hid; [|done].
      intros E. rewrite E in Hid. injection Hid as <-. apply rtr_flag_set.
    - destruct (buf !! 1%nat); simpl in Hid; [|done].
      intros E. rewrite E in Hid. injection Hid as <-. apply rtr_flag_set. }
  destruct (truthy (Z.land id CAN_RTR_FLAG)) eqn:E; simpl in H.
  - injection H as <-. simpl. by rewrite E.
  - destruct (memcpy _ _ _ _ _) as [dat|] eqn:Hm; simpl in H; [|done].
    injection H as <-. simpl. by rewrite E.
Qed.

(** C4, counterexample: the remote frame with id 0x123, dlc 3 and data
    01 02 03 is encoded as an 8-byte payload with the three data bytes after
    the DLC byte 0x43. *)
Lemma rtr_encode_copies_data :
  Z.land (Z.lor 0x123 CAN_RTR_FLAG) CAN_RTR_FLAG <> 0 /\
  mcp2515_set_txbuf 0
    (mk_sk_buff (mk_can_frame (Z.lor 0x123 CAN_RTR_FLAG) 3
                   [1; 2; 3; 0; 0; 0; 0; 0])) (replicate 13 0) =
    Some ([0x24; 0x60; 0; 0; 0x43; 1; 2; 3; 0; 0; 0; 0; 0], 8) /\
  ~ rtr_payload_ends_after_dlc
      (mk_can_frame (Z.lor 0x123 CAN_RTR_FLAG) 3 [1; 2; 3; 0; 0; 0; 0; 0]).
Proof.
  split; [by vm_compute|]. split; [by vm_compute|].
  intros [buf' H]. vm_compute in H. discriminate H.
Qed.

(** C4, as amended.  Decoding a READ-RXB buffer that indicates RTR sets the
    RTR flag and leaves the frame's data untouched.  Encoding a frame with
    the RTR flag sets bit 6 of the DLC byte and still copies the [can_dlc]
    data bytes after it: the payload has [5 + can_dlc] bytes. *)
Theorem rtr_data_handling (rx : list Z) (frame f' : can_frame)
    (off : nat) (s : sk_buff) (buf buf' : list Z) (n : Z) :
  (mcp2515_rxb_to_frame rx frame = Some f' ->
   rxb_rtr_indicated rx = true ->
   truthy (Z.land (can_id f') CAN_RTR_FLAG) = true /\
   data f' = data frame) /\
  (mcp2515_set_txbuf off s buf = Some (buf', n) ->
   truthy (Z.land (can_id (skb_data s)) CAN_RTR_FLAG) = true ->
   n = 5 + can_dlc (skb_data s) /\
   (exists b, buf' !! (off + 4)%nat = Some b /\ Z.testbit b 6 = true) /\
   take (Z.to_nat (can_dlc (skb_data s))) (drop (off + 5) buf') =
   take (Z.to_nat (can_dlc (skb_data s))) (data (skb_data s))).
Proof.
  split.
  - intros (b5 & _ & _ & Hdat & Hrtr)%rxb_to_frame_inv Hind.
    specialize (Hrtr Hind). rewrite Hrtr in Hdat. done.
  - intros H Hrtr. pose proof (set_txbuf_data _ _ _ _ _ H) as Hdata.
    apply set_txbuf_inv in H as (buf1 & Hh & Hm & ->).
    split; [done|]. split; [|done].
    apply set_txbuf_head_dlc in Hh. rewrite Hrtr in Hh.
    eexists. split.
    + erewrite memcpy_lookup_before; [exact Hh|exact Hm|lia].
    + unfold u8 at 1. rewrite Z.land_spec, Z.lor_spec.
      change (Z.testbit 64 6) with true. change (Z.testbit 255 6) with true.
      by rewrite orb_true_r.
Qed.

(** A concrete instance: the standard remote frame 0x123. *)
Lemma rtr_data_handling_witness :
  (mcp2515_rxb_to_frame rxb_remote zero_frame = Some frame_remote_rx /\
   rxb_rtr_indicated rxb_remote = true /\
   truthy (Z.land (can_id frame_remote_rx) CAN_RTR_FLAG) = true /\
   data frame_remote_rx = data zero_frame) /\
  (mcp2515_set_txbuf 0 (mk_sk_buff frame_remote_tx) (replicate 13 0) =
     Some (txb_remote, 8) /\
   truthy (Z.land (can_id frame_remote_tx) CAN_RTR_FLAG) = true /\
   8 = 5 + can_dlc frame_remote_tx /\
   (exists b, txb_remote !! 4%nat = Some b /\ Z.testbit b 6 = true) /\
   take 3 (drop 5 txb_remote) = take 3 (data frame_remote_tx)).
Proof.
  pose proof (rtr_data_handling rxb_remote zero_frame frame_remote_rx 0
                (mk_sk_buff frame_remote_tx) (replicate 13 0) txb_remote 8)
    as [Hrx Htx].
  split.
  - split; [vm_compute; reflexivity|]. split; [vm_compute; reflexivity|].
    apply Hrx; vm_compute; reflexivity.
  - split; [vm_compute; reflexivity|]. split; [vm_compute; reflexivity|].
    apply Htx; vm_compute; reflexivity.
Defined.

Lemma land_0xf_range (b : Z) : 0 <= Z.land b 0xf < 16.
Proof.
  change 0xf with (Z.ones 4). rewrite Z.land_ones by lia.
  apply Z.mod_pos_bound. lia.
Qed.

(** Bit 30 of the identifier assembled from an extended READ-RXB buffer is
    clear before the RTR flag is merged in. *)
Lemma rxb_ext_id_bit30 (b1 b2 b3 b4 : Z) :
  0 <= b1 < 256 -> 0 <= b3 < 256 -> 0 <= b4 < 256 ->
  Z.testbit
    (u32 (Z.lor (Z.lor (Z.lor (Z.lor (Z.lor
       (Z.shiftl b1 21)
       (Z.shiftl (Z.land b2 0xe0) 13))
       (Z.shiftl (Z.land b2 3) 16))
       (Z.shiftl b3 8))
       b4)
       CAN_EFF_FLAG)) 30 = false.
Proof.
  intros H1 H3 H4. unfold u32.
  rewrite Z.land_spec, !Z.lor_spec, !Z.shiftl_spec, !Z.land_spec by lia.
  rewrite (byte_testbit_high b1), (byte_testbit_high b3),
    (byte_testbit_high b4) by lia.
  change (Z.testbit 0xe0 (30 - 13)) with false.
  change (Z.testbit 3 (30 - 16)) with false.
  change (Z.testbit CAN_EFF_FLAG 30) with false.
  by rewrite !andb_false_r.
Qed.

(** C6, counterexample: for [can_dlc = 9] the DLC byte is 9, whose low four
    bits are 9 and not the clamped length 8. *)
Lemma dlc_byte_not_clamped :
  mcp2515_set_txbuf_head 0 (mk_can_frame 0x123 9 (replicate 8 0))
    (replicate 13 0) = Some [0x24; 0x60; 0; 0; 9; 0; 0; 0; 0; 0; 0; 0; 0] /\
  ~ dlc_byte_as_claimed (mk_can_frame 0x123 9 (replicate 8 0)).
Proof.
  split; [by vm_compute|].
  intros (buf & b & Hh & Hb & Hlow & _).
  vm_compute in Hh. injection Hh as <-.
  vm_compute in Hb. injection Hb as <-.
  vm_compute in Hlow. discriminate Hlow.
Qed.

(** C6, as amended.  For a frame with [can_dlc] in 0..8 (what the transmit
    entry lets through) the DLC byte written by [mcp2515_set_txbuf] has the
    data length in its low four bits and the RTR flag in bit 6.  On
    receive, the data length of the frame is the low four bits of the DLC
    byte clamped to 0..8, and for an extended frame the RTR flag is bit 6 of
    the DLC byte. *)
Theorem dlc_byte_mapping (off : nat) (s : sk_buff) (buf buf' : list Z)
    (n : Z) (rx : list Z) (frame f' : can_frame) (b2 b5 : Z) :
  (0 <= can_dlc (skb_data s) <= 8 ->
   mcp2515_set_txbuf off s buf = Some (buf', n) ->
   exists b,
     buf' !! (off + 4)%nat = Some b /\
     Z.land b 0xf = can_dlc (skb_data s) /\
     Z.land b 0xf = Z.max 0 (Z.min (can_dlc (skb_data s)) 8) /\
     Z.testbit b 6 = truthy (Z.land (can_id (skb_data s)) CAN_RTR_FLAG)) /\
  (mcp2515_rxb_to_frame rx frame = Some f' ->
   rx !! 5%nat = Some b5 ->
   can_dlc f' = Z.min (Z.land b5 0xf) 8 /\ 0 <= can_dlc f' <= 8) /\
  (mcp2515_rxb_to_frame rx frame = Some f' ->
   Forall (fun b => 0 <= b < 256) rx ->
   rx !! 2%nat = Some b2 -> Z.testbit b2 3 = true ->
   rx !! 5%nat = Some b5 ->
   truthy (Z.land (can_id f') CAN_RTR_FLAG) = Z.testbit b5 6).
Proof.
  split; [|split].
  - intros Hdlc (buf1 & Hh & Hm & ->)%set_txbuf_inv.
    apply set_txbuf_head_dlc in Hh.
    eexists. split; [erewrite memcpy_lookup_before; [exact Hh|exact Hm|lia]|].
    assert (Hc : can_dlc (skb_data s) ∈ [0; 1; 2; 3; 4; 5; 6; 7; 8]).
    { rewrite !elem_of_cons. lia. }
    destruct (truthy (Z.land (can_id (skb_data s)) CAN_RTR_FLAG));
      rewrite !elem_of_cons in Hc;
      destruct Hc as [->|[->|[->|[->|[->|[->|[->|[->|[->|Hc]]]]]]]]];
      try (by apply elem_of_nil in Hc); by vm_compute.
  - intros (b5' & Hb5 & Hdlc & _)%rxb_to_frame_inv Hb.
    assert (b5' = b5) as -> by congruence.
    pose proof (land_0xf_range b5) as Hr.
    rewrite Hdlc. unfold get_can_dlc, CAN_MAX_DLC. rewrite u8_id by lia. lia.
  - intros H Hbytes Hb2 Hide Hb5.
    assert (Hin : forall i b, rx !! i = Some b -> 0 <= b < 256).
    { intros i b Hi. exact (Forall_lookup_1 _ rx i b Hbytes Hi). }
    unfold mcp2515_rxb_to_frame, load in H.
    rewrite Hb2 in H. simpl in H.
    change RXBSIDL_IDE with (BIT 3) in H.
    rewrite truthy_land_bit, Hide in H by lia.
    destruct (rx !! 1%nat) as [b1|] eqn:Hb1; simpl in H; [|done].
    destruct (rx !! 3%nat) as [b3|] eqn:Hb3; simpl in H; [|done].
    destruct (rx !! 4%nat) as [b4|] eqn:Hb4; simpl in H; [|done].
    rewrite Hb5 in H. simpl in H.
    pose proof (rxb_ext_id_bit30 b1 b2 b3 b4 (Hin _ _ Hb1) (Hin _ _ Hb3)
                  (Hin _ _ Hb4)) as Hbit.
    change RXBDLC_RTR with (BIT 6) in H.
    rewrite (truthy_land_bit b5 6) in H by lia.
    destruct (Z.testbit b5 6) eqn:E6.
    + rewrite rtr_flag_set in H. simpl in H. injection H as <-. simpl.
      apply rtr_flag_set.
    + change CAN_RTR_FLAG with (BIT 30) in H at 1.
      rewrite truthy_land_bit, Hbit in H by lia. simpl in H.
      destruct (memcpy _ _ _ _ _); simpl in H; [|done].
      injection H as <-. simpl.
      change CAN_RTR_FLAG with (BIT 30). by rewrite truthy_land_bit by lia.
Qed.

(** A concrete instance: the remote frame 0x123 on the encode side, an
    extended remote frame on the decode side. *)
Lemma dlc_byte_mapping_witness :
  (0 <= can_dlc frame_remote_tx <= 8 /\
   mcp2515_set_txbuf 0 (mk_sk_buff frame_remote_tx) (replicate 13 0) =
     Some (txb_remote, 8) /\
   exists b,
     txb_remote !! 4%nat = Some b /\
     Z.land b 0xf = can_dlc frame_remote_tx /\
     Z.land b 0xf = Z.max 0 (Z.min (can_dlc frame_remote_tx) 8) /\
     Z.testbit b 6 = truthy (Z.land (can_id frame_remote_tx) CAN_RTR_FLAG)) /\
  (mcp2515_rxb_to_frame rxb_ext_remote zero_frame = Some frame_ext_remote /\
   rxb_ext_remote !! 5%nat = Some 0x42 /\
   can_dlc frame_ext_remote = Z.min (Z.land 0x42 0xf) 8 /\
   0 <= can_dlc frame_ext_remote <= 8) /\
  (Forall (fun b => 0 <= b < 256) rxb_ext_remote /\
   rxb_ext_remote !! 2%nat = Some 0xE8 /\ Z.testbit 0xE8 3 = true /\
   truthy (Z.land (can_id frame_ext_remote) CAN_RTR_FLAG) =
     Z.testbit 0x42 6).
Proof.
  pose proof (dlc_byte_mapping 0 (mk_sk_buff frame_remote_tx)
                (replicate 13 0) txb_remote 8 rxb_ext_remote zero_frame
                frame_ext_remote 0xE8 0x42) as (Htx & Hrx & Hrtr).
  assert (Hbytes : Forall (fun b => 0 <= b < 256) rxb_ext_remote).
  { unfold rxb_ext_remote. repeat (constructor; [lia|]). constructor. }
  split; [|split].
  - split; [simpl; lia|]. split; [vm_compute; reflexivity|].
    apply Htx; [simpl; lia|vm_compute; reflexivity].
  - split; [vm_compute; reflexivity|]. split; [reflexivity|].
    apply Hrx; vm_compute; reflexivity.
  - split; [exact Hbytes|]. split; [reflexivity|]. split; [reflexivity|].
    apply Hrtr; try (vm_compute; reflexivity). exact Hbytes.
Defined.

(** ** The asynchronous steps in closed form

    With at least four bytes in the TX buffer the stores of the four-byte
    steps succeed; the lemmas spell out the device each step leaves. *)

Lemma read_flags_eq (dev : net_device) :
  (4 <= length (tx_buf dev))%nat ->
  mcp2515_read_flags dev =
    Some (queued read_flags_complete 4
            ([0x03; 0x2c; 0; 0] ++ drop 4 (tx_buf dev)) dev).
Proof.
  intros H. unfold mcp2515_read_flags.
  destruct (tx_buf dev) as [|b0 [|b1 [|b2 [|b3 rest]]]];
    simpl in H; try lia. reflexivity.
Qed.

Lemma clear_canintf_eq (dev : net_device) :
  (4 <= length (tx_buf dev))%nat ->
  mcp2515_clear_canintf dev =
    Some (queued clear_canintf_complete 4
            ([0x05; 0x2c;
              u8 (Z.land (canintf dev)
                    (Z.lnot (Z.lor CANINTF_RX0IF CANINTF_RX1IF)));
              0] ++ drop 4 (tx_buf dev)) dev).
Proof.
  intros H. unfold mcp2515_clear_canintf.
  destruct (tx_buf dev) as [|b0 [|b1 [|b2 [|b3 rest]]]];
    simpl in H; try lia. reflexivity.
Qed.

Lemma clear_eflg_eq (dev : net_device) :
  (4 <= length (tx_buf dev))%nat ->
  mcp2515_clear_eflg dev =
    Some (queued clear_eflg_complete 4
            ([0x05; 0x2d; u8 (eflg dev); 0] ++ drop 4 (tx_buf dev)) dev).
Proof.
  intros H. unfold mcp2515_clear_eflg.
  destruct (tx_buf dev) as [|b0 [|b1 [|b2 [|b3 rest]]]];
    simpl in H; try lia. reflexivity.
Qed.

Lemma rts_txb0_eq (dev : net_device) :
  (1 <= length (tx_buf dev))%nat ->
  mcp2515_rts_txb0 dev =
    Some (queued rts_txb0_complete 1 ([0x81] ++ drop 1 (tx_buf dev)) dev).
Proof.
  intros H. unfold mcp2515_rts_txb0.
  destruct (tx_buf dev) as [|b0 rest]; simpl in H; try lia. reflexivity.
Qed.

Lemma read_rxb_eq (instruction : Z) (c : completion) (dev : net_device) :
  (14 <= length (tx_buf dev))%nat ->
  mcp2515_read_rxb instruction c dev =
    Some (queued c 14
            ([u8 instruction] ++ replicate 13 0 ++ drop 14 (tx_buf dev)) dev).
Proof.
  intros H. unfold mcp2515_read_rxb, memset.
  rewrite decide_True by done.
  change (replicate 14 (u8 0)) with (0 :: replicate 13 0).
  reflexivity.
Qed.

Lemma set_txbuf_head_Some (off : nat) (f : can_frame) (buf : list Z) :
  (off + 5 <= length buf)%nat ->
  is_Some (mcp2515_set_txbuf_head off f buf).
Proof.
  intros H. unfold mcp2515_set_txbuf_head.
  destruct (truthy (Z.land (can_id f) CAN_EFF_FLAG));
    repeat (rewrite store_Some by (rewrite ?length_insert; lia);
            cbn [mbind option_bind]);
    (destruct (truthy (Z.land (can_id f) CAN_RTR_FLAG)); [|by eexists]);
    unfold load;
    rewrite list_lookup_insert_eq by (rewrite ?length_insert; lia);
    cbn [mbind option_bind];
    rewrite store_Some by (rewrite ?length_insert; lia); by eexists.
Qed.

(** With a data length of at most 8 and room for 13 bytes after [off],
    [mcp2515_set_txbuf] succeeds and reports [5 + can_dlc] bytes. *)
Lemma set_txbuf_Some (off : nat) (s : sk_buff) (buf : list Z) :
  (off + 13 <= length buf)%nat ->
  length (data (skb_data s)) = 8%nat ->
  0 <= can_dlc (skb_data s) <= 8 ->
  exists buf',
    mcp2515_set_txbuf off s buf = Some (buf', 5 + can_dlc (skb_data s)) /\
    length buf' = length buf.
Proof.
  intros Hb Hd Hdlc. unfold mcp2515_set_txbuf.
  destruct (set_txbuf_head_Some off (skb_data s) buf) as [buf1 H1]; [lia|].
  rewrite H1. cbn [mbind option_bind].
  pose proof (set_txbuf_head_length _ _ _ _ H1) as Hl.
  rewrite memcpy_Some by lia. cbn [mbind option_bind].
  eexists. split; [reflexivity|].
  rewrite !length_app, !length_take, !length_drop. lia.
Qed.

(** ** What a step leaves alone

    Issuing a step only touches the transfer (buffer, length, callback), the
    queue of the bus and the echo slot. *)

Lemma queued_same_control (c : completion) (len : Z) (buf : list Z)
    (dev : net_device) :
  length buf = length (tx_buf dev) ->
  same_control dev (queued c len buf dev).
Proof. intros H. unfold same_control. simpl. split_and!; eauto. Qed.

Lemma read_flags_control (dev dev' : net_device) :
  mcp2515_read_flags dev = Some dev' ->
  same_control dev dev' /\ message_complete dev' = Some read_flags_complete
  /\ transfer_len dev' = 4.
Proof.
  unfold mcp2515_read_flags. intros H.
  repeat (apply bind_Some in H as (? & ?%store_length & H)).
  injection H as <-. split; [|done].
  apply (queued_same_control read_flags_complete 4). congruence.
Qed.

Lemma read_rxb_control (i : Z) (c : completion) (dev dev' : net_device) :
  mcp2515_read_rxb i c dev = Some dev' ->
  same_control dev dev' /\ message_complete dev' = Some c
  /\ transfer_len dev' = 14.
Proof.
  unfold mcp2515_read_rxb. intros H.
  apply bind_Some in H as (? & ?%memset_length & H).
  apply bind_Some in H as (? & ?%store_length & H).
  injection H as <-. split; [|done].
  apply (queued_same_control c 14). congruence.
Qed.

Lemma clear_canintf_control (dev dev' : net_device) :
  mcp2515_clear_canintf dev = Some dev' ->
  same_control dev dev' /\
  message_complete dev' = Some clear_canintf_complete
  /\ transfer_len dev' = 4.
Proof.
  unfold mcp2515_clear_canintf. intros H.
  repeat (apply bind_Some in H as (? & ?%store_length & H)).
  injection H as <-. split; [|done].
  apply (queued_same_control clear_canintf_complete 4). congruence.
Qed.

Lemma clear_eflg_control (dev dev' : net_device) :
  mcp2515_clear_eflg dev = Some dev' ->
  same_control dev dev' /\ message_complete dev' = Some clear_eflg_complete
  /\ transfer_len dev' = 4.
Proof.
  unfold mcp2515_clear_eflg. intros H.
  repeat (apply bind_Some in H as (? & ?%store_length & H)).
  injection H as <-. split; [|done].
  apply (queued_same_control clear_eflg_complete 4). congruence.
Qed.

Lemma rts_txb0_control (dev dev' : net_device) :
  mcp2515_rts_txb0 dev = Some dev' ->
  same_control dev dev' /\ message_complete dev' = Some rts_txb0_complete
  /\ transfer_len dev' = 1.
Proof.
  unfold mcp2515_rts_txb0. intros H.
  apply bind_Some in H as (? & ?%store_length & H).
  injection H as <-. split; [|done].
  apply (queued_same_control rts_txb0_complete 1). congruence.
Qed.

Lemma set_txbuf_length (off : nat) (s : sk_buff) (buf buf' : list Z)
    (n : Z) :
  mcp2515_set_txbuf off s buf = Some (buf', n) -> length buf' = length buf.
Proof.
  intros (buf1 & Hh%set_txbuf_head_length & Hm%memcpy_length & _)%set_txbuf_inv.
  congruence.
Qed.

Lemma load_txb0_control (s : option sk_buff) (dev dev' : net_device) :
  mcp2515_load_txb0 s dev = Some dev' ->
  same_control dev dev' /\ message_complete dev' = Some load_txb0_complete
  /\ exists s0, s = Some s0 /\
       transfer_len dev' = 5 + can_dlc (skb_data s0) + 1.
Proof.
  unfold mcp2515_load_txb0. intros H.
  apply bind_Some in H as (buf0 & H0%store_length & H).
  apply bind_Some in H as (s0 & -> & H).
  apply bind_Some in H as ([buf n] & Hs & H).
  injection H as <-.
  pose proof (set_txbuf_length _ _ _ _ _ Hs) as Hl.
  apply set_txbuf_inv in Hs as (_ & _ & _ & ->).
  split; [|split; [|exists s0; split; [done|]]].
  - unfold same_control, can_put_echo_skb.
    destruct (echo_skb _); simpl; split_and!; eauto; congruence.
  - unfold can_put_echo_skb. by destruct (echo_skb _).
  - unfold can_put_echo_skb. by destruct (echo_skb _).
Qed.

Lemma u8_land_l (c m : Z) : 0 <= c < 256 -> u8 (Z.land c m) = Z.land c m.
Proof.
  intros H. unfold u8.
  rewrite <- Z.land_assoc, (Z.land_comm m), Z.land_assoc.
  fold (u8 c). by rewrite u8_id.
Qed.

(** C9.  CLEAR_CANINTF hands the bus a BIT-MODIFY on CANINTF whose mask is
    [last_canintf] with RX0IF and RX1IF masked out and whose data is 0;
    CLEAR_EFLG hands it a BIT-MODIFY on EFLG with mask [last_eflg] and
    data 0. *)
Theorem clear_steps_bit_modify (dev : net_device) :
  length (tx_buf dev) = MCP2515_BUF_SIZE ->
  0 <= canintf dev < 256 ->
  0 <= eflg dev < 256 ->
  (exists dev',
     mcp2515_clear_canintf dev = Some dev' /\
     transfer_len dev' = 4 /\
     spi_queue dev' = spi_queue dev ++
       [(Some clear_canintf_complete,
         [MCP2515_INSTRUCTION_BIT_MODIFY; CANINTF;
          Z.land (canintf dev) (Z.lnot (Z.lor CANINTF_RX0IF CANINTF_RX1IF));
          0])]) /\
  (exists dev',
     mcp2515_clear_eflg dev = Some dev' /\
     transfer_len dev' = 4 /\
     spi_queue dev' = spi_queue dev ++
       [(Some clear_eflg_complete,
         [MCP2515_INSTRUCTION_BIT_MODIFY; EFLAG; eflg dev; 0])]).
Proof.
  unfold MCP2515_BUF_SIZE. intros Hl Hc He. split.
  - rewrite clear_canintf_eq by lia. eexists. split; [reflexivity|].
    split; [reflexivity|]. unfold queued, mcp2515_spi_async. simpl.
    by rewrite u8_land_l.
  - rewrite clear_eflg_eq by lia. eexists. split; [reflexivity|].
    split; [reflexivity|]. unfold queued, mcp2515_spi_async. simpl.
    by rewrite u8_id.
Qed.

(** A concrete instance in scenario 4: the masks are 0x20
    and 0x40. *)
Lemma clear_steps_bit_modify_witness :
  length (tx_buf dev_overflow) = MCP2515_BUF_SIZE /\
  0 <= canintf dev_overflow < 256 /\
  0 <= eflg dev_overflow < 256 /\
  (exists dev',
     mcp2515_clear_canintf dev_overflow = Some dev' /\
     transfer_len dev' = 4 /\
     spi_queue dev' = spi_queue dev_overflow ++
       [(Some clear_canintf_complete, [0x05; 0x2c; 0x20; 0])]) /\
  (exists dev',
     mcp2515_clear_eflg dev_overflow = Some dev' /\
     transfer_len dev' = 4 /\
     spi_queue dev' = spi_queue dev_overflow ++
       [(Some clear_eflg_complete, [0x05; 0x2d; 0x40; 0])]).
Proof.
  split; [reflexivity|]. split; [simpl; lia|]. split; [simpl; lia|].
  apply (clear_steps_bit_modify dev_overflow);
    [reflexivity | simpl; lia | simpl; lia].
Defined.

(** C10.  With 14-byte buffers and, for LOAD_TXB0, a well-formed frame of at
    most 8 data bytes, every asynchronous step succeeds (no store leaves the
    TX buffer), sets [transfer.len] to 4, 14, 1 or [1 + 5 + can_dlc], which
    is at most 14, keeps both buffers at 14 bytes, and the bytes the bus
    then stores in the RX buffer fit. *)
Theorem transfer_len_bounded (st : async_step) (dev : net_device)
    (rx : list Z) :
  length (tx_buf dev) = MCP2515_BUF_SIZE ->
  length (rx_buf dev) = MCP2515_BUF_SIZE ->
  (forall s, st = LOAD_TXB0 s ->
     frame_wf (skb_data s) /\ can_dlc (skb_data s) <= 8) ->
  exists dev',
    issue st dev = Some dev' /\
    transfer_len dev' = step_len st /\
    0 <= transfer_len dev' <= 14 /\
    length (tx_buf dev') = MCP2515_BUF_SIZE /\
    length (rx_buf dev') = MCP2515_BUF_SIZE /\
    is_Some (memcpy 0 (u8 <$> resize (Z.to_nat (transfer_len dev')) 0 rx) 0
               (Z.to_nat (transfer_len dev')) (rx_buf dev')).
Proof.
  unfold MCP2515_BUF_SIZE. intros Htx Hrx Hs.
  assert (Hfit : forall dev' : net_device,
            0 <= transfer_len dev' <= 14 ->
            length (rx_buf dev') = 14%nat ->
            is_Some (memcpy 0
              (u8 <$> resize (Z.to_nat (transfer_len dev')) 0 rx) 0
              (Z.to_nat (transfer_len dev')) (rx_buf dev'))).
  { intros dev' Hlen Hl. rewrite memcpy_Some; [by eexists| |lia].
    rewrite length_fmap, length_resize. lia. }
  assert (Hgen : forall dev',
            issue st dev = Some dev' -> same_control dev dev' ->
            transfer_len dev' = step_len st ->
            0 <= step_len st <= 14 ->
            exists dev'', issue st dev = Some dev'' /\
              transfer_len dev'' = step_len st /\
              0 <= transfer_len dev'' <= 14 /\
              length (tx_buf dev'') = 14%nat /\
              length (rx_buf dev'') = 14%nat /\
              is_Some (memcpy 0
                (u8 <$> resize (Z.to_nat (transfer_len dev'')) 0 rx) 0
                (Z.to_nat (transfer_len dev'')) (rx_buf dev''))).
  { intros dev' Hi Hc Hlen Hb. exists dev'.
    destruct Hc as (_&_&_&_&_&_&_&_&_&Hrb&_&Htb&_).
    split_and!; try done; try congruence; try lia.
    apply Hfit; [lia|congruence]. }
  destruct st as [| | | | |s|]; simpl in *.
  - eapply Hgen; [apply read_flags_eq; lia| |done|lia].
    apply queued_same_control. simpl. rewrite length_drop. lia.
  - eapply Hgen; [apply read_rxb_eq; lia| |done|lia].
    apply queued_same_control. simpl.
    rewrite ?length_app, ?length_replicate, ?length_drop. simpl. lia.
  - eapply Hgen; [apply read_rxb_eq; lia| |done|lia].
    apply queued_same_control. simpl.
    rewrite ?length_app, ?length_replicate, ?length_drop. simpl. lia.
  - eapply Hgen; [apply clear_canintf_eq; lia| |done|lia].
    apply queued_same_control. simpl. rewrite length_drop. lia.
  - eapply Hgen; [apply clear_eflg_eq; lia| |done|lia].
    apply queued_same_control. simpl. rewrite length_drop. lia.
  - destruct (Hs s eq_refl) as [(_ & Hdlc & Hdata) Hle].
    destruct (set_txbuf_Some 1 s
                (<[0%nat := u8 (MCP2515_INSTRUCTION_LOAD_TXB 0)]> (tx_buf dev)))
      as (buf' & Hset & Hl); [rewrite length_insert; lia|done|lia|].
    assert (Hload : is_Some (mcp2515_load_txb0 (Some s) dev)).
    { unfold mcp2515_load_txb0. rewrite store_Some by lia.
      cbn [mbind option_bind]. rewrite Hset. by eexists. }
    destruct Hload as [dev' Hload].
    destruct (load_txb0_control _ _ _ Hload) as (Hc & _ & s0 & [= <-] & Hlen).
    eapply Hgen; [exact Hload|exact Hc|lia|lia].
  - eapply Hgen; [apply rts_txb0_eq; lia| |done|lia].
    apply queued_same_control. simpl. rewrite length_drop. lia.
Qed.

(** A concrete instance: loading the extended
    frame of P4 takes 8 bytes. *)
Lemma transfer_len_bounded_witness :
  length (tx_buf dev_overflow) = MCP2515_BUF_SIZE /\
  length (rx_buf dev_overflow) = MCP2515_BUF_SIZE /\
  (frame_wf frame_ext /\ can_dlc frame_ext <= 8) /\
  exists dev',
    issue (LOAD_TXB0 (mk_sk_buff frame_ext)) dev_overflow = Some dev' /\
    transfer_len dev' = 8 /\
    0 <= transfer_len dev' <= 14 /\
    length (tx_buf dev') = MCP2515_BUF_SIZE /\
    length (rx_buf dev') = MCP2515_BUF_SIZE /\
    is_Some (memcpy 0 (u8 <$> resize (Z.to_nat (transfer_len dev')) 0 [1; 2]) 0
               (Z.to_nat (transfer_len dev')) (rx_buf dev')).
Proof.
  assert (Hwf : frame_wf frame_ext /\ can_dlc frame_ext <= 8).
  { unfold frame_wf. simpl. split_and!; try lia; try reflexivity.
    all: by vm_compute. }
  split; [reflexivity|]. split; [reflexivity|]. split; [exact Hwf|].
  apply (transfer_len_bounded (LOAD_TXB0 (mk_sk_buff frame_ext))
           dev_overflow [1; 2]); [reflexivity|reflexivity|].
  intros s [= <-]. exact Hwf.
Defined.

(** ** Effects of the operations on the flags and the pending skb *)

Lemma keeps_flags_I6 (dev dev' : net_device) :
  keeps_flags dev dev' -> I6 dev -> I6 dev'.
Proof.
  unfold keeps_flags, I6. intros (Hb & Hi & Ht & _) H Hb'.
  rewrite Hb in Hb'. destruct (H Hb') as [H1 H2].
  split; [destruct Ht; congruence|congruence].
Qed.

Lemma same_control_keeps (dev dev' : net_device) :
  same_control dev dev' -> keeps_flags dev dev'.
Proof.
  intros (_ & Hb & Hi & Ht & Hs & _). unfold keeps_flags. split_and!; auto.
Qed.

Lemma keeps_flags_trans (d1 d2 d3 : net_device) :
  keeps_flags d1 d2 -> keeps_flags d2 d3 -> keeps_flags d1 d3.
Proof.
  unfold keeps_flags. intros (Hb & Hi & Ht & Hs) (Hb' & Hi' & Ht' & Hs').
  split_and!; try congruence.
  destruct Ht, Ht'; [left|right|right|right]; congruence.
Qed.

Lemma read_rxb_complete_keeps (alloc : bool) (dev dev' : net_device) :
  mcp2515_read_rxb_complete alloc dev = Some dev' ->
  keeps_flags dev dev' /\ canintf dev' = canintf dev /\
  eflg dev' = eflg dev.
Proof.
  unfold mcp2515_read_rxb_complete. intros H.
  destruct alloc; simpl in H.
  - apply bind_Some in H as (frame & _ & H). injection H as <-.
    unfold keeps_flags. simpl. split_and!; auto.
  - injection H as <-. unfold keeps_flags. simpl. split_and!; auto.
Qed.

Lemma transmit_or_read_flags_keeps (dev dev' : net_device) :
  mcp2515_transmit_or_read_flags dev = Some dev' -> keeps_flags dev dev'.
Proof.
  unfold mcp2515_transmit_or_read_flags. intros H.
  destruct (transmit dev) eqn:Ht.
  - apply load_txb0_control in H as ((_ & Hb & Hi & Ht' & Hs & _) & _).
    unfold keeps_flags. simpl in *. split_and!; auto.
  - apply read_flags_control in H as (H%same_control_keeps & _). done.
Qed.

Lemma read_rxb0_complete_keeps (alloc : bool) (dev dev' : net_device) :
  mcp2515_read_rxb0_complete alloc dev = Some dev' -> keeps_flags dev dev'.
Proof.
  unfold mcp2515_read_rxb0_complete. intros H.
  apply bind_Some in H as (dev1 & (H1 & _)%read_rxb_complete_keeps & H).
  eapply keeps_flags_trans; [exact H1|].
  destruct (truthy _).
  - apply read_rxb_control in H as (H%same_control_keeps & _). done.
  - by apply transmit_or_read_flags_keeps.
Qed.

Lemma read_rxb1_complete_keeps (alloc : bool) (dev dev' : net_device) :
  mcp2515_read_rxb1_complete alloc dev = Some dev' -> keeps_flags dev dev'.
Proof.
  unfold mcp2515_read_rxb1_complete. intros H.
  apply bind_Some in H as (dev1 & (H1 & _)%read_rxb_complete_keeps & H).
  eapply keeps_flags_trans; [exact H1|].
  by apply transmit_or_read_flags_keeps.
Qed.

Lemma clear_eflg_complete_keeps (dev dev' : net_device) :
  mcp2515_clear_eflg_complete dev = Some dev' -> keeps_flags dev dev'.
Proof.
  unfold mcp2515_clear_eflg_complete. intros H.
  apply read_flags_control in H as (H%same_control_keeps & _).
  destruct (truthy _); exact H.
Qed.

(** The completion of CLEAR_CANINTF: with TX0IF in [last_canintf] the
    pending skb is dropped, the echo bytes are accounted when there was one,
    and the queue is woken; otherwise nothing but the next step happens. *)
Lemma clear_canintf_complete_effect (dev dev' : net_device) :
  mcp2515_clear_canintf_complete dev = Some dev' ->
  busy dev' = busy dev /\ interrupt dev' = interrupt dev /\
  transmit dev' = transmit dev /\
  (if truthy (Z.land (canintf dev) CANINTF_TX0IF)
   then skb dev' = None /\ queue_stopped dev' = false /\
        (is_Some (skb dev) ->
         tx_packets (stats dev') = ulong (tx_packets (stats dev) + 1) /\
         tx_bytes (stats dev') =
           ulong (tx_bytes (stats dev) + (can_get_echo_skb dev).1))
   else skb dev' = skb dev /\ stats dev' = stats dev /\
        queue_stopped dev' = queue_stopped dev).
Proof.
  unfold mcp2515_clear_canintf_complete. intros H.
  set (dev1 := if truthy (Z.land (canintf dev) CANINTF_TX0IF) then _ else dev)
    in H.
  assert (Hc : same_control dev1 dev').
  { destruct (truthy (eflg dev1)).
    - by apply clear_eflg_control in H as (H & _).
    - by apply read_flags_control in H as (H & _). }
  destruct Hc as (_ & Hb & Hi & Ht & Hs & _ & _ & Hst & Hq & _).
  rewrite Hb, Hi, Ht, Hs, Hst, Hq. subst dev1. clear.
  destruct (truthy (Z.land (canintf dev) CANINTF_TX0IF)); [|done].
  unfold can_get_echo_skb.
  destruct (skb dev) as [s|]; destruct (echo_skb dev) as [s'|]; simpl;
    split_and!; try done; by intros [? [=]].
Qed.

Lemma interrupt_effect (dev dev' : net_device) :
  mcp2515_interrupt dev = Some dev' ->
  skb dev' = skb dev /\ busy dev' = true /\ transmit dev' = transmit dev /\
  (busy dev = false -> interrupt dev' = interrupt dev).
Proof.
  unfold mcp2515_interrupt. intros H. destruct (busy dev) eqn:Hb.
  - injection H as <-. simpl. split_and!; done.
  - apply read_flags_control in H as ((_ & ? & ? & ? & ? & _) & _).
    simpl in *. split_and!; auto.
Qed.

(** The flags and the pending skb after the completion of READ_FLAGS. *)
Lemma read_flags_complete_effect (dev dev' : net_device) :
  mcp2515_read_flags_complete dev = Some dev' ->
  skb dev' = skb dev /\
  (keeps_flags dev dev' \/
   transmit dev = false /\ interrupt dev = true /\
   busy dev' = busy dev /\ transmit dev' = false /\ interrupt dev' = false \/
   transmit dev = false /\ interrupt dev = false /\ canintf dev' = 0 /\
   busy dev' = false /\ transmit dev' = false /\ interrupt dev' = false).
Proof.
  unfold mcp2515_read_flags_complete, load. intros H.
  apply bind_Some in H as (c & _ & H). simpl in H.
  apply bind_Some in H as (e & _ & H). simpl in H.
  set (dev1 := set_eflg e (set_canintf c dev)) in H.
  assert (Hk : forall d, same_control dev1 d ->
            skb d = skb dev /\ keeps_flags dev d).
  { intros d (_ & Hb & Hi & Ht & Hs & _). unfold keeps_flags.
    simpl in *. split_and!; auto. }
  destruct (truthy (Z.land c CANINTF_RX0IF)).
  { apply read_rxb_control in H as (H%Hk & _). tauto. }
  destruct (truthy (Z.land c CANINTF_RX1IF)).
  { apply read_rxb_control in H as (H%Hk & _). tauto. }
  destruct (truthy c) eqn:E.
  { apply clear_canintf_control in H as (H%Hk & _). tauto. }
  apply truthy_false in E. subst c.
  destruct (transmit dev) eqn:Ht.
  { apply load_txb0_control in H as ((_ & Hb & Hi & Ht' & Hs & _) & _).
    simpl in *. split; [done|]. left. unfold keeps_flags. split_and!; auto. }
  destruct (interrupt dev) eqn:Hi.
  { apply read_flags_control in H as ((_ & Hb & Hi' & Ht' & Hs & _) & _).
    simpl in *. rewrite Ht in Ht'. split; [done|]. right. left.
    split_and!; auto. }
  injection H as <-. simpl. rewrite Ht, Hi. split; [done|]. right. right.
  split_and!; auto.
Qed.

(** The synchronous operations leave the flags and the pending skb alone. *)
Lemma chip_start_keeps (polls : nat) (dev dev' : net_device)
    (spi spi' : spi_device) (err : Z) :
  mcp2515_chip_start polls dev spi = Some (err, dev', spi') ->
  keeps_flags dev dev'.
Proof.
  unfold mcp2515_chip_start, mcp2515_hw_reset, mcp2515_write_reg, spi_write.
  cbn [fst snd]. intros H.
  assert (Hs : forall b v, keeps_flags dev (set_tx_buf b dev) /\
                 keeps_flags dev (set_can_st v (set_tx_buf b dev))).
  { intros b v. unfold keeps_flags. simpl. split_and!; auto. }
  assert (H0 : keeps_flags dev dev).
  { unfold keeps_flags. split_and!; auto. }
  destruct (truthy _); [by injection H as <- <- <-|].
  do 6 (apply bind_Some in H as (? & _ & H)).
  destruct (truthy _); [injection H as <- <- <-; apply Hs; constructor|].
  do 3 (apply bind_Some in H as (? & _ & H)).
  destruct (truthy _); [injection H as <- <- <-; apply Hs; constructor|].
  destruct (chip_start_wait _ _ _) as [e s].
  destruct (truthy e); injection H as <- <- <-; apply Hs; constructor.
Qed.

Lemma keeps_flags_refl (dev : net_device) : keeps_flags dev dev.
Proof. unfold keeps_flags. split_and!; auto. Qed.

Lemma open_keeps (open_err irq_err : Z) (polls : nat)
    (dev : net_device) (spi : spi_device)
    (r : Z * net_device * spi_device) :
  mcp2515_open open_err irq_err polls dev spi = Some r ->
  keeps_flags dev r.1.2.
Proof.
  unfold mcp2515_open. intros H.
  destruct (truthy open_err); [injection H as <-; apply keeps_flags_refl|].
  destruct (truthy irq_err); [injection H as <-; apply keeps_flags_refl|].
  apply bind_Some in H as ([[e d] s] & Hc%chip_start_keeps & H).
  destruct (truthy e); injection H as <-; simpl; [done|].
  eapply keeps_flags_trans; [exact Hc|].
  unfold keeps_flags. simpl. split_and!; auto.
Qed.

Lemma close_keeps (dev : net_device) (spi : spi_device) :
  keeps_flags dev (mcp2515_close dev spi).1.2.
Proof. unfold keeps_flags. simpl. split_and!; auto. Qed.

Lemma set_mode_keeps (mode : can_mode) (polls : nat)
    (dev : net_device) (spi : spi_device)
    (r : Z * net_device * spi_device) :
  mcp2515_set_mode mode polls dev spi = Some r ->
  keeps_flags dev r.1.2.
Proof.
  unfold mcp2515_set_mode. intros H.
  destruct mode; try (injection H as <-; apply keeps_flags_refl).
  apply bind_Some in H as ([[e d] s] & Hc%chip_start_keeps & H).
  destruct (truthy e); injection H as <-; simpl; [done|].
  eapply keeps_flags_trans; [exact Hc|].
  unfold keeps_flags. simpl. split_and!; auto.
Qed.

Section DriverProperties.

Variable can_dropped_invalid_skb : sk_buff -> bool.

(** The transmit entry: a dropped skb changes nothing; an accepted one
    becomes the pending skb, and [transmit] is set only under [busy]. *)
Lemma start_xmit_effect (s : sk_buff) (dev dev' : net_device) :
  mcp2515_start_xmit can_dropped_invalid_skb s dev = Some dev' ->
  interrupt dev' = interrupt dev /\
  (if can_dropped_invalid_skb s then dev' = dev
   else skb dev' = Some s /\ busy dev' = true /\
        (busy dev = false -> transmit dev' = transmit dev)).
Proof.
  unfold mcp2515_start_xmit. intros H.
  destruct (can_dropped_invalid_skb s); [by injection H as <-|].
  simpl in H. destruct (busy dev) eqn:Hb.
  - injection H as <-. simpl. split_and!; done.
  - apply load_txb0_control in H as ((_ & ? & ? & ? & ? & _) & _).
    simpl in *. split_and!; auto.
Qed.

(** What the completion of the message in flight does to the flags and
    the pending skb, by callback. *)
Lemma complete_effect (rx : list Z) (alloc : bool)
    (dev dev' : net_device) :
  spi_complete rx alloc dev = Some dev' ->
  (message_complete dev = Some read_flags_complete /\
   skb dev' = skb dev /\
   (keeps_flags dev dev' \/
    transmit dev = false /\ interrupt dev = true /\
    busy dev' = busy dev /\ transmit dev' = false /\
    interrupt dev' = false \/
    transmit dev = false /\ interrupt dev = false /\ canintf dev' = 0 /\
    busy dev' = false /\ transmit dev' = false /\
    interrupt dev' = false)) \/
  (message_complete dev = Some clear_canintf_complete /\
   truthy (Z.land (canintf dev) CANINTF_TX0IF) = true /\
   busy dev' = busy dev /\ interrupt dev' = interrupt dev /\
   transmit dev' = transmit dev /\
   skb dev' = None /\ queue_stopped dev' = false /\
   (is_Some (skb dev) ->
    tx_packets (stats dev') = ulong (tx_packets (stats dev) + 1) /\
    tx_bytes (stats dev') =
      ulong (tx_bytes (stats dev) + (can_get_echo_skb dev).1))) \/
  ((message_complete dev = Some clear_canintf_complete ->
    truthy (Z.land (canintf dev) CANINTF_TX0IF) = false) /\
   message_complete dev <> Some read_flags_complete /\
   keeps_flags dev dev').
Proof.
  unfold spi_complete. intros H.
  apply bind_Some in H as (buf & _ & H).
  set (dev1 := set_rx_buf buf dev) in H.
  assert (Hk : forall d, keeps_flags dev1 d -> keeps_flags dev d) by done.
  change (message_complete dev1) with (message_complete dev) in H.
  destruct (message_complete dev) as [[]|] eqn:Hm.
  - left. apply read_flags_complete_effect in H as [Hs H].
    split; [done|]. split; [done|]. exact H.
  - right. right. split; [done|]. split; [done|].
    by apply read_rxb0_complete_keeps in H.
  - right. right. split; [done|]. split; [done|].
    by apply read_rxb1_complete_keeps in H.
  - apply clear_canintf_complete_effect in H.
    change (canintf dev1) with (canintf dev) in H.
    destruct (truthy (Z.land (canintf dev) CANINTF_TX0IF)) eqn:E.
    + right. left. destruct H as (Hb & Hi & Ht & Hs & Hq & Hst).
      assert (He : (can_get_echo_skb dev1).1 = (can_get_echo_skb dev).1).
      { unfold can_get_echo_skb. simpl. by destruct (echo_skb dev). }
      rewrite He in Hst. split_and!; done.
    + right. right. destruct H as (? & ? & ? & ? & _).
      split_and!; try done. unfold keeps_flags. split_and!; auto.
  - right. right. split; [done|]. split; [done|].
    by apply clear_eflg_complete_keeps in H.
  - right. right. split; [done|]. split; [done|].
    apply rts_txb0_control in H as (H%same_control_keeps & _). done.
  - right. right. split; [done|]. split; [done|].
    apply read_flags_control in H as (H%same_control_keeps & _). done.
  - right. right. injection H as <-. split; [done|]. split; [done|].
    apply Hk, keeps_flags_refl.
Qed.

(** Every operation preserves I6. *)
Lemma step_preserves_I6 (dev : net_device) (ev : event)
    (dev' : net_device) :
  step can_dropped_invalid_skb dev ev = Some dev' -> I6 dev -> I6 dev'.
Proof.
  intros H HI. destruct ev as [|s|rx alloc|oe ie polls spi|spi|m polls spi];
    simpl in H.
  - apply interrupt_effect in H as (_ & Hb & _). intros Hb'. congruence.
  - apply start_xmit_effect in H as [Hi H].
    destruct (can_dropped_invalid_skb s); [by subst|].
    destruct H as (_ & Hb & _). intros Hb'. congruence.
  - apply complete_effect in H
      as [(_ & _ & [H|[H|H]])|[H|(_ & _ & H)]].
    + by eapply keeps_flags_I6.
    + destruct H as (_ & _ & _ & ? & ?). by intros _.
    + destruct H as (_ & _ & _ & _ & ? & ?). by intros _.
    + destruct H as (_ & _ & Hb & Hi & Ht & _). intros Hb'.
      rewrite Hb in Hb'. rewrite Hi, Ht. by apply HI.
    + by eapply keeps_flags_I6.
  - apply bind_Some in H as (r & Hr%open_keeps & [= <-]).
    by eapply keeps_flags_I6.
  - injection H as <-.
    eapply keeps_flags_I6; [apply (close_keeps dev spi)|done].
  - apply bind_Some in H as (r & Hr%set_mode_keeps & [= <-]).
    by eapply keeps_flags_I6.
Qed.

Lemma probed_I6 (ctrlmode : Z) (bt : can_bittiming) (txb rxb : list Z) :
  I6 (probed_device ctrlmode bt txb rxb).
Proof. by intros _. Qed.

Lemma run_reachable (evs : list event) (dev dev' : net_device) :
  reachable can_dropped_invalid_skb dev ->
  run can_dropped_invalid_skb dev evs = Some dev' ->
  reachable can_dropped_invalid_skb dev'.
Proof.
  revert dev. induction evs as [|ev evs IH]; intros dev Hr H; simpl in H.
  - by injection H as <-.
  - apply bind_Some in H as (dev1 & H1 & H).
    eapply IH; [|exact H]. by eapply reachable_step.
Qed.

End DriverProperties.

(** The three ways an operation can treat the pending skb: the transmit
    entry accepts a frame, CLEAR_CANINTF completes with TX0IF, or the skb
    stays as it is. *)
Lemma step_skb (can_dropped_invalid_skb : sk_buff -> bool)
    (dev : net_device) (ev : event) (dev' : net_device) :
  step can_dropped_invalid_skb dev ev = Some dev' ->
  (exists s, ev = ev_start_xmit s /\ can_dropped_invalid_skb s = false /\
             skb dev' = Some s) \/
  (exists rx alloc,
     ev = ev_spi_complete rx alloc /\
     message_complete dev = Some clear_canintf_complete /\
     Z.land (canintf dev) CANINTF_TX0IF <> 0 /\
     skb dev' = None /\ queue_stopped dev' = false /\
     (is_Some (skb dev) ->
      tx_packets (stats dev') = ulong (tx_packets (stats dev) + 1) /\
      tx_bytes (stats dev') =
        ulong (tx_bytes (stats dev) + (can_get_echo_skb dev).1))) \/
  (skb dev' = skb dev /\
   (forall s, ev = ev_start_xmit s -> can_dropped_invalid_skb s = true) /\
   (forall rx alloc, ev = ev_spi_complete rx alloc ->
      message_complete dev = Some clear_canintf_complete ->
      Z.land (canintf dev) CANINTF_TX0IF = 0)).
Proof.
  intros H. destruct ev as [|s|rx alloc|oe ie polls spi|spi|m polls spi];
    simpl in H.
  - apply interrupt_effect in H as (Hs & _). right. right.
    split; [done|]. split; intros; discriminate.
  - apply start_xmit_effect in H as [_ H].
    destruct (can_dropped_invalid_skb s) eqn:E.
    + subst dev'. right. right. split; [done|].
      split; [by intros ? [= <-]|intros; discriminate].
    + left. exists s. by destruct H as (? & _).
  - apply complete_effect in H
      as [(Hm & Hs & _)|[(Hm & E & _ & _ & _ & Hs & Hq & Hst)|(Hm & _ & Hk)]].
    + right. right. split; [done|]. split; [intros; discriminate|].
      intros ? ? _ ?. congruence.
    + right. left. exists rx, alloc. apply truthy_true in E.
      split_and!; done.
    + right. right. destruct Hk as (_ & _ & _ & Hs).
      split; [done|]. split; [intros; discriminate|].
      intros ? ? _ Hc. by apply truthy_false, Hm.
  - apply bind_Some in H as (r & (_ & _ & _ & Hs)%open_keeps & [= <-]).
    right. right. split; [done|]. split; intros; discriminate.
  - injection H as <-. right. right.
    split; [apply (close_keeps dev spi)|]. split; intros; discriminate.
  - apply bind_Some in H as (r & (_ & _ & _ & Hs)%set_mode_keeps & [= <-]).
    right. right. split; [done|]. split; intros; discriminate.
Qed.

(** C2.  Invariant I6 holds in every reachable state: when [busy] is clear,
    [transmit] and [interrupt] are clear too, and whatever operation runs
    next (interrupt handler, transmit entry, a completion callback, open,
    close, mode change) leads to a state where this holds again. *)
Theorem idle_implies_flags_clear
    (can_dropped_invalid_skb : sk_buff -> bool) (dev : net_device) :
  reachable can_dropped_invalid_skb dev ->
  (busy dev = false -> transmit dev = false /\ interrupt dev = false) /\
  (forall ev dev',
     step can_dropped_invalid_skb dev ev = Some dev' ->
     busy dev' = false -> transmit dev' = false /\ interrupt dev' = false).
Proof.
  intros Hr.
  assert (HI : I6 dev).
  { induction Hr as [|dev ev dev' _ IH Hstep].
    - apply probed_I6.
    - by eapply step_preserves_I6. }
  split; [exact HI|].
  intros ev dev' Hstep. by eapply step_preserves_I6.
Qed.

Lemma dev_scenario_reachable (n : nat) :
  (n <= 10)%nat -> reachable dropped_over_8 (dev_scenario n).
Proof.
  intros Hn. apply (run_reachable dropped_over_8
    (take n scenario_rx_during_tx) dev_probed); [constructor|].
  do 11 (destruct n as [|n]; [vm_compute; reflexivity|]). lia.
Qed.

(** A concrete instance: the idle state at the
    end of scenario 3. *)
Lemma idle_implies_flags_clear_witness :
  reachable dropped_over_8 (dev_scenario 10) /\
  busy (dev_scenario 10) = false /\
  transmit (dev_scenario 10) = false /\
  interrupt (dev_scenario 10) = false.
Proof.
  assert (Hr : reachable dropped_over_8 (dev_scenario 10))
    by (apply dev_scenario_reachable; lia).
  split; [exact Hr|]. split; [vm_compute; reflexivity|].
  apply (idle_implies_flags_clear dropped_over_8 (dev_scenario 10) Hr).
  vm_compute. reflexivity.
Defined.

(** C3.  In any operation of the driver, the pending skb goes from null to
    non-null exactly when the operation is the transmit entry accepting a
    frame, and from non-null to null exactly when it is the completion of
    CLEAR_CANINTF with TX0IF in [last_canintf]; at that point the echo bytes
    are accounted and the queue is woken.  An operation that changes the
    pending skb is one of these two. *)
Theorem pending_skb_transitions
    (can_dropped_invalid_skb : sk_buff -> bool)
    (dev : net_device) (ev : event) (dev' : net_device) :
  step can_dropped_invalid_skb dev ev = Some dev' ->
  (skb dev = None ->
   (is_Some (skb dev') <->
    exists s, ev = ev_start_xmit s /\ can_dropped_invalid_skb s = false)) /\
  (is_Some (skb dev) ->
   (skb dev' = None <->
    exists rx alloc,
      ev = ev_spi_complete rx alloc /\
      message_complete dev = Some clear_canintf_complete /\
      Z.land (canintf dev) CANINTF_TX0IF <> 0)) /\
  (skb dev' <> skb dev ->
   (exists s, ev = ev_start_xmit s /\ can_dropped_invalid_skb s = false /\
              skb dev' = Some s) \/
   (exists rx alloc,
      ev = ev_spi_complete rx alloc /\
      message_complete dev = Some clear_canintf_complete /\
      Z.land (canintf dev) CANINTF_TX0IF <> 0 /\ skb dev' = None)) /\
  (forall rx alloc,
     ev = ev_spi_complete rx alloc ->
     message_complete dev = Some clear_canintf_complete ->
     Z.land (canintf dev) CANINTF_TX0IF <> 0 ->
     is_Some (skb dev) ->
     skb dev' = None /\ queue_stopped dev' = false /\
     tx_packets (stats dev') = ulong (tx_packets (stats dev) + 1) /\
     tx_bytes (stats dev') =
       ulong (tx_bytes (stats dev) + (can_get_echo_skb dev).1)).
Proof.
  intros H.
  destruct (step_skb _ _ _ _ H)
    as [(s & -> & Hd & Hs)
       |[(rx & alloc & -> & Hm & Hc & Hs & Hq & Hst)
        |(Hs & Hx & Hcl)]].
  - split_and!.
    + intros _. split; [eauto|]. intros _. rewrite Hs. by eexists.
    + intros _. split; [congruence|]. by intros (? & ? & [=] & _).
    + intros _. left. eauto.
    + intros; discriminate.
  - split_and!.
    + intros _. rewrite Hs. split; [by intros [? [=]]|].
      by intros (? & [=] & _).
    + intros _. split; [eauto|done].
    + intros _. right. exists rx, alloc. done.
    + intros ? ? _ _ _ Hsome. destruct (Hst Hsome). done.
  - split_and!.
    + intros Hn. rewrite Hs, Hn. split; [by intros [? [=]]|].
      intros (s & -> & Hd). specialize (Hx s eq_refl). congruence.
    + intros [s0 Hsome]. rewrite Hs, Hsome. split; [done|].
      intros (rx & alloc & -> & Hm & Hc).
      specialize (Hcl rx alloc eq_refl Hm). done.
    + done.
    + intros rx alloc -> Hm Hc. specialize (Hcl rx alloc eq_refl Hm). done.
Qed.

(** A concrete instance: step 8 of scenario 3
    is the completion of CLEAR_CANINTF with TX0IF set; it drops the pending
    frame, counts its 3 bytes and wakes the queue. *)
Lemma pending_skb_transitions_witness :
  step dropped_over_8 (dev_scenario 7) (ev_spi_complete [] true)
    = Some (dev_scenario 8) /\
  message_complete (dev_scenario 7) = Some clear_canintf_complete /\
  Z.land (canintf (dev_scenario 7)) CANINTF_TX0IF <> 0 /\
  skb (dev_scenario 7) = Some (mk_sk_buff frame_std) /\
  skb (dev_scenario 8) = None /\
  queue_stopped (dev_scenario 8) = false /\
  tx_packets (stats (dev_scenario 8)) = 1 /\
  tx_bytes (stats (dev_scenario 8)) = 3.
Proof.
  assert (Hstep : step dropped_over_8 (dev_scenario 7)
            (ev_spi_complete [] true) = Some (dev_scenario 8))
    by (vm_compute; reflexivity).
  assert (Hm : message_complete (dev_scenario 7) =
               Some clear_canintf_complete) by (vm_compute; reflexivity).
  assert (Hc : Z.land (canintf (dev_scenario 7)) CANINTF_TX0IF <> 0)
    by (vm_compute; discriminate).
  assert (Hs : skb (dev_scenario 7) = Some (mk_sk_buff frame_std))
    by (vm_compute; reflexivity).
  destruct (pending_skb_transitions dropped_over_8 (dev_scenario 7)
              (ev_spi_complete [] true) (dev_scenario 8) Hstep)
    as (_ & _ & _ & Hacc).
  destruct (Hacc _ _ eq_refl Hm Hc) as (Hn & Hq & Hp & Hb);
    [rewrite Hs; eexists; reflexivity|].
  split; [exact Hstep|]. split; [exact Hm|]. split; [exact Hc|].
  split; [exact Hs|]. split; [exact Hn|]. split; [exact Hq|].
  split; [rewrite Hp|rewrite Hb]; vm_compute; reflexivity.
Defined.

(** [busy] goes from set to clear only in the drain of a READ_FLAGS
    completion that read CANINTF = 0 with [transmit] and [interrupt]
    clear. *)
Lemma busy_cleared_only_by_drain
    (can_dropped_invalid_skb : sk_buff -> bool)
    (ev : event) (d d' : net_device) :
  step can_dropped_invalid_skb d ev = Some d' ->
  busy d = true -> busy d' = false ->
  exists rx alloc,
    ev = ev_spi_complete rx alloc /\
    message_complete d = Some read_flags_complete /\
    canintf d' = 0 /\ transmit d = false /\ interrupt d = false.
Proof.
  intros H Hb Hb'.
  destruct ev as [|s|rx alloc|oe ie polls spi|spi|m polls spi]; simpl in H.
  - apply interrupt_effect in H as (_ & ? & _). congruence.
  - apply start_xmit_effect in H as [_ H].
    destruct (can_dropped_invalid_skb s); [subst; congruence|].
    destruct H as (_ & ? & _). congruence.
  - apply complete_effect in H
      as [(Hm & _ & [(? & _)|[(_ & _ & ? & _)|(Ht & Hi & Hc & _)]])
         |[(_ & _ & ? & _)|(_ & _ & (? & _))]]; try congruence.
    exists rx, alloc. done.
  - apply bind_Some in H as (r & (Hk & _)%open_keeps & [= <-]).
    rewrite Hk, Hb in Hb'. discriminate.
  - assert (Hk : busy d' = busy d)
      by (injection H as <-; apply (close_keeps d spi)).
    rewrite Hk, Hb in Hb'. discriminate.
  - apply bind_Some in H as (r & (Hk & _)%set_mode_keeps & [= <-]).
    rewrite Hk, Hb in Hb'. discriminate.
Qed.

(** ** Messages handed to the bus *)

Lemma queued_hands (c : completion) (len : Z) (buf bytes : list Z)
    (dev : net_device) :
  take (Z.to_nat len) buf = bytes -> len = Z.of_nat (length bytes) ->
  hands_to_bus c bytes dev (Some (queued c len buf dev)).
Proof.
  intros Hb Hl. exists (queued c len buf dev). simpl. rewrite Hb.
  split_and!; done.
Qed.

(** Moving the verdict to a device with the same queue and [busy]. *)
Lemma hands_from (c : completion) (bytes : list Z) (dev dev1 : net_device)
    (r : option net_device) :
  spi_queue dev1 = spi_queue dev -> busy dev1 = busy dev ->
  hands_to_bus c bytes dev1 r -> hands_to_bus c bytes dev r.
Proof.
  intros Hq Hb (dev' & ? & ? & ? & Hq' & Hb'). exists dev'.
  rewrite <- Hq, <- Hb. done.
Qed.

Lemma read_flags_hands (dev : net_device) :
  (4 <= length (tx_buf dev))%nat ->
  hands_to_bus read_flags_complete [0x03; 0x2c; 0; 0] dev
    (mcp2515_read_flags dev).
Proof.
  intros H. rewrite read_flags_eq by done. apply queued_hands; [|done].
  simpl. by rewrite take_0.
Qed.

Lemma read_rxb_hands (i : Z) (c : completion) (dev : net_device) :
  (14 <= length (tx_buf dev))%nat ->
  hands_to_bus c (u8 i :: replicate 13 0) dev (mcp2515_read_rxb i c dev).
Proof.
  intros H. rewrite read_rxb_eq by done. apply queued_hands; [|done].
  simpl. by rewrite take_0.
Qed.

Lemma clear_canintf_hands (dev : net_device) :
  (4 <= length (tx_buf dev))%nat ->
  hands_to_bus clear_canintf_complete
    [0x05; 0x2c;
     u8 (Z.land (canintf dev) (Z.lnot (Z.lor CANINTF_RX0IF CANINTF_RX1IF)));
     0] dev
    (mcp2515_clear_canintf dev).
Proof.
  intros H. rewrite clear_canintf_eq by done. apply queued_hands; [|done].
  simpl. by rewrite take_0.
Qed.

Lemma clear_eflg_hands (dev : net_device) :
  (4 <= length (tx_buf dev))%nat ->
  hands_to_bus clear_eflg_complete [0x05; 0x2d; u8 (eflg dev); 0] dev
    (mcp2515_clear_eflg dev).
Proof.
  intros H. rewrite clear_eflg_eq by done. apply queued_hands; [|done].
  simpl. by rewrite take_0.
Qed.

(** LOAD_TXB0 hands over the instruction 0x40 and the bytes of
    [mcp2515_set_txbuf]. *)
Lemma load_txb0_hands (s : sk_buff) (dev : net_device) :
  length (tx_buf dev) = MCP2515_BUF_SIZE ->
  length (data (skb_data s)) = 8%nat ->
  0 <= can_dlc (skb_data s) <= 8 ->
  exists buf,
    mcp2515_set_txbuf 1 s (<[0%nat := 0x40]> (tx_buf dev))
      = Some (buf, 5 + can_dlc (skb_data s)) /\
    hands_to_bus load_txb0_complete
      (take (Z.to_nat (6 + can_dlc (skb_data s))) buf) dev
      (mcp2515_load_txb0 (Some s) dev).
Proof.
  intros Htx Hd Hdlc. unfold MCP2515_BUF_SIZE in Htx.
  destruct (set_txbuf_Some 1 s
              (<[0%nat := u8 (MCP2515_INSTRUCTION_LOAD_TXB 0)]> (tx_buf dev)))
    as (buf & Hs & Hlen); [rewrite length_insert; lia|done|done|].
  rewrite length_insert in Hlen.
  exists buf. split; [exact Hs|].
  unfold mcp2515_load_txb0. rewrite store_Some by lia.
  cbn [mbind option_bind]. rewrite Hs. cbn [mbind option_bind].
  eexists. split; [reflexivity|].
  replace (5 + can_dlc (skb_data s) + 1) with (6 + can_dlc (skb_data s))
    by lia.
  unfold can_put_echo_skb. simpl.
  destruct (echo_skb dev); simpl; split_and!; try done;
    rewrite length_take; lia.
Qed.

(** ** The completion of READ_FLAGS *)

(** C1.  After READ_FLAGS completes with CANINTF = [c] and EFLG = [e], on a
    device with its 14-byte TX buffer, the callback saves both values and
    then: with RX0IF set it hands READ_RXB0 to the bus (0x90 and 13 zeros,
    callback [read_rxb0_complete], 14 bytes); else with RX1IF set READ_RXB1
    (0x94 and 13 zeros); else with [c] non-zero CLEAR_CANINTF (05 2C, the
    mask [c] without the RX flags, 00); only [c = 0] reaches the drain, which
    with [transmit] set hands LOAD_TXB0 with the pending frame to the bus,
    else with [interrupt] set hands READ_FLAGS (03 2C 00 00) to the bus, and
    clears [busy] only when both are clear.  In each of the first five cases
    exactly one message is appended to the messages handed to the bus and
    [busy] stays; whenever the callback clears [busy], CANINTF was read as
    zero, neither flag was set and nothing was handed to the bus.  RTS_TXB0
    completes by handing READ_FLAGS to the bus.  No other operation of the
    driver clears [busy]. *)
Theorem read_flags_complete_branches (dev : net_device) (c e : Z) :
  rx_buf dev !! 2%nat = Some c ->
  rx_buf dev !! 3%nat = Some e ->
  length (tx_buf dev) = MCP2515_BUF_SIZE ->
  let dev1 := set_eflg e (set_canintf c dev) in
  (Z.land c CANINTF_RX0IF <> 0 ->
   mcp2515_read_flags_complete dev = issue READ_RXB0 dev1 /\
   hands_to_bus read_rxb0_complete (0x90 :: replicate 13 0) dev
     (mcp2515_read_flags_complete dev)) /\
  (Z.land c CANINTF_RX0IF = 0 -> Z.land c CANINTF_RX1IF <> 0 ->
   mcp2515_read_flags_complete dev = issue READ_RXB1 dev1 /\
   hands_to_bus read_rxb1_complete (0x94 :: replicate 13 0) dev
     (mcp2515_read_flags_complete dev)) /\
  (Z.land c CANINTF_RX0IF = 0 -> Z.land c CANINTF_RX1IF = 0 -> c <> 0 ->
   mcp2515_read_flags_complete dev = issue CLEAR_CANINTF dev1 /\
   hands_to_bus clear_canintf_complete
     [0x05; 0x2c;
      u8 (Z.land c (Z.lnot (Z.lor CANINTF_RX0IF CANINTF_RX1IF))); 0] dev
     (mcp2515_read_flags_complete dev)) /\
  (c = 0 -> transmit dev = true ->
   mcp2515_read_flags_complete dev =
     mcp2515_load_txb0 (skb dev) (set_transmit false dev1) /\
   forall s, skb dev = Some s ->
     length (data (skb_data s)) = 8%nat -> 0 <= can_dlc (skb_data s) <= 8 ->
     exists buf,
       mcp2515_set_txbuf 1 s (<[0%nat := 0x40]> (tx_buf dev))
         = Some (buf, 5 + can_dlc (skb_data s)) /\
       hands_to_bus load_txb0_complete
         (take (Z.to_nat (6 + can_dlc (skb_data s))) buf) dev
         (mcp2515_read_flags_complete dev)) /\
  (c = 0 -> transmit dev = false -> interrupt dev = true ->
   mcp2515_read_flags_complete dev =
     issue READ_FLAGS (set_interrupt false dev1) /\
   hands_to_bus read_flags_complete [0x03; 0x2c; 0; 0] dev
     (mcp2515_read_flags_complete dev)) /\
  (c = 0 -> transmit dev = false -> interrupt dev = false ->
   mcp2515_read_flags_complete dev = Some (set_busy false dev1)) /\
  (forall dev',
     mcp2515_read_flags_complete dev = Some dev' ->
     canintf dev' = c /\ eflg dev' = e /\
     (c <> 0 \/ transmit dev = true \/ interrupt dev = true ->
      busy dev' = busy dev /\
      exists m, spi_queue dev' = spi_queue dev ++ [m]) /\
     (busy dev = true -> busy dev' = false ->
      c = 0 /\ transmit dev = false /\ interrupt dev = false /\
      transmit dev' = false /\ interrupt dev' = false /\
      spi_queue dev' = spi_queue dev)) /\
  (mcp2515_rts_txb0_complete dev = issue READ_FLAGS dev /\
   hands_to_bus read_flags_complete [0x03; 0x2c; 0; 0] dev
     (mcp2515_rts_txb0_complete dev)) /\
  (forall (can_dropped_invalid_skb : sk_buff -> bool) ev d d',
     step can_dropped_invalid_skb d ev = Some d' ->
     busy d = true -> busy d' = false ->
     exists rx alloc,
       ev = ev_spi_complete rx alloc /\
       message_complete d = Some read_flags_complete /\
       canintf d' = 0 /\ transmit d = false /\ interrupt d = false).
Proof.
  intros H2 H3 Htx dev1. unfold MCP2515_BUF_SIZE in Htx.
  assert (Heq : mcp2515_read_flags_complete dev =
    if truthy (Z.land c CANINTF_RX0IF) then mcp2515_read_rxb0 dev1
    else if truthy (Z.land c CANINTF_RX1IF) then mcp2515_read_rxb1 dev1
    else if truthy c then mcp2515_clear_canintf dev1
    else if transmit dev
         then mcp2515_load_txb0 (skb dev) (set_transmit false dev1)
    else if interrupt dev then mcp2515_read_flags (set_interrupt false dev1)
    else Some (set_busy false dev1)).
  { unfold mcp2515_read_flags_complete, load. rewrite H2. simpl.
    rewrite H3. reflexivity. }
  assert (Hfrom : forall k b d r,
            spi_queue d = spi_queue dev -> busy d = busy dev ->
            hands_to_bus k b d r -> hands_to_bus k b dev r)
    by (intros k b d r; apply hands_from).
  split_and!.
  - intros E%truthy_true. rewrite Heq, E. split; [done|].
    apply (Hfrom _ _ dev1); [done|done|].
    apply (read_rxb_hands (MCP2515_INSTRUCTION_READ_RXB 0)). simpl. lia.
  - intros E0%truthy_false E1%truthy_true. rewrite Heq, E0, E1.
    split; [done|]. apply (Hfrom _ _ dev1); [done|done|].
    apply (read_rxb_hands (MCP2515_INSTRUCTION_READ_RXB 1)). simpl. lia.
  - intros E0%truthy_false E1%truthy_false E%truthy_true.
    rewrite Heq, E0, E1, E. split; [done|].
    apply (Hfrom _ _ dev1); [done|done|].
    apply (clear_canintf_hands dev1). simpl. lia.
  - intros -> Ht. rewrite Heq, Ht. split; [done|].
    intros s Hs Hd Hdlc. rewrite Hs.
    destruct (load_txb0_hands s (set_transmit false dev1)) as (buf & Hb & Hh);
      [done|done|done|].
    exists buf. split; [exact Hb|].
    by apply (Hfrom _ _ (set_transmit false dev1)).
  - intros -> Ht Hi. rewrite Heq, Ht, Hi. split; [done|].
    apply (Hfrom _ _ (set_interrupt false dev1)); [done|done|].
    apply read_flags_hands. simpl. lia.
  - intros -> Ht Hi. by rewrite Heq, Ht, Hi.
  - intros dev' H. rewrite Heq in H.
    assert (Hc : forall d, same_control d dev' ->
              canintf d = c -> eflg d = e -> busy d = busy dev ->
              spi_queue d = spi_queue dev ->
              canintf dev' = c /\ eflg dev' = e /\
              (c <> 0 \/ transmit dev = true \/ interrupt dev = true ->
               busy dev' = busy dev /\
               exists m, spi_queue dev' = spi_queue dev ++ [m]) /\
              (busy dev = true -> busy dev' = false ->
               c = 0 /\ transmit dev = false /\ interrupt dev = false /\
               transmit dev' = false /\ interrupt dev' = false /\
               spi_queue dev' = spi_queue dev)).
    { intros d (_ & Hb & _ & _ & _ & Hci & Hef & _ & _ & _ & _ & _ & b & Hq)
        Hdc Hde Hdb Hdq.
      split; [congruence|]. split; [congruence|]. split.
      - intros _. split; [congruence|]. eexists. rewrite Hq, Hdq. done.
      - congruence. }
    destruct (truthy (Z.land c CANINTF_RX0IF)) eqn:E0.
    { apply read_rxb_control in H as (H & _). by apply (Hc dev1). }
    destruct (truthy (Z.land c CANINTF_RX1IF)) eqn:E1.
    { apply read_rxb_control in H as (H & _). by apply (Hc dev1). }
    destruct (truthy c) eqn:E.
    { apply clear_canintf_control in H as (H & _). by apply (Hc dev1). }
    apply truthy_false in E.
    destruct (transmit dev) eqn:Ht.
    { apply load_txb0_control in H as (H & _).
      by apply (Hc (set_transmit false dev1)). }
    destruct (interrupt dev) eqn:Hi.
    { apply read_flags_control in H as (H & _).
      by apply (Hc (set_interrupt false dev1)). }
    injection H as <-. simpl. split; [done|]. split; [done|].
    split; [|by rewrite Ht, Hi].
    intros [?|[?|?]]; congruence.
  - reflexivity.
  - apply read_flags_hands. lia.
  - apply busy_cleared_only_by_drain.
Qed.

(** A concrete instance: RX0IF leads to READ_RXB0, and the message 0x90
    followed by 13 zeros is handed to the bus. *)
Lemma read_flags_complete_branches_witness :
  rx_buf dev_rx0 !! 2%nat = Some 0x01 /\
  rx_buf dev_rx0 !! 3%nat = Some 0 /\
  length (tx_buf dev_rx0) = MCP2515_BUF_SIZE /\
  Z.land 0x01 CANINTF_RX0IF <> 0 /\
  mcp2515_read_flags_complete dev_rx0 =
    issue READ_RXB0 (set_eflg 0 (set_canintf 0x01 dev_rx0)) /\
  hands_to_bus read_rxb0_complete (0x90 :: replicate 13 0) dev_rx0
    (mcp2515_read_flags_complete dev_rx0).
Proof.
  split; [reflexivity|]. split; [reflexivity|]. split; [reflexivity|].
  split; [by vm_compute|].
  apply (read_flags_complete_branches dev_rx0 0x01 0);
    [reflexivity | reflexivity | reflexivity | by vm_compute].
Defined.

(** * Further properties *)

(** ** Encode and decode *)

Lemma testbit_above (a k n : Z) :
  0 <= a < 2 ^ k -> 0 <= k <= n -> Z.testbit a n = false.
Proof.
  intros Ha Hk. destruct (decide (a = 0)) as [->|Hne]; [apply Z.bits_0|].
  apply Z.bits_above_log2; [lia|].
  assert (Z.log2 a < k) by (apply Z.log2_lt_pow2; lia). lia.
Qed.

(** Two 32-bit values with the same 32 bits are equal. *)
Lemma bits_inj_32 (a b : Z) :
  0 <= a < 2 ^ 32 -> 0 <= b < 2 ^ 32 ->
  (forall n, 0 <= n < 32 -> Z.testbit a n = Z.testbit b n) -> a = b.
Proof.
  intros Ha Hb H. apply Z.bits_inj'. intros n Hn.
  destruct (decide (n < 32)); [apply H; lia|].
  rewrite (testbit_above a 32), (testbit_above b 32) by lia. done.
Qed.

Lemma u32_range (z : Z) : 0 <= u32 z < 2 ^ 32.
Proof.
  unfold u32. change 0xffffffff with (Z.ones 32). rewrite Z.land_ones by lia.
  apply Z.mod_pos_bound. lia.
Qed.

Lemma below_32_cases (bit : Z) :
  0 <= bit < 32 ->
  bit = 0 \/
  bit = 1 \/
  bit = 2 \/
  bit = 3 \/
  bit = 4 \/
  bit = 5 \/
  bit = 6 \/
  bit = 7 \/
  bit = 8 \/
  bit = 9 \/
  bit = 10 \/
  bit = 11 \/
  bit = 12 \/
  bit = 13 \/
  bit = 14 \/
  bit = 15 \/
  bit = 16 \/
  bit = 17 \/
  bit = 18 \/
  bit = 19 \/
  bit = 20 \/
  bit = 21 \/
  bit = 22 \/
  bit = 23 \/
  bit = 24 \/
  bit = 25 \/
  bit = 26 \/
  bit = 27 \/
  bit = 28 \/
  bit = 29 \/
  bit = 30 \/
  bit = 31.
Proof. lia. Qed.

(** Bit-by-bit evaluation of an expression made of shifts and masks of one
    variable, at a concrete bit position. *)
Ltac bit_specs :=
  unfold u8, u32;
  repeat match goal with
  | |- context [Z.testbit (Z.land ?a ?b) ?n] => rewrite (Z.land_spec a b n)
  | |- context [Z.testbit (Z.lor ?a ?b) ?n] => rewrite (Z.lor_spec a b n)
  | |- context [Z.testbit (Z.shiftl ?a ?k) ?n] =>
      first [ rewrite (Z.shiftl_spec a k n) by lia
            | rewrite (Z.testbit_neg_r (Z.shiftl a k) n) by lia ]
  | |- context [Z.testbit (Z.shiftr ?a ?k) ?n] =>
      first [ rewrite (Z.shiftr_spec a k n) by lia
            | rewrite (Z.testbit_neg_r (Z.shiftr a k) n) by lia ]
  end.

Ltac bits_by_cases x Hhigh :=
  let n := fresh "n" in
  let Hn := fresh "Hn" in
  let t := fresh "t" in
  intros n Hn;
  set (t := Z.testbit x) in *;
  destruct (below_32_cases n Hn) as [-> | [-> | [-> | [-> | [-> | [-> | [-> | [-> | [-> | [-> | [-> | [-> | [-> | [-> | [-> | [-> | [-> | [-> | [-> | [-> | [-> | [-> | [-> | [-> | [-> | [-> | [-> | [-> | [-> | [-> | [-> | ->]]]]]]]]]]]]]]]]]]]]]]]]]]]]]]];
    bit_specs; fold t; clearbody t; vm_compute;
    repeat match goal with
    | |- context [t ?k] =>
        first [ rewrite (Hhigh k) by lia | destruct (t k) ]
    end; reflexivity.

(** The identifier bytes written for a standard frame give the 11-bit
    identifier back, whether or not the RTR flag rides on [can_id]. *)
Lemma std_id_roundtrip (sid : Z) (rtr : bool) :
  0 <= sid < 2 ^ 11 ->
  let id := Z.lor sid (if rtr then CAN_RTR_FLAG else 0) in
  u32 (Z.lor (Z.shiftl (u8 (Z.shiftr id 3)) 3)
             (Z.shiftr (u8 (u32 (Z.shiftl id 5))) 5)) = sid.
Proof.
  intros Hid id. subst id.
  assert (Hhigh : forall k, 11 <= k -> Z.testbit sid k = false)
    by (intros; apply (testbit_above sid 11); lia).
  apply bits_inj_32; [apply u32_range|lia|].
  destruct rtr; bits_by_cases sid Hhigh.
Qed.

(** The same for an extended frame: the four identifier bytes give the
    29-bit identifier and the EFF flag back. *)
Lemma ext_id_roundtrip (eid : Z) (rtr : bool) :
  0 <= eid < 2 ^ 29 ->
  let id := Z.lor (Z.lor eid CAN_EFF_FLAG) (if rtr then CAN_RTR_FLAG else 0) in
  let b1 := u8 (Z.shiftr id 21) in
  let b2 := u8 (Z.lor (Z.lor (Z.land (Z.shiftr id 13) 0xe0) 8)
                      (Z.land (Z.shiftr id 16) 3)) in
  let b3 := u8 (Z.shiftr id 8) in
  let b4 := u8 id in
  u32 (Z.lor (Z.lor (Z.lor (Z.lor (Z.lor
         (Z.shiftl b1 21)
         (Z.shiftl (Z.land b2 0xe0) 13))
         (Z.shiftl (Z.land b2 3) 16))
         (Z.shiftl b3 8))
         b4)
         CAN_EFF_FLAG) = Z.lor eid CAN_EFF_FLAG.
Proof.
  intros Hid id b1 b2 b3 b4. subst id b1 b2 b3 b4.
  assert (Hhigh : forall k, 29 <= k -> Z.testbit eid k = false)
    by (intros; apply (testbit_above eid 29); lia).
  assert (Hr : 0 <= Z.lor eid CAN_EFF_FLAG < 2 ^ 32).
  { split; [apply Z.lor_nonneg; split; [lia|by vm_compute]|].
    destruct (decide (Z.lor eid CAN_EFF_FLAG = 0)) as [->|Hne]; [lia|].
    apply Z.log2_lt_cancel. rewrite Z.log2_pow2 by lia.
    assert (Z.log2 (Z.lor eid CAN_EFF_FLAG) =
            Z.max (Z.log2 eid) (Z.log2 CAN_EFF_FLAG))
      by (apply Z.log2_lor; [lia|by vm_compute]).
    assert (Z.log2 eid < 29).
    { destruct (decide (eid = 0)) as [->|]; [by vm_compute|].
      apply Z.log2_lt_pow2; lia. }
    change (Z.log2 CAN_EFF_FLAG) with 31 in *. lia. }
  apply bits_inj_32; [apply u32_range|exact Hr|].
  destruct rtr; bits_by_cases eid Hhigh.
Qed.

Lemma truthy_eff (y : Z) : truthy (Z.land y CAN_EFF_FLAG) = Z.testbit y 31.
Proof. change CAN_EFF_FLAG with (BIT 31). by rewrite truthy_land_bit. Qed.

Lemma truthy_rtr (y : Z) : truthy (Z.land y CAN_RTR_FLAG) = Z.testbit y 30.
Proof. change CAN_RTR_FLAG with (BIT 30). by rewrite truthy_land_bit. Qed.

Lemma flag_bits (x : Z) (k : Z) (rtr : bool) :
  0 <= x < 2 ^ k -> 0 <= k <= 29 ->
  truthy (Z.land (Z.lor x (if rtr then CAN_RTR_FLAG else 0)) CAN_EFF_FLAG)
    = false /\
  truthy (Z.land (Z.lor x (if rtr then CAN_RTR_FLAG else 0)) CAN_RTR_FLAG)
    = rtr /\
  truthy (Z.land (Z.lor (Z.lor x CAN_EFF_FLAG)
                    (if rtr then CAN_RTR_FLAG else 0)) CAN_EFF_FLAG) = true /\
  truthy (Z.land (Z.lor (Z.lor x CAN_EFF_FLAG)
                    (if rtr then CAN_RTR_FLAG else 0)) CAN_RTR_FLAG) = rtr.
Proof.
  intros Hx Hk.
  assert (H30 : Z.testbit x 30 = false) by (apply (testbit_above x k); lia).
  assert (H31 : Z.testbit x 31 = false) by (apply (testbit_above x k); lia).
  rewrite !truthy_eff, !truthy_rtr, !Z.lor_spec, H30, H31.
  destruct rtr; by vm_compute.
Qed.

Lemma dlc_cases (dlc : Z) :
  0 <= dlc <= 8 ->
  dlc = 0 \/ dlc = 1 \/ dlc = 2 \/ dlc = 3 \/ dlc = 4 \/ dlc = 5 \/
  dlc = 6 \/ dlc = 7 \/ dlc = 8.
Proof. lia. Qed.

(** The buffer after [mcp2515_set_txbuf(buf + 1, skb)] on a zeroed 14-byte
    buffer, for a frame of at most 8 data bytes. *)
Lemma set_txbuf_1_eq (id dlc : Z) (dat : list Z) :
  0 <= dlc <= 8 -> length dat = 8%nat ->
  mcp2515_set_txbuf 1 (mk_sk_buff (mk_can_frame id dlc dat)) (replicate 14 0)
  = Some
      (0 ::
       (if truthy (Z.land id CAN_EFF_FLAG)
        then [u8 (Z.shiftr id 21);
              u8 (Z.lor (Z.lor (Z.land (Z.shiftr id 13) 0xe0) 8)
                        (Z.land (Z.shiftr id 16) 3));
              u8 (Z.shiftr id 8); u8 id]
        else [u8 (Z.shiftr id 3); u8 (u32 (Z.shiftl id 5)); 0; 0]) ++
       [if truthy (Z.land id CAN_RTR_FLAG)
        then u8 (Z.lor (u8 dlc) 0x40) else u8 dlc] ++
       take (Z.to_nat dlc) dat ++ replicate (8 - Z.to_nat dlc) 0,
       5 + dlc).
Proof.
  intros Hdlc Hlen.
  do 8 (destruct dat as [|? dat]; [by simplify_eq/=|]).
  destruct dat; [|by simplify_eq/=].
  unfold mcp2515_set_txbuf, mcp2515_set_txbuf_head.
  cbn [skb_data can_id can_dlc data].
  destruct (truthy (Z.land id CAN_EFF_FLAG));
    destruct (truthy (Z.land id CAN_RTR_FLAG));
    destruct (dlc_cases dlc Hdlc)
      as [-> | [-> | [-> | [-> | [-> | [-> | [-> | [-> | ->]]]]]]]];
    reflexivity.
Qed.

(** The SIDL byte written for a standard frame has IDE and SRR clear. *)
Lemma std_sidl_flags (id : Z) :
  truthy (Z.land (u8 (u32 (Z.shiftl id 5))) RXBSIDL_IDE) = false /\
  truthy (Z.land (u8 (u32 (Z.shiftl id 5))) RXBSIDL_SRR) = false.
Proof.
  unfold RXBSIDL_IDE, RXBSIDL_SRR. rewrite !truthy_land_bit by lia.
  split; bit_specs; reflexivity.
Qed.

(** The SIDL byte written for an extended frame has IDE set. *)
Lemma ext_sidl_ide (id : Z) :
  truthy (Z.land
            (u8 (Z.lor (Z.lor (Z.land (Z.shiftr id 13) 0xe0) 8)
                       (Z.land (Z.shiftr id 16) 3))) RXBSIDL_IDE) = true.
Proof.
  unfold RXBSIDL_IDE. rewrite truthy_land_bit by lia.
  bit_specs. change (Z.testbit 8 3) with true.
  by rewrite andb_true_r, orb_true_r.
Qed.

(** X1.  A standard data frame (11-bit identifier, no flags, at most 8 data
    bytes, the rest of the data array zero) survives the round trip: decoding
    the bytes [mcp2515_set_txbuf] wrote at offset 1 of a zeroed buffer gives
    the frame back, identifier, length and data. *)
Theorem roundtrip_std (f : can_frame) :
  0 <= can_id f < 2 ^ 11 -> data_ok f ->
  encode_then_decode f = Some f.
Proof.
  destruct f as [id dlc dat]. unfold data_ok. simpl.
  intros Hid (Hdlc & Hlen & Hz).
  unfold encode_then_decode. rewrite set_txbuf_1_eq by done.
  destruct (flag_bits id 11 false Hid ltac:(lia)) as (He & Hr & _ & _).
  rewrite Z.lor_0_r in He, Hr. rewrite He, Hr.
  pose proof (std_id_roundtrip id false Hid) as Eid. cbv zeta in Eid.
  rewrite Z.lor_0_r in Eid.
  destruct (std_sidl_flags id) as [Hide Hsrr].
  do 8 (destruct dat as [|? dat]; [by simplify_eq/=|]).
  destruct dat; [|by simplify_eq/=].
  unfold mcp2515_rxb_to_frame, load.
  cbn [app lookup list_lookup mbind option_bind].
  rewrite Hide. cbn [mbind option_bind]. rewrite Hsrr, Eid, Hr.
  destruct (dlc_cases dlc Hdlc)
    as [-> | [-> | [-> | [-> | [-> | [-> | [-> | [-> | ->]]]]]]]];
    simplify_eq/=; reflexivity.
Qed.

(** A concrete instance: identifier 0x7FF with 8 data bytes. *)
Lemma roundtrip_std_witness :
  0 <= can_id frame_std_full < 2 ^ 11 /\ data_ok frame_std_full /\
  encode_then_decode frame_std_full = Some frame_std_full.
Proof.
  assert (Hid : 0 <= can_id frame_std_full < 2 ^ 11) by (simpl; lia).
  assert (Hd : data_ok frame_std_full).
  { unfold data_ok. simpl. split_and!; try lia; reflexivity. }
  split; [exact Hid|]. split; [exact Hd|].
  exact (roundtrip_std frame_std_full Hid Hd).
Defined.

(** X2.  An extended data frame (29-bit identifier with the EFF flag, at most
    8 data bytes, the rest of the data array zero) survives the round trip
    through [mcp2515_set_txbuf] and the receive decoding. *)
Theorem roundtrip_ext (f : can_frame) (eid : Z) :
  0 <= eid < 2 ^ 29 -> can_id f = Z.lor eid CAN_EFF_FLAG -> data_ok f ->
  encode_then_decode f = Some f.
Proof.
  destruct f as [id dlc dat]. unfold data_ok. simpl.
  intros Hid -> (Hdlc & Hlen & Hz).
  unfold encode_then_decode. rewrite set_txbuf_1_eq by done.
  destruct (flag_bits eid 29 false Hid ltac:(lia)) as (_ & _ & He & Hr).
  rewrite Z.lor_0_r in He, Hr. rewrite He, Hr.
  pose proof (ext_id_roundtrip eid false Hid) as Eid. cbv zeta in Eid.
  rewrite Z.lor_0_r in Eid.
  pose proof (ext_sidl_ide (Z.lor eid CAN_EFF_FLAG)) as Hide.
  do 8 (destruct dat as [|? dat]; [by simplify_eq/=|]).
  destruct dat; [|by simplify_eq/=].
  unfold mcp2515_rxb_to_frame, load.
  cbn [app lookup list_lookup mbind option_bind].
  rewrite Hide. cbn [mbind option_bind]. rewrite Eid.
  destruct (dlc_cases dlc Hdlc)
    as [-> | [-> | [-> | [-> | [-> | [-> | [-> | [-> | ->]]]]]]]];
    change (truthy (Z.land (u8 _) RXBDLC_RTR)) with false;
    cbn [mbind option_bind]; rewrite Hr;
    simplify_eq/=; reflexivity.
Qed.

(** A concrete instance: identifier 0x1FFFFFFF with one data byte. *)
Lemma roundtrip_ext_witness :
  0 <= 0x1FFFFFFF < 2 ^ 29 /\
  can_id frame_ext_max = Z.lor 0x1FFFFFFF CAN_EFF_FLAG /\
  data_ok frame_ext_max /\
  encode_then_decode frame_ext_max = Some frame_ext_max.
Proof.
  assert (Hid : 0 <= 0x1FFFFFFF < 2 ^ 29) by lia.
  assert (Hd : data_ok frame_ext_max).
  { unfold data_ok. simpl. split_and!; try lia; reflexivity. }
  split; [exact Hid|]. split; [reflexivity|]. split; [exact Hd|].
  exact (roundtrip_ext frame_ext_max 0x1FFFFFFF Hid eq_refl Hd).
Defined.

(** X3.  An extended remote frame keeps its identifier, both flags and its
    length on the round trip; the decoder copies no data for it, so the data
    of the result is that of the fresh frame (zeros), whatever the data array
    of the frame sent held. *)
Theorem roundtrip_ext_remote (f : can_frame) (eid : Z) :
  0 <= eid < 2 ^ 29 ->
  can_id f = Z.lor (Z.lor eid CAN_EFF_FLAG) CAN_RTR_FLAG ->
  0 <= can_dlc f <= 8 -> length (data f) = 8%nat ->
  encode_then_decode f =
    Some (mk_can_frame (can_id f) (can_dlc f) (replicate 8 0)).
Proof.
  destruct f as [id dlc dat]. simpl. intros Hid -> Hdlc Hlen.
  unfold encode_then_decode. rewrite set_txbuf_1_eq by done.
  destruct (flag_bits eid 29 true Hid ltac:(lia)) as (_ & _ & He & Hr).
  rewrite He, Hr.
  pose proof (ext_id_roundtrip eid true Hid) as Eid. cbv zeta in Eid.
  pose proof (ext_sidl_ide (Z.lor (Z.lor eid CAN_EFF_FLAG) CAN_RTR_FLAG))
    as Hide.
  do 8 (destruct dat as [|? dat]; [by simplify_eq/=|]).
  destruct dat; [|by simplify_eq/=].
  unfold mcp2515_rxb_to_frame, load.
  cbn [app lookup list_lookup mbind option_bind].
  rewrite Hide. cbn [mbind option_bind]. rewrite Eid.
  destruct (dlc_cases dlc Hdlc)
    as [-> | [-> | [-> | [-> | [-> | [-> | [-> | [-> | ->]]]]]]]];
    change (truthy (Z.land (u8 (Z.lor (u8 _) 64)) RXBDLC_RTR)) with true;
    cbn [mbind option_bind]; rewrite Hr; reflexivity.
Qed.

(** A concrete instance: the extended remote frame 0x1ABCDEF0. *)
Lemma roundtrip_ext_remote_witness :
  0 <= 0x1ABCDEF0 < 2 ^ 29 /\
  can_id frame_ext_remote_tx =
    Z.lor (Z.lor 0x1ABCDEF0 CAN_EFF_FLAG) CAN_RTR_FLAG /\
  0 <= can_dlc frame_ext_remote_tx <= 8 /\
  length (data frame_ext_remote_tx) = 8%nat /\
  encode_then_decode frame_ext_remote_tx = Some frame_ext_remote.
Proof.
  assert (Hid : 0 <= 0x1ABCDEF0 < 2 ^ 29) by lia.
  assert (Hdlc : 0 <= can_dlc frame_ext_remote_tx <= 8) by (simpl; lia).
  split; [exact Hid|]. split; [reflexivity|]. split; [exact Hdlc|].
  split; [reflexivity|].
  exact (roundtrip_ext_remote frame_ext_remote_tx 0x1ABCDEF0 Hid eq_refl
           Hdlc eq_refl).
Defined.

(** X4.  For a standard remote frame the bytes written by the encoder do not
    decode to a remote frame: [mcp2515_set_txbuf] marks RTR in bit 6 of the
    DLC byte, the decoder of a standard frame looks at the SRR bit of SIDL,
    which the encoder leaves clear.  The result is the data frame with the
    same identifier and length, carrying the data bytes that were copied. *)
Theorem roundtrip_std_remote (f : can_frame) (sid : Z) :
  0 <= sid < 2 ^ 11 ->
  can_id f = Z.lor sid CAN_RTR_FLAG ->
  0 <= can_dlc f <= 8 -> length (data f) = 8%nat ->
  encode_then_decode f =
    Some (mk_can_frame sid (can_dlc f)
            (take (Z.to_nat (can_dlc f)) (data f) ++
             replicate (8 - Z.to_nat (can_dlc f)) 0)).
Proof.
  destruct f as [id dlc dat]. simpl. intros Hid -> Hdlc Hlen.
  unfold encode_then_decode. rewrite set_txbuf_1_eq by done.
  destruct (flag_bits sid 11 true Hid ltac:(lia)) as (He & Hr & _ & _).
  rewrite He, Hr.
  pose proof (std_id_roundtrip sid true Hid) as Eid. cbv zeta in Eid.
  destruct (std_sidl_flags (Z.lor sid CAN_RTR_FLAG)) as [Hide Hsrr].
  destruct (flag_bits sid 11 false Hid ltac:(lia)) as (_ & Hr0 & _ & _).
  rewrite Z.lor_0_r in Hr0.
  do 8 (destruct dat as [|? dat]; [by simplify_eq/=|]).
  destruct dat; [|by simplify_eq/=].
  unfold mcp2515_rxb_to_frame, load.
  cbn [app lookup list_lookup mbind option_bind].
  rewrite Hide. cbn [mbind option_bind]. rewrite Hsrr, Eid, Hr0.
  destruct (dlc_cases dlc Hdlc)
    as [-> | [-> | [-> | [-> | [-> | [-> | [-> | [-> | ->]]]]]]]];
    reflexivity.
Qed.

(** A concrete instance: the standard remote frame 0x123 comes back as a data
    frame with the three bytes 1, 2, 3. *)
Lemma roundtrip_std_remote_witness :
  0 <= 0x123 < 2 ^ 11 /\
  can_id frame_remote_tx = Z.lor 0x123 CAN_RTR_FLAG /\
  0 <= can_dlc frame_remote_tx <= 8 /\
  length (data frame_remote_tx) = 8%nat /\
  encode_then_decode frame_remote_tx =
    Some (mk_can_frame 0x123 3 [1; 2; 3; 0; 0; 0; 0; 0]).
Proof.
  assert (Hid : 0 <= 0x123 < 2 ^ 11) by lia.
  assert (Hdlc : 0 <= can_dlc frame_remote_tx <= 8) by (simpl; lia).
  split; [exact Hid|]. split; [reflexivity|]. split; [exact Hdlc|].
  split; [reflexivity|].
  exact (roundtrip_std_remote frame_remote_tx 0x123 Hid eq_refl Hdlc eq_refl).
Defined.

(** ** Decoding any buffer *)

Lemma u8_bounds (z : Z) : 0 <= u8 z < 256.
Proof.
  unfold u8. change 0xff with (Z.ones 8). rewrite Z.land_ones by lia.
  apply Z.mod_pos_bound. lia.
Qed.

Lemma get_can_dlc_range (i : Z) : 0 <= get_can_dlc i <= 8.
Proof.
  unfold get_can_dlc, CAN_MAX_DLC. pose proof (u8_bounds i). lia.
Qed.

(** Merging the RTR flag into a 32-bit identifier keeps it 32 bits wide. *)
Lemma lor_rtr_range (a : Z) :
  0 <= a < 2 ^ 32 -> 0 <= Z.lor a CAN_RTR_FLAG < 2 ^ 32.
Proof.
  intros Ha. split; [apply Z.lor_nonneg; split; [lia|by vm_compute]|].
  assert (Hlog : Z.log2 (Z.lor a CAN_RTR_FLAG) =
                 Z.max (Z.log2 a) (Z.log2 CAN_RTR_FLAG))
    by (apply Z.log2_lor; [lia|by vm_compute]).
  assert (Z.log2 a < 32).
  { destruct (decide (a = 0)) as [->|]; [by vm_compute|].
    apply Z.log2_lt_pow2; lia. }
  change (Z.log2 CAN_RTR_FLAG) with 30 in Hlog.
  destruct (decide (Z.lor a CAN_RTR_FLAG = 0)) as [->|Hne]; [lia|].
  apply Z.log2_lt_cancel. rewrite Z.log2_pow2 by lia. lia.
Qed.

Lemma rxb_to_frame_Some (buf : list Z) (frame : can_frame) :
  length buf = 14%nat -> length (data frame) = 8%nat ->
  is_Some (mcp2515_rxb_to_frame buf frame).
Proof.
  intros Hb Hd.
  do 14 (destruct buf as [|? buf]; [by simplify_eq/=|]).
  destruct buf; [|by simplify_eq/=].
  unfold mcp2515_rxb_to_frame, load.
  cbn [lookup list_lookup mbind option_bind].
  match goal with
  | |- is_Some ((if ?c then Some ?a else Some ?b) ≫= _) =>
      replace (if c then Some a else Some b) with (Some (if c then a else b))
        by (by destruct c)
  end.
  cbn [mbind option_bind].
  match goal with
  | |- context [get_can_dlc ?x] =>
      pose proof (get_can_dlc_range x) as Hr
  end.
  destruct (negb _); [|by eexists].
  rewrite memcpy_Some by (simpl; lia). by eexists.
Qed.

(** X5.  The receive decoding never fails and never reads or writes out of
    bounds on a 14-byte buffer, whatever the bytes: it yields a 32-bit
    identifier, a length of 0 to 8 (the DLC nibble is clamped by
    [get_can_dlc]) and 8 data bytes; unless the frame is a remote frame,
    exactly [can_dlc] bytes are copied from offset 6 and the rest of the data
    array is left as it was. *)
Theorem rxb_to_frame_safe (buf : list Z) (frame : can_frame) :
  length buf = 14%nat -> length (data frame) = 8%nat ->
  exists f',
    mcp2515_rxb_to_frame buf frame = Some f' /\
    0 <= can_id f' < 2 ^ 32 /\
    0 <= can_dlc f' <= 8 /\
    length (data f') = 8%nat /\
    (truthy (Z.land (can_id f') CAN_RTR_FLAG) = false ->
     take (Z.to_nat (can_dlc f')) (data f') =
       take (Z.to_nat (can_dlc f')) (drop 6 buf) /\
     drop (Z.to_nat (can_dlc f')) (data f') =
       drop (Z.to_nat (can_dlc f')) (data frame)).
Proof.
  intros Hb Hd.
  pose proof (rxb_to_frame_Some buf frame Hb Hd) as Hsome.
  destruct Hsome as [f' Hf]. exists f'. split; [done|].
  pose proof Hf as Hinv. apply rxb_to_frame_inv in Hinv
    as (b5 & Hb5 & Hdlc & Hdat & _).
  pose proof (get_can_dlc_range (Z.land b5 15)) as Hr. rewrite <- Hdlc in Hr.
  split; [|split; [done|]].
  - unfold mcp2515_rxb_to_frame, load in Hf.
    apply bind_Some in Hf as (b2 & _ & Hf).
    apply bind_Some in Hf as (id & Hid & Hf).
    apply bind_Some in Hf as (b5' & _ & Hf).
    apply bind_Some in Hf as (dat & _ & Hf).
    injection Hf as <-. simpl.
    destruct (truthy (Z.land b2 RXBSIDL_IDE)).
    + apply bind_Some in Hid as (b1 & _ & Hid).
      apply bind_Some in Hid as (b3 & _ & Hid).
      apply bind_Some in Hid as (b4 & _ & Hid).
      apply bind_Some in Hid as (b5'' & _ & Hid).
      injection Hid as <-.
      destruct (truthy _); [apply lor_rtr_range|]; apply u32_range.
    + apply bind_Some in Hid as (b1 & _ & Hid). injection Hid as <-.
      destruct (truthy _); [apply lor_rtr_range|]; apply u32_range.
  - destruct (truthy (Z.land (can_id f') CAN_RTR_FLAG)).
    + split; [congruence|done].
    + apply memcpy_inv in Hdat as (Hs & Hl & Heq). simpl in Hl, Heq.
      split.
      * rewrite Heq. rewrite ?length_app, ?length_take, ?length_drop. lia.
      * intros _. rewrite Heq. split.
        -- rewrite take_app_length'; [done|].
           rewrite ?length_take, ?length_drop. lia.
        -- rewrite drop_app_length'; [done|].
           rewrite ?length_take, ?length_drop. lia.
Qed.

(** A concrete instance: a DLC nibble of 15 is clamped to 8. *)
Lemma rxb_to_frame_safe_witness :
  length rxb_dlc15 = 14%nat /\ length (data zero_frame) = 8%nat /\
  mcp2515_rxb_to_frame rxb_dlc15 zero_frame =
    Some (mk_can_frame 0x123 8 [1; 2; 3; 4; 5; 6; 7; 8]) /\
  exists f',
    mcp2515_rxb_to_frame rxb_dlc15 zero_frame = Some f' /\
    0 <= can_id f' < 2 ^ 32 /\
    0 <= can_dlc f' <= 8 /\
    length (data f') = 8%nat /\
    (truthy (Z.land (can_id f') CAN_RTR_FLAG) = false ->
     take (Z.to_nat (can_dlc f')) (data f') =
       take (Z.to_nat (can_dlc f')) (drop 6 rxb_dlc15) /\
     drop (Z.to_nat (can_dlc f')) (data f') =
       drop (Z.to_nat (can_dlc f')) (data zero_frame)).
Proof.
  split; [reflexivity|]. split; [reflexivity|]. split; [reflexivity|].
  exact (rxb_to_frame_safe rxb_dlc15 zero_frame eq_refl eq_refl).
Defined.

(** ** The footprint of the encoder *)

Lemma store_lookup_ne (j : nat) (v : Z) (b b' : list Z) (i : nat) :
  store j v b = Some b' -> i <> j -> b' !! i = b !! i.
Proof.
  intros [_ ->]%store_inv Hne. by apply list_lookup_insert_ne.
Qed.

Lemma set_txbuf_head_outside (off : nat) (f : can_frame)
    (buf buf1 : list Z) (i : nat) :
  mcp2515_set_txbuf_head off f buf = Some buf1 ->
  (i < off \/ off + 5 <= i)%nat -> buf1 !! i = buf !! i.
Proof.
  unfold mcp2515_set_txbuf_head. intros H Hi.
  apply bind_Some in H as (bufa & Ha & H).
  apply bind_Some in H as (bufb & Hb & H).
  assert (Hbufa : bufa !! i = buf !! i).
  { destruct (truthy (Z.land (can_id f) CAN_EFF_FLAG)).
    - apply bind_Some in Ha as (x0 & H0 & Ha).
      apply bind_Some in Ha as (x1 & H1 & Ha).
      apply bind_Some in Ha as (x2 & H2 & Ha).
      rewrite (store_lookup_ne _ _ _ _ i Ha) by lia.
      rewrite (store_lookup_ne _ _ _ _ i H2) by lia.
      rewrite (store_lookup_ne _ _ _ _ i H1) by lia.
      by rewrite (store_lookup_ne _ _ _ _ i H0) by lia.
    - apply bind_Some in Ha as (x0 & H0 & Ha).
      apply bind_Some in Ha as (x1 & H1 & Ha).
      apply bind_Some in Ha as (x2 & H2 & Ha).
      rewrite (store_lookup_ne _ _ _ _ i Ha) by lia.
      rewrite (store_lookup_ne _ _ _ _ i H2) by lia.
      rewrite (store_lookup_ne _ _ _ _ i H1) by lia.
      by rewrite (store_lookup_ne _ _ _ _ i H0) by lia. }
  assert (Hbufb : bufb !! i = buf !! i)
    by (by rewrite (store_lookup_ne _ _ _ _ i Hb) by lia).
  destruct (truthy (Z.land (can_id f) CAN_RTR_FLAG)).
  - apply bind_Some in H as (b4 & _ & H).
    by rewrite (store_lookup_ne _ _ _ _ i H) by lia.
  - by injection H as <-.
Qed.

(** X6.  [mcp2515_set_txbuf] writes only its own bytes: when it succeeds
    it returns 5 + [can_dlc], the buffer keeps its length, the 5 + [can_dlc]
    bytes from the offset on lie inside the buffer, and every byte before
    the offset or from offset + 5 + [can_dlc] on is left as it was. *)
Theorem set_txbuf_footprint (off : nat) (s : sk_buff) (buf buf' : list Z)
    (n : Z) :
  mcp2515_set_txbuf off s buf = Some (buf', n) ->
  n = 5 + can_dlc (skb_data s) /\
  length buf' = length buf /\
  (off + 5 + Z.to_nat (can_dlc (skb_data s)) <= length buf)%nat /\
  forall i : nat,
    (i < off \/ off + 5 + Z.to_nat (can_dlc (skb_data s)) <= i)%nat ->
    buf' !! i = buf !! i.
Proof.
  intros H. pose proof (set_txbuf_length _ _ _ _ _ H) as Hlen.
  apply set_txbuf_inv in H as (buf1 & Hh & Hm & ->).
  pose proof (set_txbuf_head_length _ _ _ _ Hh) as Hl1.
  apply memcpy_inv in Hm as (Hs & Hd & ->).
  split; [done|]. split; [done|]. split; [lia|].
  intros i Hi. rewrite <- (set_txbuf_head_outside off _ buf buf1 i Hh) by lia.
  destruct Hi as [Hi|Hi].
  - rewrite lookup_app_l by (rewrite length_take; lia).
    apply lookup_take_lt. lia.
  - rewrite lookup_app_r by (rewrite length_take; lia).
    rewrite lookup_app_r by (rewrite !length_take, length_drop; lia).
    rewrite lookup_drop. f_equal.
    rewrite !length_take, length_drop. lia.
Qed.

(** A concrete instance: the frame of P3 written behind the instruction
    byte leaves that byte and the five bytes after the payload alone. *)
Lemma set_txbuf_footprint_witness :
  mcp2515_set_txbuf 1 (mk_sk_buff frame_std) txb_stale
    = Some (txb_loaded, 8) /\
  8 = 5 + can_dlc frame_std /\
  length txb_loaded = length txb_stale /\
  (1 + 5 + Z.to_nat (can_dlc frame_std) <= length txb_stale)%nat /\
  forall i : nat,
    (i < 1 \/ 1 + 5 + Z.to_nat (can_dlc frame_std) <= i)%nat ->
    txb_loaded !! i = txb_stale !! i.
Proof.
  assert (H : mcp2515_set_txbuf 1 (mk_sk_buff frame_std) txb_stale
              = Some (txb_loaded, 8)) by reflexivity.
  split; [exact H|].
  exact (set_txbuf_footprint 1 (mk_sk_buff frame_std) txb_stale txb_loaded 8
           H).
Defined.

(** ** One message in flight *)

Lemma control_dispatched (c : completion) (dev dev' : net_device) :
  same_control dev dev' -> message_complete dev' = Some c ->
  dispatched c dev dev' /\ transmit dev' = transmit dev /\
  interrupt dev' = interrupt dev.
Proof.
  intros (_ & Hb & Hi & Ht & _ & _ & _ & _ & _ & _ & _ & _ & bytes & Hq) Hm.
  rewrite Hm in Hq. unfold dispatched. eauto 10.
Qed.

Lemma dispatched_kept (c : completion) (dev dev' : net_device) :
  dispatched c dev dev' -> transmit dev' = transmit dev ->
  interrupt dev' = interrupt dev -> handed_on dev dev'.
Proof. intros. exists c. auto. Qed.

Lemma read_flags_handed (dev dev' : net_device) :
  mcp2515_read_flags dev = Some dev' -> handed_on dev dev'.
Proof.
  intros (Hc & Hm & _)%read_flags_control.
  destruct (control_dispatched _ _ _ Hc Hm) as (? & ? & ?).
  by eapply dispatched_kept.
Qed.

Lemma read_rxb_handed (i : Z) (c : completion) (dev dev' : net_device) :
  mcp2515_read_rxb i c dev = Some dev' -> handed_on dev dev'.
Proof.
  intros (Hc & Hm & _)%read_rxb_control.
  destruct (control_dispatched _ _ _ Hc Hm) as (? & ? & ?).
  by eapply dispatched_kept.
Qed.

Lemma clear_canintf_handed (dev dev' : net_device) :
  mcp2515_clear_canintf dev = Some dev' -> handed_on dev dev'.
Proof.
  intros (Hc & Hm & _)%clear_canintf_control.
  destruct (control_dispatched _ _ _ Hc Hm) as (? & ? & ?).
  by eapply dispatched_kept.
Qed.

Lemma clear_eflg_handed (dev dev' : net_device) :
  mcp2515_clear_eflg dev = Some dev' -> handed_on dev dev'.
Proof.
  intros (Hc & Hm & _)%clear_eflg_control.
  destruct (control_dispatched _ _ _ Hc Hm) as (? & ? & ?).
  by eapply dispatched_kept.
Qed.

Lemma rts_txb0_handed (dev dev' : net_device) :
  mcp2515_rts_txb0 dev = Some dev' -> handed_on dev dev'.
Proof.
  intros (Hc & Hm & _)%rts_txb0_control.
  destruct (control_dispatched _ _ _ Hc Hm) as (? & ? & ?).
  by eapply dispatched_kept.
Qed.

(** Loading the pending frame after clearing [transmit]. *)
Lemma load_pending_handed (dev dev1 dev' : net_device) :
  transmit dev = true ->
  busy dev1 = busy dev -> spi_queue dev1 = spi_queue dev ->
  interrupt dev1 = interrupt dev -> transmit dev1 = false ->
  mcp2515_load_txb0 (skb dev1) dev1 = Some dev' -> handed_on dev dev'.
Proof.
  intros Ht Hb Hq Hi Ht1 (Hc & Hm & _)%load_txb0_control.
  destruct (control_dispatched _ _ _ Hc Hm) as ((? & ? & bytes & ?) & ? & ?).
  exists load_txb0_complete. unfold dispatched. split_and!.
  - done.
  - congruence.
  - exists bytes. congruence.
  - right. split_and!; congruence.
  - left. congruence.
Qed.

Lemma transmit_or_read_flags_handed (dev dev' : net_device) :
  mcp2515_transmit_or_read_flags dev = Some dev' -> handed_on dev dev'.
Proof.
  unfold mcp2515_transmit_or_read_flags. intros H.
  destruct (transmit dev) eqn:Ht.
  - by eapply (load_pending_handed dev (set_transmit false dev)).
  - by apply read_flags_handed.
Qed.

(** A relation between the device before the callback and a device that
    differs from it in fields the chain does not look at. *)
Lemma handed_on_from (dev dev1 dev' : net_device) :
  busy dev1 = busy dev -> spi_queue dev1 = spi_queue dev ->
  interrupt dev1 = interrupt dev -> transmit dev1 = transmit dev ->
  handed_on dev1 dev' -> handed_on dev dev'.
Proof.
  intros Hb Hq Hi Ht (c & (Hm & Hb' & bytes & Hq') & Ht' & Hi').
  exists c. unfold dispatched. split_and!;
    [done|congruence|exists bytes; congruence| |].
  - rewrite <- Ht. exact Ht'.
  - rewrite <- Hi, <- Ht. exact Hi'.
Qed.

Lemma read_rxb_complete_bus (alloc : bool) (dev dev' : net_device) :
  mcp2515_read_rxb_complete alloc dev = Some dev' ->
  busy dev' = busy dev /\ spi_queue dev' = spi_queue dev /\
  interrupt dev' = interrupt dev /\ transmit dev' = transmit dev /\
  message_complete dev' = message_complete dev /\
  tx_buf dev' = tx_buf dev /\ rx_buf dev' = rx_buf dev /\
  transfer_len dev' = transfer_len dev /\ skb dev' = skb dev /\
  canintf dev' = canintf dev /\ eflg dev' = eflg dev.
Proof.
  unfold mcp2515_read_rxb_complete. intros H.
  destruct alloc; simpl in H.
  - apply bind_Some in H as (frame & _ & H). injection H as <-.
    simpl. split_and!; done.
  - injection H as <-. simpl. split_and!; done.
Qed.

(** Every completion callback either hands the chain on with exactly one
    message, or is the drain of READ_FLAGS going idle. *)
Lemma complete_dispatch (rx : list Z) (alloc : bool)
    (dev dev' : net_device) :
  spi_complete rx alloc dev = Some dev' ->
  is_Some (message_complete dev) ->
  handed_on dev dev' \/
  message_complete dev = Some read_flags_complete /\ went_idle dev dev'.
Proof.
  unfold spi_complete. intros H [c Hm].
  apply bind_Some in H as (buf & _ & H).
  set (dev1 := set_rx_buf buf dev) in H.
  change (message_complete dev1) with (message_complete dev) in H.
  rewrite Hm in H.
  assert (Hfrom : forall d, handed_on dev1 d -> handed_on dev d)
    by (intros d; by apply handed_on_from).
  destruct c.
  - unfold mcp2515_read_flags_complete, load in H.
    apply bind_Some in H as (b2 & _ & H). cbn [mbind option_bind] in H.
    apply bind_Some in H as (b3 & _ & H).
    set (dev2 := set_eflg b3 (set_canintf b2 dev1)) in H.
    assert (Hfrom2 : forall d, handed_on dev2 d -> handed_on dev d)
      by (intros d; by apply handed_on_from).
    destruct (truthy (Z.land b2 CANINTF_RX0IF));
      [left; by eapply Hfrom2, read_rxb_handed|].
    destruct (truthy (Z.land b2 CANINTF_RX1IF));
      [left; by eapply Hfrom2, read_rxb_handed|].
    destruct (truthy b2); [left; by eapply Hfrom2, clear_canintf_handed|].
    change (transmit dev2) with (transmit dev) in H.
    change (interrupt (set_transmit false dev2)) with (interrupt dev) in H.
    destruct (transmit dev) eqn:Ht.
    { left. by eapply (load_pending_handed dev (set_transmit false dev2)). }
    change (interrupt dev2) with (interrupt dev) in H.
    destruct (interrupt dev) eqn:Hi.
    { left. apply read_flags_control in H as (Hc & Hm' & _).
      destruct (control_dispatched _ _ _ Hc Hm')
        as ((? & Hb & bytes & Hq) & Ht' & Hi').
      exists read_flags_complete. unfold dispatched. simpl in *. split_and!.
      - done.
      - done.
      - by exists bytes.
      - left. congruence.
      - right. done. }
    right. injection H as <-. split; [done|].
    unfold went_idle. simpl. rewrite Ht, Hi. split_and!; done.
  - left. unfold mcp2515_read_rxb0_complete in H.
    apply bind_Some in H as (d & Hd%read_rxb_complete_bus & H).
    destruct Hd as (? & ? & ? & ? & _).
    apply Hfrom. eapply (handed_on_from dev1 d); try done.
    destruct (truthy _); [by eapply read_rxb_handed|].
    by apply transmit_or_read_flags_handed.
  - left. unfold mcp2515_read_rxb1_complete in H.
    apply bind_Some in H as (d & Hd%read_rxb_complete_bus & H).
    destruct Hd as (? & ? & ? & ? & _).
    apply Hfrom. eapply (handed_on_from dev1 d); try done.
    by apply transmit_or_read_flags_handed.
  - left. unfold mcp2515_clear_canintf_complete in H.
    set (d := if truthy (Z.land (canintf dev1) CANINTF_TX0IF) then _ else dev1)
      in H.
    assert (Hd : busy d = busy dev /\ spi_queue d = spi_queue dev /\
                 interrupt d = interrupt dev /\ transmit d = transmit dev).
    { subst d. clear H.
      destruct (truthy (Z.land (canintf dev1) CANINTF_TX0IF)); [|done].
      unfold can_get_echo_skb.
      destruct (skb dev1); [destruct (echo_skb dev1)|]; done. }
    destruct Hd as (? & ? & ? & ?).
    eapply (handed_on_from dev d); try done.
    destruct (truthy (eflg d)); [by apply clear_eflg_handed|].
    by apply read_flags_handed.
  - left. unfold mcp2515_clear_eflg_complete in H.
    apply read_flags_handed in H.
    eapply handed_on_from; [| | | |exact H]; by destruct (truthy _).
  - left. by apply Hfrom, rts_txb0_handed.
  - left. by apply Hfrom, read_flags_handed.
Qed.

Lemma only_config_refl (dev : net_device) : only_config_changed dev dev.
Proof. exists (tx_buf dev), (can_st dev), (queue_stopped dev). by destruct dev. Qed.

Ltac case_truthy H E :=
  match type of H with
  | context [if truthy ?e then _ else _] => destruct (truthy e) eqn:E
  end.

Lemma set_can_st_same (b : list Z) (dev : net_device) :
  set_tx_buf b dev = set_can_st (can_st dev) (set_tx_buf b dev).
Proof. by destruct dev. Qed.

Lemma chip_start_frame (polls : nat) (dev dev' : net_device)
    (spi spi' : spi_device) (err : Z) :
  mcp2515_chip_start polls dev spi = Some (err, dev', spi') ->
  exists b, length b = length (tx_buf dev) /\
    dev' = set_can_st
             (if truthy err then can_st dev else CAN_STATE_ERROR_ACTIVE)
             (set_tx_buf b dev).
Proof.
  unfold mcp2515_chip_start, mcp2515_hw_reset, mcp2515_write_reg, spi_write.
  cbn [fst snd]. intros H.
  case_truthy H E0.
  { injection H as He <- <-.
    replace (truthy err) with true by (rewrite <- He; exact (eq_sym E0)). exists (tx_buf dev).
    split; [done|]. by destruct dev. }
  do 6 (apply bind_Some in H as (? & ?%store_length & H)).
  case_truthy H E1.
  { injection H as He <- <-.
    replace (truthy err) with true by (rewrite <- He; exact (eq_sym E1)). eexists. split; [|apply set_can_st_same].
    congruence. }
  do 3 (apply bind_Some in H as (? & ?%store_length & H)).
  case_truthy H E2.
  { injection H as He <- <-.
    replace (truthy err) with true by (rewrite <- He; exact (eq_sym E2)). eexists. split; [|apply set_can_st_same].
    congruence. }
  destruct (chip_start_wait _ _ _) as [e s].
  destruct (truthy e) eqn:E3; injection H as <- <- <-.
  - rewrite E3. eexists. split; [|apply set_can_st_same]. congruence.
  - eexists. split; [|reflexivity]. congruence.
Qed.

Lemma chip_start_config (polls : nat) (dev dev' : net_device)
    (spi spi' : spi_device) (err : Z) :
  mcp2515_chip_start polls dev spi = Some (err, dev', spi') ->
  only_config_changed dev dev'.
Proof.
  intros (b & Hb & ->)%chip_start_frame.
  exists b, (if truthy err then can_st dev else CAN_STATE_ERROR_ACTIVE),
    (queue_stopped dev).
  split; [done|]. by destruct dev.
Qed.

Lemma only_config_queue (q : bool) (dev dev' : net_device) :
  only_config_changed dev dev' ->
  only_config_changed dev (set_queue_stopped q dev').
Proof.
  intros (b & st & q' & Hb & ->). exists b, st, q. split; [done|].
  by destruct dev.
Qed.

Lemma open_config (open_err irq_err : Z) (polls : nat)
    (dev : net_device) (spi : spi_device) r :
  mcp2515_open open_err irq_err polls dev spi = Some r ->
  only_config_changed dev r.1.2.
Proof.
  unfold mcp2515_open. intros H.
  destruct (truthy open_err); [injection H as <-; apply only_config_refl|].
  destruct (truthy irq_err); [injection H as <-; apply only_config_refl|].
  apply bind_Some in H as ([[e d] s] & Hc%chip_start_config & H).
  destruct (truthy e); injection H as <-; simpl; [done|].
  by apply only_config_queue.
Qed.

Lemma close_config (dev : net_device) (spi : spi_device) :
  only_config_changed dev (mcp2515_close dev spi).1.2.
Proof.
  exists (tx_buf dev), CAN_STATE_STOPPED, true. split; [done|].
  by destruct dev.
Qed.

Lemma set_mode_config (mode : can_mode) (polls : nat)
    (dev : net_device) (spi : spi_device) r :
  mcp2515_set_mode mode polls dev spi = Some r ->
  only_config_changed dev r.1.2.
Proof.
  unfold mcp2515_set_mode. intros H.
  destruct mode; try (injection H as <-; apply only_config_refl).
  apply bind_Some in H as ([[e d] s] & Hc%chip_start_config & H).
  destruct (truthy e); injection H as <-; simpl; [done|].
  by apply only_config_queue.
Qed.

Lemma interrupt_dispatch (dev dev' : net_device) :
  mcp2515_interrupt dev = Some dev' ->
  busy dev = true /\ dev' = set_interrupt true dev \/
  busy dev = false /\ busy dev' = true /\
  transmit dev' = transmit dev /\ interrupt dev' = interrupt dev /\
  message_complete dev' = Some read_flags_complete /\
  exists bytes,
    spi_queue dev' = spi_queue dev ++ [(Some read_flags_complete, bytes)].
Proof.
  unfold mcp2515_interrupt. intros H. destruct (busy dev) eqn:Hb.
  - left. by injection H as <-.
  - right. apply read_flags_control in H as (Hc & Hm & _).
    destruct (control_dispatched _ _ _ Hc Hm) as ((? & ? & ?) & ? & ?).
    split_and!; done.
Qed.

Section BusProperties.

Variable can_dropped_invalid_skb : sk_buff -> bool.

Lemma start_xmit_dispatch (s : sk_buff) (dev dev' : net_device) :
  mcp2515_start_xmit can_dropped_invalid_skb s dev = Some dev' ->
  can_dropped_invalid_skb s = true /\ dev' = dev \/
  can_dropped_invalid_skb s = false /\ busy dev = true /\
  dev' = set_transmit true (set_skb (Some s) (netif_stop_queue dev)) \/
  can_dropped_invalid_skb s = false /\
  busy dev = false /\ busy dev' = true /\
  transmit dev' = transmit dev /\ interrupt dev' = interrupt dev /\
  message_complete dev' = Some load_txb0_complete /\
  exists bytes,
    spi_queue dev' = spi_queue dev ++ [(Some load_txb0_complete, bytes)].
Proof.
  unfold mcp2515_start_xmit. intros H.
  destruct (can_dropped_invalid_skb s); [left; by injection H as <-|].
  right. simpl in H. destruct (busy dev) eqn:Hb.
  - left. by injection H as <-.
  - right. apply load_txb0_control in H as (Hc & Hm & _).
    destruct (control_dispatched _ _ _ Hc Hm) as ((? & ? & ?) & ? & ?).
    split_and!; done.
Qed.

Lemma step_config (dev dev' : net_device) (ev : event) :
  step can_dropped_invalid_skb dev ev = Some dev' ->
  match ev with
  | ev_open _ _ _ _ | ev_close _ | ev_set_mode _ _ _ =>
      only_config_changed dev dev'
  | _ => True
  end.
Proof.
  destruct ev; simpl; intros H; try done.
  - apply bind_Some in H as (r & H & [= <-]). by eapply open_config.
  - injection H as <-. apply (close_config dev spi).
  - apply bind_Some in H as (r & H & [= <-]). by eapply set_mode_config.
Qed.

Lemma issued_one (dev dev' : net_device) x :
  spi_queue dev' = spi_queue dev ++ [x] -> issued dev dev' = 1%nat.
Proof. unfold issued. intros ->. rewrite length_app. simpl. lia. Qed.

Lemma issued_none (dev dev' : net_device) :
  spi_queue dev' = spi_queue dev -> issued dev dev' = 0%nat.
Proof. unfold issued. intros ->. lia. Qed.

Lemma step_bus_inv (dev dev' : net_device) (ev : event) (n : nat) :
  bus_inv dev n ->
  (forall rx alloc, ev = ev_spi_complete rx alloc -> n <> 0%nat) ->
  step can_dropped_invalid_skb dev ev = Some dev' ->
  bus_inv dev'
    (n - match ev with ev_spi_complete _ _ => 1 | _ => 0 end
     + issued dev dev').
Proof.
  intros [Hn Hm] Hev H. pose proof (step_config _ _ _ H) as Hcfg.
  destruct ev as [|s|rx alloc|oe ie polls spi|spi|m polls spi];
    simpl in H.
  - apply interrupt_dispatch in H
      as [[Hb ->]|(Hb & Hb' & _ & _ & Hm' & bytes & Hq)].
    + rewrite issued_none by done. split; simpl; [|done].
      rewrite Hn, Hb. done.
    + rewrite (issued_one _ _ _ Hq). split.
      * rewrite Hn, Hb, Hb'. done.
      * by rewrite Hm'.
  - apply start_xmit_dispatch in H
      as [[_ ->]|[(_ & Hb & ->)|(_ & Hb & Hb' & _ & _ & Hm' & bytes & Hq)]].
    + rewrite issued_none by done. split; [lia|done].
    + rewrite issued_none by done. split; simpl; [|done].
      rewrite Hn, Hb. done.
    + rewrite (issued_one _ _ _ Hq). split.
      * rewrite Hn, Hb, Hb'. done.
      * by rewrite Hm'.
  - specialize (Hev rx alloc eq_refl).
    destruct (busy dev) eqn:Hb; [|done]. subst n.
    apply complete_dispatch in H
      as [(c & (Hm' & Hb' & bytes & Hq) & _)|
          (_ & Hb' & Hq & _)]; [| |by apply Hm].
    + rewrite (issued_one _ _ _ Hq). split.
      * by rewrite Hb', Hb.
      * by rewrite Hm'.
    + rewrite issued_none by done. split.
      * by rewrite Hb'.
      * by rewrite Hb'.
  - destruct Hcfg as (b & st & q & _ & ->).
    rewrite issued_none by done. split; simpl; [lia|done].
  - destruct Hcfg as (b & st & q & _ & ->).
    rewrite issued_none by done. split; simpl; [lia|done].
  - destruct Hcfg as (b & st & q & _ & ->).
    rewrite issued_none by done. split; simpl; [lia|done].
Qed.

Lemma run_bus_inv (evs : list event) (dev dev' : net_device) (n n' : nat) :
  bus_inv dev n ->
  run_bus can_dropped_invalid_skb dev n evs = Some (dev', n') ->
  bus_inv dev' n'.
Proof.
  revert dev n. induction evs as [|ev evs IH]; intros dev n HJ H.
  - by injection H as <- <-.
  - simpl in H.
    assert (Hev : forall rx alloc, ev = ev_spi_complete rx alloc ->
                                   n <> 0%nat).
    { intros rx alloc ->. by destruct n. }
    assert (H' : (dev1 ← step can_dropped_invalid_skb dev ev;
                  run_bus can_dropped_invalid_skb dev1
                    (n - match ev with ev_spi_complete _ _ => 1 | _ => 0 end
                     + issued dev dev1) evs) = Some (dev', n')).
    { destruct ev; try exact H. destruct n; [done|exact H]. }
    apply bind_Some in H' as (dev1 & Hs & H').
    eapply IH; [|exact H']. by eapply step_bus_inv.
Qed.

(** X7.  At most one SPI message is in flight.  When the events run
    against a bus that completes only messages it was given, the number of
    messages handed to the bus and not yet completed is 1 while [busy] is
    set and 0 otherwise, and while [busy] is set the message in flight has
    its completion callback. *)
Theorem one_message_in_flight (ctrlmode : Z) (bt : can_bittiming)
    (txb rxb : list Z) (evs : list event) (dev : net_device) (n : nat) :
  run_bus can_dropped_invalid_skb (probed_device ctrlmode bt txb rxb) 0 evs
    = Some (dev, n) ->
  n = (if busy dev then 1 else 0)%nat /\
  (busy dev = true -> is_Some (message_complete dev)).
Proof.
  intros H. eapply (run_bus_inv evs); [|exact H]. split; done.
Qed.

(** X8.  The two deferred-work flags are cleared only by the operation that
    serves them: in any operation, [transmit] goes from set to clear only if
    that operation hands LOAD_TXB0 to the bus, and [interrupt] goes from set
    to clear only if no transmit was recorded and that operation hands
    READ_FLAGS to the bus. *)
Theorem flags_cleared_by_dispatch (dev dev' : net_device) (ev : event) :
  step can_dropped_invalid_skb dev ev = Some dev' ->
  (transmit dev = true -> transmit dev' = false ->
   message_complete dev' = Some load_txb0_complete /\
   exists bytes,
     spi_queue dev' = spi_queue dev ++ [(Some load_txb0_complete, bytes)]) /\
  (interrupt dev = true -> interrupt dev' = false ->
   transmit dev = false /\
   message_complete dev' = Some read_flags_complete /\
   exists bytes,
     spi_queue dev' = spi_queue dev ++ [(Some read_flags_complete, bytes)]).
Proof.
  intros H. pose proof (step_config _ _ _ H) as Hcfg.
  destruct ev as [|s|rx alloc|oe ie polls spi|spi|m polls spi];
    simpl in H.
  - apply interrupt_dispatch in H
      as [[Hb ->]|(Hb & Hb' & Ht & Hi & _)]; simpl.
    + split; [congruence|done].
    + split; congruence.
  - apply start_xmit_dispatch in H
      as [[_ ->]|[(_ & Hb & ->)|(_ & Hb & Hb' & Ht & Hi & _)]]; simpl.
    + split; congruence.
    + split; [done|congruence].
    + split; congruence.
  - destruct (message_complete dev) as [c|] eqn:Hm.
    + apply complete_dispatch in H
        as [(c' & (Hm' & Hb' & bytes & Hq) & Ht & Hi)|
            (_ & _ & _ & _ & Ht & Hi & _)]; [| |by rewrite Hm].
      * split.
        -- intros Ht1 Ht2. destruct Ht as [Ht|(_ & _ & ->)]; [congruence|].
           eauto.
        -- intros Hi1 Hi2. destruct Hi as [Hi|(_ & _ & Ht0 & ->)];
             [congruence|].
           eauto.
      * split; congruence.
    + unfold spi_complete in H. apply bind_Some in H as (buf & _ & H).
      simpl in H. rewrite Hm in H. injection H as <-. simpl.
      split; congruence.
  - destruct Hcfg as (b & st & q & _ & ->). simpl. split; congruence.
  - destruct Hcfg as (b & st & q & _ & ->). simpl. split; congruence.
  - destruct Hcfg as (b & st & q & _ & ->). simpl. split; congruence.
Qed.

End BusProperties.

(** A concrete instance: after five events of scenario 3 READ_RXB0 is in
    flight; after all ten the device is idle and nothing is in flight. *)
Lemma one_message_in_flight_witness :
  run_bus dropped_over_8 (probed_device 0 bt_125k [] []) 0
    (take 5 scenario_rx_during_tx) = Some (dev_scenario 5, 1%nat) /\
  run_bus dropped_over_8 (probed_device 0 bt_125k [] []) 0
    scenario_rx_during_tx = Some (dev_scenario 10, 0%nat) /\
  (1%nat = (if busy (dev_scenario 5) then 1 else 0)%nat /\
   (busy (dev_scenario 5) = true ->
    is_Some (message_complete (dev_scenario 5)))) /\
  (0%nat = (if busy (dev_scenario 10) then 1 else 0)%nat /\
   (busy (dev_scenario 10) = true ->
    is_Some (message_complete (dev_scenario 10)))).
Proof.
  assert (H5 : run_bus dropped_over_8 (probed_device 0 bt_125k [] []) 0
                 (take 5 scenario_rx_during_tx) = Some (dev_scenario 5, 1%nat))
    by (vm_compute; reflexivity).
  assert (H10 : run_bus dropped_over_8 (probed_device 0 bt_125k [] []) 0
                  scenario_rx_during_tx = Some (dev_scenario 10, 0%nat))
    by (vm_compute; reflexivity).
  split; [exact H5|]. split; [exact H10|]. split.
  - exact (one_message_in_flight dropped_over_8 0 bt_125k [] [] _ _ _ H5).
  - exact (one_message_in_flight dropped_over_8 0 bt_125k [] [] _ _ _ H10).
Defined.

(** A concrete instance: in scenario 3 the interrupt recorded during the
    transmission is cleared by the completion that reads CANINTF = 0 and
    hands the next READ_FLAGS to the bus. *)
Lemma flags_cleared_by_dispatch_witness :
  step dropped_over_8 (dev_scenario 8) (ev_spi_complete [0; 0; 0; 0] true)
    = Some (dev_scenario 9) /\
  interrupt (dev_scenario 8) = true /\
  interrupt (dev_scenario 9) = false /\
  transmit (dev_scenario 8) = false /\
  message_complete (dev_scenario 9) = Some read_flags_complete /\
  exists bytes,
    spi_queue (dev_scenario 9) =
      spi_queue (dev_scenario 8) ++ [(Some read_flags_complete, bytes)].
Proof.
  assert (Hs : step dropped_over_8 (dev_scenario 8)
                 (ev_spi_complete [0; 0; 0; 0] true) = Some (dev_scenario 9))
    by (vm_compute; reflexivity).
  assert (H8 : interrupt (dev_scenario 8) = true) by (vm_compute; reflexivity).
  assert (H9 : interrupt (dev_scenario 9) = false)
    by (vm_compute; reflexivity).
  split; [exact Hs|]. split; [exact H8|]. split; [exact H9|].
  exact (proj2 (flags_cleared_by_dispatch dropped_over_8 _ _ _ Hs) H8 H9).
Defined.

(** ** Memory safety *)

(** A step that leaves the control fields alone and asks for at most 14
    bytes keeps the invariant. *)
Lemma control_buffers_ok (dev dev' : net_device) :
  same_control dev dev' -> 0 <= transfer_len dev' <= 14 ->
  buffers_ok dev -> buffers_ok dev'.
Proof.
  intros (_ & _ & _ & _ & Hs & _ & _ & _ & _ & Hr & _ & Ht & _) Hl
    (Htx & Hrx & _ & Hskb).
  unfold buffers_ok. rewrite Ht, Hr, Hs. done.
Qed.

Lemma read_flags_safe (dev : net_device) :
  buffers_ok dev ->
  exists dev', mcp2515_read_flags dev = Some dev' /\ buffers_ok dev'.
Proof.
  intros Hok. pose proof Hok as (Htx & _).
  destruct (mcp2515_read_flags dev) as [dev'|] eqn:H.
  - exists dev'. split; [done|].
    apply read_flags_control in H as (Hc & _ & Hl).
    eapply control_buffers_ok; [done| |done]. lia.
  - rewrite read_flags_eq in H by (rewrite Htx; unfold MCP2515_BUF_SIZE; lia).
    done.
Qed.

Lemma read_rxb_safe (i : Z) (c : completion) (dev : net_device) :
  buffers_ok dev ->
  exists dev', mcp2515_read_rxb i c dev = Some dev' /\ buffers_ok dev'.
Proof.
  intros Hok. pose proof Hok as (Htx & _).
  destruct (mcp2515_read_rxb i c dev) as [dev'|] eqn:H.
  - exists dev'. split; [done|].
    apply read_rxb_control in H as (Hc & _ & Hl).
    eapply control_buffers_ok; [done| |done]. lia.
  - rewrite read_rxb_eq in H by (rewrite Htx; unfold MCP2515_BUF_SIZE; lia).
    done.
Qed.

Lemma clear_canintf_safe (dev : net_device) :
  buffers_ok dev ->
  exists dev', mcp2515_clear_canintf dev = Some dev' /\ buffers_ok dev'.
Proof.
  intros Hok. pose proof Hok as (Htx & _).
  destruct (mcp2515_clear_canintf dev) as [dev'|] eqn:H.
  - exists dev'. split; [done|].
    apply clear_canintf_control in H as (Hc & _ & Hl).
    eapply control_buffers_ok; [done| |done]. lia.
  - rewrite clear_canintf_eq in H
      by (rewrite Htx; unfold MCP2515_BUF_SIZE; lia).
    done.
Qed.

Lemma clear_eflg_safe (dev : net_device) :
  buffers_ok dev ->
  exists dev', mcp2515_clear_eflg dev = Some dev' /\ buffers_ok dev'.
Proof.
  intros Hok. pose proof Hok as (Htx & _).
  destruct (mcp2515_clear_eflg dev) as [dev'|] eqn:H.
  - exists dev'. split; [done|].
    apply clear_eflg_control in H as (Hc & _ & Hl).
    eapply control_buffers_ok; [done| |done]. lia.
  - rewrite clear_eflg_eq in H by (rewrite Htx; unfold MCP2515_BUF_SIZE; lia).
    done.
Qed.

Lemma rts_txb0_safe (dev : net_device) :
  buffers_ok dev ->
  exists dev', mcp2515_rts_txb0 dev = Some dev' /\ buffers_ok dev'.
Proof.
  intros Hok. pose proof Hok as (Htx & _).
  destruct (mcp2515_rts_txb0 dev) as [dev'|] eqn:H.
  - exists dev'. split; [done|].
    apply rts_txb0_control in H as (Hc & _ & Hl).
    eapply control_buffers_ok; [done| |done]. lia.
  - rewrite rts_txb0_eq in H by (rewrite Htx; unfold MCP2515_BUF_SIZE; lia).
    done.
Qed.

Lemma load_txb0_safe (s : sk_buff) (dev : net_device) :
  buffers_ok dev -> skb_ok s ->
  exists dev', mcp2515_load_txb0 (Some s) dev = Some dev' /\ buffers_ok dev'.
Proof.
  intros Hok [Hd Hdlc]. pose proof Hok as (Htx & _).
  destruct (mcp2515_load_txb0 (Some s) dev) as [dev'|] eqn:H.
  - exists dev'. split; [done|].
    apply load_txb0_control in H as (Hc & _ & s0 & [= <-] & Hl).
    eapply control_buffers_ok; [done| |done]. lia.
  - unfold mcp2515_load_txb0 in H.
    rewrite store_Some in H by (rewrite Htx; unfold MCP2515_BUF_SIZE; lia).
    cbn [mbind option_bind] in H.
    destruct (set_txbuf_Some 1 s
                (<[0%nat := u8 (MCP2515_INSTRUCTION_LOAD_TXB 0)]> (tx_buf dev)))
      as (buf' & Hs & _); [|done|done|].
    + rewrite length_insert, Htx. unfold MCP2515_BUF_SIZE. lia.
    + rewrite Hs in H. done.
Qed.

Lemma buffers_ok_same (dev dev1 : net_device) :
  tx_buf dev1 = tx_buf dev -> rx_buf dev1 = rx_buf dev ->
  transfer_len dev1 = transfer_len dev ->
  (skb dev1 = skb dev \/ skb dev1 = None) ->
  buffers_ok dev -> buffers_ok dev1.
Proof.
  intros Ht Hr Hl Hs (? & ? & ? & Hskb). unfold buffers_ok.
  rewrite Ht, Hr, Hl. split_and!; try done; try lia.
  intros s Hs'. destruct Hs as [Hs|Hs]; [|congruence].
  apply Hskb. congruence.
Qed.

(** Loading the pending skb after clearing [transmit]. *)
Lemma load_pending_safe (dev : net_device) :
  buffers_ok dev -> transmit dev = true ->
  safe_or_null_skb dev
    (mcp2515_load_txb0 (skb (set_transmit false dev))
       (set_transmit false dev)).
Proof.
  intros Hok Ht. change (skb (set_transmit false dev)) with (skb dev).
  destruct (skb dev) as [s|] eqn:Hs.
  - left. apply load_txb0_safe.
    + by eapply buffers_ok_same; [..|exact Hok]; auto.
    + by apply Hok.
  - right. split; [|done]. unfold mcp2515_load_txb0.
    by destruct (store _ _ _).
Qed.

Lemma transmit_or_read_flags_safe (dev : net_device) :
  buffers_ok dev ->
  safe_or_null_skb dev (mcp2515_transmit_or_read_flags dev).
Proof.
  intros Hok. unfold mcp2515_transmit_or_read_flags.
  destruct (transmit dev) eqn:Ht.
  - by apply load_pending_safe.
  - left. by apply read_flags_safe.
Qed.

(** Moving the verdict to a device with the same [transmit] and skb. *)
Lemma safe_from (dev dev1 : net_device) (r : option net_device) :
  transmit dev1 = transmit dev -> skb dev1 = skb dev ->
  safe_or_null_skb dev1 r -> safe_or_null_skb dev r.
Proof. intros Ht Hs [H|H]; [by left|right]. by rewrite <- Ht, <- Hs. Qed.

Lemma read_flags_complete_safe (dev : net_device) :
  buffers_ok dev ->
  safe_or_null_skb dev (mcp2515_read_flags_complete dev).
Proof.
  intros Hok. pose proof Hok as (_ & Hrx & _).
  unfold mcp2515_read_flags_complete, load.
  destruct (lookup_lt_is_Some_2 (rx_buf dev) 2) as [b2 ->];
    [rewrite Hrx; unfold MCP2515_BUF_SIZE; lia|].
  cbn [mbind option_bind].
  change (rx_buf (set_canintf b2 dev)) with (rx_buf dev).
  destruct (lookup_lt_is_Some_2 (rx_buf dev) 3) as [b3 ->];
    [rewrite Hrx; unfold MCP2515_BUF_SIZE; lia|].
  cbn [mbind option_bind].
  set (dev2 := set_eflg b3 (set_canintf b2 dev)).
  assert (Hok2 : buffers_ok dev2)
    by (eapply buffers_ok_same; [..|exact Hok]; auto).
  destruct (truthy (Z.land b2 CANINTF_RX0IF));
    [left; by apply read_rxb_safe|].
  destruct (truthy (Z.land b2 CANINTF_RX1IF));
    [left; by apply read_rxb_safe|].
  destruct (truthy b2); [left; by apply clear_canintf_safe|].
  change (transmit dev2) with (transmit dev).
  destruct (transmit dev) eqn:Ht.
  { apply (safe_from dev dev2); [done|done|]. by apply load_pending_safe. }
  destruct (interrupt dev2).
  - left. apply read_flags_safe.
    by eapply buffers_ok_same; [..|exact Hok2]; auto.
  - left. eexists. split; [done|].
    by eapply buffers_ok_same; [..|exact Hok2]; auto.
Qed.

Lemma read_rxb_complete_safe (alloc : bool) (dev : net_device) :
  buffers_ok dev ->
  exists d, mcp2515_read_rxb_complete alloc dev = Some d /\
    buffers_ok d /\ transmit d = transmit dev /\ skb d = skb dev /\
    canintf d = canintf dev.
Proof.
  intros Hok. pose proof Hok as (_ & Hrx & _).
  unfold mcp2515_read_rxb_complete. destruct alloc; simpl.
  - destruct (rxb_to_frame_Some (rx_buf dev) zero_frame) as [f ->];
      [done|done|].
    eexists. split; [done|]. split_and!; try done;
      by eapply buffers_ok_same; [..|exact Hok]; auto.
  - eexists. split; [done|]. split_and!; try done;
      by eapply buffers_ok_same; [..|exact Hok]; auto.
Qed.

Lemma read_rxb0_complete_safe (alloc : bool) (dev : net_device) :
  buffers_ok dev ->
  safe_or_null_skb dev (mcp2515_read_rxb0_complete alloc dev).
Proof.
  intros Hok. unfold mcp2515_read_rxb0_complete.
  destruct (read_rxb_complete_safe alloc dev Hok)
    as (d & -> & Hd & Ht & Hs & _).
  cbn [mbind option_bind].
  destruct (truthy _); [left; by apply read_rxb_safe|].
  apply (safe_from dev d); [done|done|].
  by apply transmit_or_read_flags_safe.
Qed.

Lemma read_rxb1_complete_safe (alloc : bool) (dev : net_device) :
  buffers_ok dev ->
  safe_or_null_skb dev (mcp2515_read_rxb1_complete alloc dev).
Proof.
  intros Hok. unfold mcp2515_read_rxb1_complete.
  destruct (read_rxb_complete_safe alloc dev Hok)
    as (d & -> & Hd & Ht & Hs & _).
  cbn [mbind option_bind].
  apply (safe_from dev d); [done|done|].
  by apply transmit_or_read_flags_safe.
Qed.

Lemma clear_canintf_complete_safe (dev : net_device) :
  buffers_ok dev ->
  safe_or_null_skb dev (mcp2515_clear_canintf_complete dev).
Proof.
  intros Hok. left. unfold mcp2515_clear_canintf_complete.
  match goal with
  | |- context [truthy (eflg ?d)] => set (dev1 := d)
  end.
  assert (Hok1 : buffers_ok dev1).
  { subst dev1. destruct (truthy (Z.land (canintf dev) CANINTF_TX0IF));
      [|done].
    unfold can_get_echo_skb.
    destruct (skb dev); [destruct (echo_skb dev)|];
      (eapply buffers_ok_same; [..|exact Hok]; auto). }
  destruct (truthy (eflg dev1)).
  - by apply clear_eflg_safe.
  - by apply read_flags_safe.
Qed.

Lemma clear_eflg_complete_safe (dev : net_device) :
  buffers_ok dev ->
  safe_or_null_skb dev (mcp2515_clear_eflg_complete dev).
Proof.
  intros Hok. left. unfold mcp2515_clear_eflg_complete.
  apply read_flags_safe. destruct (truthy _); [|done].
  by eapply buffers_ok_same; [..|exact Hok]; auto.
Qed.

Lemma spi_complete_safe (rx : list Z) (alloc : bool) (dev : net_device) :
  buffers_ok dev ->
  safe_or_null_skb dev (spi_complete rx alloc dev).
Proof.
  intros Hok. pose proof Hok as (_ & Hrx & Hl & _).
  unfold spi_complete.
  rewrite memcpy_Some.
  2: { rewrite length_fmap, length_resize. lia. }
  2: { rewrite Hrx. unfold MCP2515_BUF_SIZE. lia. }
  cbn [mbind option_bind].
  match goal with
  | |- context [set_rx_buf ?b dev] => set (buf := b)
  end.
  set (dev1 := set_rx_buf buf dev).
  assert (Hok1 : buffers_ok dev1).
  { destruct Hok as (? & ? & ? & ?). unfold buffers_ok. simpl.
    split_and!; try done; try lia. subst buf.
    rewrite !length_app, !length_take, !length_drop, length_fmap,
      length_resize, Hrx.
    unfold MCP2515_BUF_SIZE. lia. }
  apply (safe_from dev dev1); [done|done|].
  change (message_complete dev1) with (message_complete dev).
  destruct (message_complete dev) as [[]|].
  - by apply read_flags_complete_safe.
  - by apply read_rxb0_complete_safe.
  - by apply read_rxb1_complete_safe.
  - by apply clear_canintf_complete_safe.
  - by apply clear_eflg_complete_safe.
  - left. by apply rts_txb0_safe.
  - left. by apply read_flags_safe.
  - left. by eexists.
Qed.

Lemma dropped_malformed_ok (s : sk_buff) :
  dropped_malformed s = false -> skb_ok s.
Proof.
  unfold dropped_malformed, skb_ok. intros H%negb_false_iff.
  apply andb_true_iff in H as [H H3]. apply andb_true_iff in H as [H1 H2].
  apply Nat.eqb_eq in H3. lia.
Qed.

Lemma config_buffers_ok (dev dev' : net_device) :
  only_config_changed dev dev' -> buffers_ok dev -> buffers_ok dev'.
Proof.
  intros (b & st & q & Hb & ->) (? & ? & ? & ?). unfold buffers_ok. simpl.
  split_and!; try done; try lia; congruence.
Qed.

Lemma chip_start_Some (polls : nat) (dev : net_device) (spi : spi_device) :
  (6 <= length (tx_buf dev))%nat ->
  is_Some (mcp2515_chip_start polls dev spi).
Proof.
  intros Hl. unfold mcp2515_chip_start.
  destruct (mcp2515_hw_reset spi) as [e0 spi0].
  destruct (truthy e0); [by eexists|].
  do 6 (rewrite store_Some by (rewrite ?length_insert; lia);
        cbn [mbind option_bind]).
  destruct (spi_write _ _ 6) as [e1 spi1].
  destruct (truthy e1); [by eexists|].
  do 3 (rewrite store_Some by (rewrite ?length_insert; lia);
        cbn [mbind option_bind]).
  destruct (spi_write _ _ 4) as [e2 spi2].
  destruct (truthy e2); [by eexists|].
  destruct (mcp2515_write_reg _ _ _) as [e3 spi3].
  destruct (chip_start_wait _ _ _) as [e4 spi4].
  destruct (truthy e4); by eexists.
Qed.

Section SafetyProperties.

Variable can_dropped_invalid_skb : sk_buff -> bool.

(** The framework's check lets through only frames of at most 8 bytes. *)
Hypothesis dropped_or_ok :
  forall s, can_dropped_invalid_skb s = false -> skb_ok s.

Lemma step_safe (dev : net_device) (ev : event) :
  buffers_ok dev ->
  safe_or_null_skb dev (step can_dropped_invalid_skb dev ev) /\
  (step can_dropped_invalid_skb dev ev = None ->
   exists rx alloc, ev = ev_spi_complete rx alloc).
Proof.
  intros Hok. pose proof Hok as (Htx & _).
  assert (H6 : (6 <= length (tx_buf dev))%nat)
    by (rewrite Htx; unfold MCP2515_BUF_SIZE; lia).
  assert (Hstrong : forall r, (exists dev', r = Some dev' /\ buffers_ok dev')
            -> safe_or_null_skb dev r /\
               (r = None -> exists rx alloc, ev = ev_spi_complete rx alloc)).
  { intros r (dev' & -> & H). split; [left; eauto|done]. }
  destruct ev as [|s|rx alloc|oe ie polls spi|spi|m polls spi]; simpl.
  - apply Hstrong. unfold mcp2515_interrupt. destruct (busy dev).
    + eexists. split; [done|].
      by eapply buffers_ok_same; [..|exact Hok]; auto.
    + apply read_flags_safe.
      by eapply buffers_ok_same; [..|exact Hok]; auto.
  - apply Hstrong. unfold mcp2515_start_xmit.
    destruct (can_dropped_invalid_skb s) eqn:Hd; [by eexists|].
    apply dropped_or_ok in Hd.
    assert (Hok1 : buffers_ok (set_skb (Some s) (netif_stop_queue dev))).
    { destruct Hok as (? & ? & ? & ?). unfold buffers_ok. simpl.
      split_and!; try done; try lia. by intros ? [= <-]. }
    change (busy (set_skb (Some s) (netif_stop_queue dev))) with (busy dev).
    destruct (busy dev).
    + eexists. split; [done|].
      eapply buffers_ok_same; [..|exact Hok1]; auto.
    + apply load_txb0_safe; [|done].
      eapply buffers_ok_same; [..|exact Hok1]; auto.
  - split; [by apply spi_complete_safe|eauto].
  - apply Hstrong.
    destruct (mcp2515_open oe ie polls dev spi) as [r|] eqn:Ho.
    + exists r.1.2. split; [done|].
      eapply config_buffers_ok; [|exact Hok]. by eapply open_config.
    + unfold mcp2515_open in Ho.
      destruct (truthy oe); [done|]. destruct (truthy ie); [done|].
      destruct (chip_start_Some polls dev (mcp2515_power_switch 1 spi) H6)
        as [[[e d] sp] Hc].
      rewrite Hc in Ho. simpl in Ho. by destruct (truthy e).
  - apply Hstrong. eexists. split; [done|].
    eapply config_buffers_ok; [|exact Hok]. apply (close_config dev spi).
  - apply Hstrong.
    destruct (mcp2515_set_mode m polls dev spi) as [r|] eqn:Ho.
    + exists r.1.2. split; [done|].
      eapply config_buffers_ok; [|exact Hok]. by eapply set_mode_config.
    + unfold mcp2515_set_mode in Ho. destruct m; try done.
      destruct (chip_start_Some polls dev spi H6) as [[[e d] sp] Hc].
      rewrite Hc in Ho. simpl in Ho. by destruct (truthy e).
Qed.

Lemma probed_buffers_ok (ctrlmode : Z) (bt : can_bittiming)
    (txb rxb : list Z) :
  buffers_ok (probed_device ctrlmode bt txb rxb).
Proof.
  unfold buffers_ok. simpl. rewrite !length_fmap, !length_resize.
  split_and!; try done; lia.
Qed.

Lemma reachable_ok (dev : net_device) :
  reachable can_dropped_invalid_skb dev -> buffers_ok dev.
Proof.
  induction 1 as [|dev ev dev' _ IH Hs]; [apply probed_buffers_ok|].
  destruct (step_safe dev ev IH) as [[(d & Hd & Hok)|(Hn & _)] _];
    congruence.
Qed.

(** X9.  In every state a probed device can get into, provided the
    framework's check lets through only frames of at most 8 data bytes, the
    TX and RX buffers still have their 14 bytes, the transfer length is
    between 0 and 14, and the pending skb, if any, has at most 8 data
    bytes. *)
Theorem reachable_buffers_ok (dev : net_device) :
  reachable can_dropped_invalid_skb dev ->
  length (tx_buf dev) = MCP2515_BUF_SIZE /\
  length (rx_buf dev) = MCP2515_BUF_SIZE /\
  0 <= transfer_len dev <= 14 /\
  (forall s, skb dev = Some s ->
     length (data (skb_data s)) = 8%nat /\ 0 <= can_dlc (skb_data s) <= 8).
Proof. apply reachable_ok. Qed.

(** X10.  Memory safety of one operation.  From any state a probed device
    can get into, every operation runs without an out-of-bounds access to
    the two 14-byte buffers or to a frame's data and without dereferencing a
    null skb, and ends in such a state again; the one exception is a
    completion callback that loads the frame of a recorded transmit after
    the pending skb has been released ([transmit] set, [priv->skb] null). *)
Theorem step_memory_safe (dev : net_device) (ev : event) :
  reachable can_dropped_invalid_skb dev ->
  (exists dev',
     step can_dropped_invalid_skb dev ev = Some dev' /\
     reachable can_dropped_invalid_skb dev') \/
  (step can_dropped_invalid_skb dev ev = None /\
   (exists rx alloc, ev = ev_spi_complete rx alloc) /\
   transmit dev = true /\ skb dev = None).
Proof.
  intros Hr.
  destruct (step_safe dev ev (reachable_ok dev Hr))
    as [[(d & Hd & Hok)|(Hn & Ht' & Hs)] Hev].
  - left. exists d. split; [done|]. by eapply reachable_step.
  - right. split; [done|]. split; [by apply Hev|done].
Qed.

End SafetyProperties.

Lemma dev_null_skb_reachable (n : nat) :
  (n <= 4)%nat -> reachable dropped_malformed (dev_null_skb n).
Proof.
  intros Hn. apply (run_reachable dropped_malformed
    (take n scenario_null_skb) dev_probed); [constructor|].
  do 5 (destruct n as [|n]; [vm_compute; reflexivity|]). lia.
Qed.

(** A concrete instance: a frame of 3 bytes is pending while READ_FLAGS is
    in flight. *)
Lemma reachable_buffers_ok_witness :
  reachable dropped_malformed (dev_null_skb 2) /\
  skb (dev_null_skb 2) = Some (mk_sk_buff frame_std) /\
  length (tx_buf (dev_null_skb 2)) = MCP2515_BUF_SIZE /\
  length (rx_buf (dev_null_skb 2)) = MCP2515_BUF_SIZE /\
  0 <= transfer_len (dev_null_skb 2) <= 14 /\
  (forall s, skb (dev_null_skb 2) = Some s ->
     length (data (skb_data s)) = 8%nat /\ 0 <= can_dlc (skb_data s) <= 8).
Proof.
  assert (Hr : reachable dropped_malformed (dev_null_skb 2))
    by (apply dev_null_skb_reachable; lia).
  split; [exact Hr|]. split; [vm_compute; reflexivity|].
  exact (reachable_buffers_ok dropped_malformed dropped_malformed_ok
           (dev_null_skb 2) Hr).
Defined.

(** A concrete instance: at the end of the run above a transmit is recorded
    and the pending skb is null; the completion that reads CANINTF = 0 then
    loads the null skb. *)
Lemma step_memory_safe_witness :
  reachable dropped_malformed (dev_null_skb 4) /\
  step dropped_malformed (dev_null_skb 4) (ev_spi_complete [0; 0; 0; 0] true)
    = None /\
  ((exists dev',
      step dropped_malformed (dev_null_skb 4)
        (ev_spi_complete [0; 0; 0; 0] true) = Some dev' /\
      reachable dropped_malformed dev') \/
   (step dropped_malformed (dev_null_skb 4)
      (ev_spi_complete [0; 0; 0; 0] true) = None /\
    (exists rx alloc,
       ev_spi_complete [0; 0; 0; 0] true = ev_spi_complete rx alloc) /\
    transmit (dev_null_skb 4) = true /\ skb (dev_null_skb 4) = None)).
Proof.
  assert (Hr : reachable dropped_malformed (dev_null_skb 4))
    by (apply dev_null_skb_reachable; lia).
  split; [exact Hr|]. split; [vm_compute; reflexivity|].
  exact (step_memory_safe dropped_malformed dropped_malformed_ok
           (dev_null_skb 4) (ev_spi_complete [0; 0; 0; 0] true) Hr).
Defined.

(** ** Receive accounting *)

Lemma frames_bytes_app (l : list can_frame) (f : can_frame) :
  frames_bytes (l ++ [f]) = frames_bytes l + can_dlc f.
Proof. induction l as [|g l IH]; simpl; [lia|]. rewrite IH. lia. Qed.

Lemma ulong_add_l (a b : Z) : ulong (ulong a + b) = ulong (a + b).
Proof. unfold ulong. apply Z.add_mod_idemp_l. by vm_compute. Qed.

Lemma rx_kept_trans (d1 d2 d3 : net_device) :
  rx_kept d1 d2 -> rx_kept d2 d3 -> rx_kept d1 d3.
Proof.
  unfold rx_kept. intros (? & ? & ?) (? & ? & ?). split_and!; congruence.
Qed.

Lemma control_rx_kept (dev dev' : net_device) :
  same_control dev dev' -> rx_kept dev dev'.
Proof.
  intros (_ & _ & _ & _ & _ & _ & _ & Hs & _ & _ & Hd & _).
  unfold rx_kept. by rewrite Hs, Hd.
Qed.

Lemma rx_one_more_kept (f : can_frame) (d1 d2 d3 : net_device) :
  rx_one_more f d1 d2 -> rx_kept d2 d3 -> rx_one_more f d1 d3.
Proof.
  unfold rx_kept, rx_one_more. intros (? & ? & ?) (? & ? & ?).
  split_and!; congruence.
Qed.

Lemma rx_counted_kept (dev dev' : net_device) :
  rx_kept dev dev' -> rx_counted dev -> rx_counted dev'.
Proof.
  unfold rx_kept, rx_counted. intros (-> & -> & ->). done.
Qed.

Lemma rx_counted_one_more (f : can_frame) (dev dev' : net_device) :
  rx_one_more f dev dev' -> rx_counted dev -> rx_counted dev'.
Proof.
  unfold rx_one_more, rx_counted. intros (-> & -> & ->) [-> ->].
  rewrite !ulong_add_l, length_app, frames_bytes_app. simpl.
  split; f_equal; lia.
Qed.

Lemma transmit_or_read_flags_rx (dev dev' : net_device) :
  mcp2515_transmit_or_read_flags dev = Some dev' -> rx_kept dev dev'.
Proof.
  unfold mcp2515_transmit_or_read_flags. intros H.
  destruct (transmit dev).
  - apply load_txb0_control in H as (H%control_rx_kept & _). exact H.
  - apply read_flags_control in H as (H%control_rx_kept & _). exact H.
Qed.

Lemma read_flags_complete_rx (dev dev' : net_device) :
  mcp2515_read_flags_complete dev = Some dev' -> rx_kept dev dev'.
Proof.
  unfold mcp2515_read_flags_complete. intros H.
  apply bind_Some in H as (b2 & _ & H).
  apply bind_Some in H as (b3 & _ & H).
  destruct (truthy (Z.land b2 CANINTF_RX0IF)).
  { apply read_rxb_control in H as (H%control_rx_kept & _). exact H. }
  destruct (truthy (Z.land b2 CANINTF_RX1IF)).
  { apply read_rxb_control in H as (H%control_rx_kept & _). exact H. }
  destruct (truthy b2).
  { apply clear_canintf_control in H as (H%control_rx_kept & _). exact H. }
  destruct (transmit _).
  { apply load_txb0_control in H as (H%control_rx_kept & _). exact H. }
  destruct (interrupt _).
  { apply read_flags_control in H as (H%control_rx_kept & _). exact H. }
  injection H as <-. done.
Qed.

(** The accounting of [mcp2515_read_rxb_complete]. *)
Lemma read_rxb_complete_rx (alloc : bool) (dev dev' : net_device) :
  mcp2515_read_rxb_complete alloc dev = Some dev' ->
  if alloc
  then exists f, mcp2515_rxb_to_frame (rx_buf dev) zero_frame = Some f /\
         rx_one_more f dev dev' /\
         rx_dropped (stats dev') = rx_dropped (stats dev)
  else rx_kept dev dev' /\
       rx_dropped (stats dev') = ulong (rx_dropped (stats dev) + 1).
Proof.
  unfold mcp2515_read_rxb_complete. intros H. destruct alloc; simpl in H.
  - apply bind_Some in H as (f & Hf & H). injection H as <-.
    exists f. by split.
  - injection H as <-. by split.
Qed.

Lemma clear_canintf_complete_rx (dev dev' : net_device) :
  mcp2515_clear_canintf_complete dev = Some dev' -> rx_kept dev dev'.
Proof.
  unfold mcp2515_clear_canintf_complete. intros H.
  match type of H with
  | context [truthy (eflg ?d)] => set (dev1 := d) in H
  end.
  assert (H1 : rx_kept dev dev1).
  { subst dev1. clear H.
    destruct (truthy (Z.land (canintf dev) CANINTF_TX0IF)); [|done].
    unfold can_get_echo_skb.
    destruct (skb dev); [destruct (echo_skb dev)|]; done. }
  eapply rx_kept_trans; [exact H1|].
  destruct (truthy (eflg dev1)).
  - apply clear_eflg_control in H as (H%control_rx_kept & _). exact H.
  - apply read_flags_control in H as (H%control_rx_kept & _). exact H.
Qed.

Lemma clear_eflg_complete_rx (dev dev' : net_device) :
  mcp2515_clear_eflg_complete dev = Some dev' -> rx_kept dev dev'.
Proof.
  unfold mcp2515_clear_eflg_complete. intros H.
  apply read_flags_control in H as (H%control_rx_kept & _).
  eapply rx_kept_trans; [|exact H]. by destruct (truthy _).
Qed.

(** What a completion does to the receive side: nothing, or one frame. *)
Lemma complete_rx (rx : list Z) (alloc : bool) (dev dev' : net_device) :
  spi_complete rx alloc dev = Some dev' ->
  rx_kept dev dev' \/ exists f, rx_one_more f dev dev'.
Proof.
  unfold spi_complete. intros H.
  apply bind_Some in H as (buf & _ & H).
  set (dev1 := set_rx_buf buf dev) in H.
  change (message_complete dev1) with (message_complete dev) in H.
  assert (Hk : forall d, rx_kept dev1 d -> rx_kept dev d) by done.
  assert (Hm : forall f d, rx_one_more f dev1 d -> rx_one_more f dev d)
    by done.
  destruct (message_complete dev) as [[]|].
  - left. by apply Hk, read_flags_complete_rx.
  - unfold mcp2515_read_rxb0_complete in H.
    apply bind_Some in H as (d & Hd%read_rxb_complete_rx & H).
    assert (Ht : rx_kept d dev').
    { destruct (truthy _).
      - apply read_rxb_control in H as (H%control_rx_kept & _). exact H.
      - by apply transmit_or_read_flags_rx. }
    destruct alloc.
    + right. destruct Hd as (f & _ & Hd & _). exists f.
      by eapply Hm, rx_one_more_kept.
    + left. destruct Hd as [Hd _]. by eapply Hk, rx_kept_trans.
  - unfold mcp2515_read_rxb1_complete in H.
    apply bind_Some in H as (d & Hd%read_rxb_complete_rx & H).
    apply transmit_or_read_flags_rx in H.
    destruct alloc.
    + right. destruct Hd as (f & _ & Hd & _). exists f.
      by eapply Hm, rx_one_more_kept.
    + left. destruct Hd as [Hd _]. by eapply Hk, rx_kept_trans.
  - left. by apply Hk, clear_canintf_complete_rx.
  - left. by apply Hk, clear_eflg_complete_rx.
  - left. apply Hk.
    apply rts_txb0_control in H as (H%control_rx_kept & _). exact H.
  - left. apply Hk.
    apply read_flags_control in H as (H%control_rx_kept & _). exact H.
  - left. injection H as <-. by apply Hk.
Qed.

Section StatsProperties.

Variable can_dropped_invalid_skb : sk_buff -> bool.

Lemma step_rx (dev dev' : net_device) (ev : event) :
  step can_dropped_invalid_skb dev ev = Some dev' ->
  rx_kept dev dev' \/ exists f, rx_one_more f dev dev'.
Proof.
  intros H. pose proof (step_config _ _ _ _ H) as Hcfg.
  destruct ev as [|s|rx alloc|oe ie polls spi|spi|m polls spi];
    simpl in H.
  - left. unfold mcp2515_interrupt in H. destruct (busy dev).
    + by injection H as <-.
    + apply read_flags_control in H as (H%control_rx_kept & _). exact H.
  - left. unfold mcp2515_start_xmit in H.
    destruct (can_dropped_invalid_skb s); [by injection H as <-|].
    simpl in H. destruct (busy dev).
    + by injection H as <-.
    + apply load_txb0_control in H as (H%control_rx_kept & _). exact H.
  - by eapply complete_rx.
  - left. destruct Hcfg as (b & st & q & _ & ->). done.
  - left. destruct Hcfg as (b & st & q & _ & ->). done.
  - left. destruct Hcfg as (b & st & q & _ & ->). done.
Qed.

(** X11.  In every state a probed device can get into, the receive counters
    agree with what was handed to the network stack: [rx_packets] is the
    number of frames delivered and [rx_bytes] the sum of their lengths, both
    modulo 2^64. *)
Theorem rx_counters_match_delivered (dev : net_device) :
  reachable can_dropped_invalid_skb dev ->
  rx_packets (stats dev) = ulong (Z.of_nat (length (delivered dev))) /\
  rx_bytes (stats dev) = ulong (frames_bytes (delivered dev)).
Proof.
  induction 1 as [|dev ev dev' _ IH Hs]; [done|].
  apply step_rx in Hs as [Hs|[f Hs]].
  - by eapply rx_counted_kept.
  - by eapply rx_counted_one_more.
Qed.

End StatsProperties.

(** X12.  When [alloc_can_skb] fails at the completion of READ_RXB0, on a
    device with its 14-byte TX buffer, the frame is dropped and the chain
    goes on.  Nothing is delivered, [rx_packets] and [rx_bytes] stay,
    [rx_dropped] is incremented, [busy] stays and one message is appended to
    the messages handed to the bus: READ_RXB1 (0x94 and 13 zeros) if RX1IF
    was read, else READ_FLAGS (03 2C 00 00) if no transmit is recorded, else
    LOAD_TXB0 with the pending frame. *)
Theorem read_rxb0_alloc_failure (dev : net_device) :
  length (tx_buf dev) = MCP2515_BUF_SIZE ->
  (forall dev',
     mcp2515_read_rxb0_complete false dev = Some dev' ->
     delivered dev' = delivered dev /\
     rx_packets (stats dev') = rx_packets (stats dev) /\
     rx_bytes (stats dev') = rx_bytes (stats dev) /\
     rx_dropped (stats dev') = ulong (rx_dropped (stats dev) + 1) /\
     busy dev' = busy dev /\
     exists m, spi_queue dev' = spi_queue dev ++ [m]) /\
  (Z.land (canintf dev) CANINTF_RX1IF <> 0 ->
   hands_to_bus read_rxb1_complete (0x94 :: replicate 13 0) dev
     (mcp2515_read_rxb0_complete false dev)) /\
  (Z.land (canintf dev) CANINTF_RX1IF = 0 -> transmit dev = false ->
   hands_to_bus read_flags_complete [0x03; 0x2c; 0; 0] dev
     (mcp2515_read_rxb0_complete false dev)) /\
  (Z.land (canintf dev) CANINTF_RX1IF = 0 -> transmit dev = true ->
   forall s, skb dev = Some s ->
     length (data (skb_data s)) = 8%nat -> 0 <= can_dlc (skb_data s) <= 8 ->
     exists buf,
       mcp2515_set_txbuf 1 s (<[0%nat := 0x40]> (tx_buf dev))
         = Some (buf, 5 + can_dlc (skb_data s)) /\
       hands_to_bus load_txb0_complete
         (take (Z.to_nat (6 + can_dlc (skb_data s))) buf) dev
         (mcp2515_read_rxb0_complete false dev)).
Proof.
  intros Htx. unfold MCP2515_BUF_SIZE in Htx.
  unfold mcp2515_read_rxb0_complete, mcp2515_read_rxb_complete. simpl.
  set (d := set_stats _ dev).
  change (canintf d) with (canintf dev).
  split_and!.
  - intros dev' H.
    assert (Hc : exists d0, same_control d0 dev' /\
                   stats d0 = stats d /\ delivered d0 = delivered dev /\
                   busy d0 = busy dev /\ spi_queue d0 = spi_queue dev).
    { destruct (truthy _).
      - apply read_rxb_control in H as (? & _). by exists d.
      - unfold mcp2515_transmit_or_read_flags in H.
        change (transmit d) with (transmit dev) in H.
        destruct (transmit dev).
        + apply load_txb0_control in H as (? & _).
          by exists (set_transmit false d).
        + apply read_flags_control in H as (? & _). by exists d. }
    destruct Hc as (d0 & (_ & Hb & _ & _ & _ & _ & _ & Hs & _ & _ & Hd & _
                          & b & Hq) & Hs0 & Hd0 & Hb0 & Hq0).
    rewrite Hs, Hs0, Hd, Hd0, Hb, Hb0, Hq, Hq0. simpl.
    split_and!; try done. by eexists.
  - intros E%truthy_true. rewrite E.
    apply (hands_from _ _ dev d); [done|done|].
    apply (read_rxb_hands (MCP2515_INSTRUCTION_READ_RXB 1)). simpl. lia.
  - intros E%truthy_false Ht. rewrite E.
    unfold mcp2515_transmit_or_read_flags.
    change (transmit d) with (transmit dev). rewrite Ht.
    apply (hands_from _ _ dev d); [done|done|].
    apply read_flags_hands. simpl. lia.
  - intros E%truthy_false Ht s Hs Hd Hdlc. rewrite E.
    unfold mcp2515_transmit_or_read_flags.
    change (transmit d) with (transmit dev). rewrite Ht.
    change (skb (set_transmit false d)) with (skb dev). rewrite Hs.
    destruct (load_txb0_hands s (set_transmit false d)) as (buf & Hb & Hh);
      [done|done|done|].
    exists buf. split; [exact Hb|].
    by apply (hands_from _ _ dev (set_transmit false d)).
Qed.

(** A concrete instance: in scenario 3, after READ_RXB0 has completed, one
    frame of one byte has been delivered. *)
Lemma rx_counters_match_delivered_witness :
  reachable dropped_over_8 (dev_scenario 6) /\
  delivered (dev_scenario 6) =
    [mk_can_frame 0x200 1 [0x5A; 0; 0; 0; 0; 0; 0; 0]] /\
  rx_packets (stats (dev_scenario 6)) =
    ulong (Z.of_nat (length (delivered (dev_scenario 6)))) /\
  rx_bytes (stats (dev_scenario 6)) =
    ulong (frames_bytes (delivered (dev_scenario 6))).
Proof.
  assert (Hr : reachable dropped_over_8 (dev_scenario 6))
    by (apply dev_scenario_reachable; lia).
  split; [exact Hr|]. split; [vm_compute; reflexivity|].
  exact (rx_counters_match_delivered dropped_over_8 (dev_scenario 6) Hr).
Defined.

(** A concrete instance: scenario 3 with the allocation failing when
    READ_RXB0 completes; CANINTF was 0x05 and no transmit is recorded, so
    READ_FLAGS is handed to the bus. *)
Lemma read_rxb0_alloc_failure_witness :
  length (tx_buf (dev_scenario 5)) = MCP2515_BUF_SIZE /\
  Z.land (canintf (dev_scenario 5)) CANINTF_RX1IF = 0 /\
  transmit (dev_scenario 5) = false /\
  mcp2515_read_rxb0_complete false (dev_scenario 5) = Some dev_rx_dropped /\
  rx_dropped (stats dev_rx_dropped) = 1 /\
  delivered dev_rx_dropped = [] /\
  hands_to_bus read_flags_complete [0x03; 0x2c; 0; 0] (dev_scenario 5)
    (mcp2515_read_rxb0_complete false (dev_scenario 5)).
Proof.
  assert (Htx : length (tx_buf (dev_scenario 5)) = MCP2515_BUF_SIZE)
    by (vm_compute; reflexivity).
  assert (H1 : Z.land (canintf (dev_scenario 5)) CANINTF_RX1IF = 0)
    by (vm_compute; reflexivity).
  assert (Ht : transmit (dev_scenario 5) = false)
    by (vm_compute; reflexivity).
  split; [exact Htx|]. split; [exact H1|]. split; [exact Ht|].
  split; [vm_compute; reflexivity|]. split; [vm_compute; reflexivity|].
  split; [vm_compute; reflexivity|].
  exact (proj1 (proj2 (proj2 (read_rxb0_alloc_failure (dev_scenario 5) Htx)))
           H1 Ht).
Defined.

(** ** Chains of messages *)

Lemma spi_complete_callback (rx : list Z) (alloc : bool) (dev : net_device)
    (c : completion) :
  (Z.to_nat (transfer_len dev) <= length (rx_buf dev))%nat ->
  message_complete dev = Some c ->
  spi_complete rx alloc dev =
    callback c alloc (set_rx_buf (clocked_in rx dev) dev).
Proof.
  intros Hl Hm. unfold spi_complete.
  rewrite memcpy_Some by (rewrite ?length_fmap, ?length_resize; lia).
  cbn [mbind option_bind].
  change (message_complete (set_rx_buf _ dev)) with (message_complete dev).
  rewrite Hm.
  match goal with
  | |- context [set_rx_buf ?b dev] =>
      replace b with (clocked_in rx dev); [by destruct c|]
  end.
  unfold clocked_in. rewrite drop_0, take_0. simpl.
  by rewrite take_ge by (rewrite length_fmap, length_resize; lia).
Qed.

Lemma clocked_in_length (rx : list Z) (dev : net_device) :
  (Z.to_nat (transfer_len dev) <= length (rx_buf dev))%nat ->
  length (clocked_in rx dev) = length (rx_buf dev).
Proof.
  intros H. unfold clocked_in.
  rewrite length_app, length_fmap, length_resize, length_drop. lia.
Qed.

Lemma load_txb0_eq (s : sk_buff) (dev : net_device) (buf : list Z) (n : Z) :
  (1 <= length (tx_buf dev))%nat ->
  mcp2515_set_txbuf 1 s
    (<[0%nat := u8 (MCP2515_INSTRUCTION_LOAD_TXB 0)]> (tx_buf dev))
    = Some (buf, n) ->
  mcp2515_load_txb0 (Some s) dev =
    Some (mcp2515_spi_async
            (can_put_echo_skb s
               (set_message_complete (Some load_txb0_complete)
                  (set_transfer_len (n + 1) (set_tx_buf buf dev))))).
Proof.
  intros Hl Hs. unfold mcp2515_load_txb0.
  rewrite store_Some by lia. cbn [mbind option_bind]. rewrite Hs. done.
Qed.

Section ChainProperties.

Variable can_dropped_invalid_skb : sk_buff -> bool.

(** X13.  The transmit chain.  A valid frame submitted to an idle device is
    sent with three messages, whatever the bus answers to the first two:
    LOAD_TXB0 (instruction 0x40, then the 5 + [can_dlc] bytes written by
    [mcp2515_set_txbuf]), RTS_TXB0 (the single byte 0x81) and READ_FLAGS
    (03 2C 00 00).  Meanwhile the device is busy, the frame stays the
    pending skb and the transmit queue is stopped. *)
Theorem tx_chain (s : sk_buff) (dev : net_device) (rx1 rx2 : list Z)
    (a1 a2 : bool) :
  length (tx_buf dev) = MCP2515_BUF_SIZE ->
  length (rx_buf dev) = MCP2515_BUF_SIZE ->
  busy dev = false ->
  can_dropped_invalid_skb s = false ->
  length (data (skb_data s)) = 8%nat ->
  0 <= can_dlc (skb_data s) <= 8 ->
  exists dev' buf,
    mcp2515_set_txbuf 1 s (<[0%nat := 0x40]> (tx_buf dev))
      = Some (buf, 5 + can_dlc (skb_data s)) /\
    run can_dropped_invalid_skb dev
      [ev_start_xmit s; ev_spi_complete rx1 a1; ev_spi_complete rx2 a2]
      = Some dev' /\
    spi_queue dev' = spi_queue dev ++
      [(Some load_txb0_complete,
        take (Z.to_nat (6 + can_dlc (skb_data s))) buf);
       (Some rts_txb0_complete, [0x81]);
       (Some read_flags_complete, [0x03; 0x2c; 0; 0])] /\
    busy dev' = true /\ skb dev' = Some s /\ queue_stopped dev' = true /\
    message_complete dev' = Some read_flags_complete.
Proof.
  intros Htx Hrx Hb Hd Hdat Hdlc. unfold MCP2515_BUF_SIZE in *.
  destruct (set_txbuf_Some 1 s
              (<[0%nat := u8 (MCP2515_INSTRUCTION_LOAD_TXB 0)]> (tx_buf dev)))
    as (buf & Hs & Hlen); [rewrite length_insert; lia|done|done|].
  rewrite length_insert in Hlen.
  set (d0 := set_busy true (set_skb (Some s) (netif_stop_queue dev))).
  pose proof (load_txb0_eq s d0 buf _ ltac:(simpl; lia) Hs) as H1.
  set (d1 := mcp2515_spi_async _) in H1.
  assert (F1 : tx_buf d1 = buf /\ rx_buf d1 = rx_buf dev /\
               transfer_len d1 = 5 + can_dlc (skb_data s) + 1 /\
               message_complete d1 = Some load_txb0_complete /\
               spi_queue d1 = spi_queue dev ++
                 [(Some load_txb0_complete,
                   take (Z.to_nat (5 + can_dlc (skb_data s) + 1)) buf)] /\
               busy d1 = true /\ skb d1 = Some s /\
               queue_stopped d1 = true).
  { subst d1. unfold can_put_echo_skb. simpl.
    destruct (echo_skb dev); simpl; split_and!; done. }
  clearbody d1. destruct F1 as (Ft & Fr & Fl & Fm & Fq & Fb & Fs & Fst).
  assert (H2 : spi_complete rx1 a1 d1 =
    Some (queued rts_txb0_complete 1
            ([0x81] ++ drop 1 (tx_buf (set_rx_buf (clocked_in rx1 d1) d1)))
            (set_rx_buf (clocked_in rx1 d1) d1))).
  { rewrite (spi_complete_callback rx1 a1 d1 load_txb0_complete)
      by (rewrite ?Fr, ?Fl; lia || done).
    apply rts_txb0_eq. simpl. rewrite Ft. lia. }
  set (d2 := queued rts_txb0_complete _ _ _) in H2.
  assert (H3 : spi_complete rx2 a2 d2 =
    Some (queued read_flags_complete 4
            ([0x03; 0x2c; 0; 0] ++
             drop 4 (tx_buf (set_rx_buf (clocked_in rx2 d2) d2)))
            (set_rx_buf (clocked_in rx2 d2) d2))).
  { rewrite (spi_complete_callback rx2 a2 d2 rts_txb0_complete);
      [|simpl; rewrite clocked_in_length; rewrite ?Fr, ?Fl; lia|done].
    apply read_flags_eq. simpl. rewrite length_drop, Ft. lia. }
  eexists _, buf. split; [exact Hs|]. split.
  - cbn [run step]. unfold mcp2515_start_xmit. rewrite Hd.
    change (busy (set_skb (Some s) (netif_stop_queue dev))) with (busy dev).
    rewrite Hb. fold d0. rewrite H1. cbn [mbind option_bind].
    rewrite H2. cbn [mbind option_bind]. rewrite H3. reflexivity.
  - simpl. rewrite Fq, Fb, Fs, Fst. split_and!; try done.
    rewrite <- !app_assoc. simpl. do 3 f_equal.
    + do 2 f_equal. lia.
Qed.

(** X14.  The receive chain for both buffers.  When READ_FLAGS completes
    with RX0IF and RX1IF set (and no transmit recorded), the next three
    messages are READ_RXB0 (0x90 and 13 zeros), READ_RXB1 (0x94 and 13
    zeros) and READ_FLAGS, and the two frames are handed to the network
    stack in that order, each decoded from the 14 bytes the bus answered. *)
Theorem rx_both_buffers (dev : net_device) (a b c e : Z) (al : bool)
    (rx0 rx1 : list Z) :
  length (tx_buf dev) = MCP2515_BUF_SIZE ->
  length (rx_buf dev) = MCP2515_BUF_SIZE ->
  message_complete dev = Some read_flags_complete ->
  transfer_len dev = 4 ->
  transmit dev = false ->
  Z.land (u8 c) CANINTF_RX0IF <> 0 ->
  Z.land (u8 c) CANINTF_RX1IF <> 0 ->
  exists dev' f0 f1,
    run can_dropped_invalid_skb dev
      [ev_spi_complete [a; b; c; e] al; ev_spi_complete rx0 true;
       ev_spi_complete rx1 true] = Some dev' /\
    mcp2515_rxb_to_frame (u8 <$> resize 14 0 rx0) zero_frame = Some f0 /\
    mcp2515_rxb_to_frame (u8 <$> resize 14 0 rx1) zero_frame = Some f1 /\
    delivered dev' = delivered dev ++ [f0; f1] /\
    spi_queue dev' = spi_queue dev ++
      [(Some read_rxb0_complete, 0x90 :: replicate 13 0);
       (Some read_rxb1_complete, 0x94 :: replicate 13 0);
       (Some read_flags_complete, [0x03; 0x2c; 0; 0])] /\
    canintf dev' = u8 c /\ eflg dev' = u8 e /\ busy dev' = busy dev.
Proof.
  intros Htx Hrx Hm Hl Ht H0 H1. unfold MCP2515_BUF_SIZE in *.
  apply truthy_true in H0, H1.
  destruct (rxb_to_frame_Some (u8 <$> resize 14 0 rx0) zero_frame)
    as [f0 Hf0]; [by rewrite length_fmap, length_resize|done|].
  destruct (rxb_to_frame_Some (u8 <$> resize 14 0 rx1) zero_frame)
    as [f1 Hf1]; [by rewrite length_fmap, length_resize|done|].
  (* READ_FLAGS completes *)
  set (c0 := set_rx_buf (clocked_in [a; b; c; e] dev) dev).
  assert (Hc0 : rx_buf c0 = [u8 a; u8 b; u8 c; u8 e] ++ drop 4 (rx_buf dev)).
  { subst c0. simpl. unfold clocked_in. by rewrite Hl. }
  set (d0 := set_eflg (u8 e) (set_canintf (u8 c) c0)).
  assert (E1 : spi_complete [a; b; c; e] al dev =
    Some (queued read_rxb0_complete 14
            ([u8 (MCP2515_INSTRUCTION_READ_RXB 0)] ++ replicate 13 0 ++
             drop 14 (tx_buf d0)) d0)).
  { rewrite (spi_complete_callback _ al dev read_flags_complete)
      by (rewrite ?Hrx, ?Hl; lia || done).
    fold c0. unfold callback, mcp2515_read_flags_complete, load.
    change (rx_buf (set_canintf _ c0)) with (rx_buf c0).
    rewrite Hc0. cbn [app lookup list_lookup mbind option_bind].
    rewrite H0. apply read_rxb_eq. simpl. lia. }
  set (d1 := queued read_rxb0_complete 14 _ d0) in E1.
  (* READ_RXB0 completes *)
  assert (Hlen1 : length (rx_buf d1) = 14%nat).
  { simpl. unfold clocked_in.
    rewrite length_app, length_fmap, length_resize, length_drop, Hl, Hrx.
    lia. }
  set (c1 := set_rx_buf (clocked_in rx0 d1) d1).
  assert (Hc1 : rx_buf c1 = u8 <$> resize 14 0 rx0).
  { subst c1. change (rx_buf (set_rx_buf ?b _)) with b. unfold clocked_in.
    change (Z.to_nat (transfer_len d1)) with 14%nat.
    rewrite drop_ge by lia. apply app_nil_r. }
  set (r1 := netif_rx_ni f0
               (set_stats
                  (add_rx_bytes (can_dlc f0)
                     (stats (set_stats (add_rx_packets 1 (stats c1)) c1)))
                  (set_stats (add_rx_packets 1 (stats c1)) c1))).
  assert (E2 : spi_complete rx0 true d1 =
    Some (queued read_rxb1_complete 14
            ([u8 (MCP2515_INSTRUCTION_READ_RXB 1)] ++ replicate 13 0 ++
             drop 14 (tx_buf r1)) r1)).
  { rewrite (spi_complete_callback _ true d1 read_rxb0_complete);
      [|rewrite Hlen1; simpl; lia|done].
    fold c1. unfold callback, mcp2515_read_rxb0_complete,
      mcp2515_read_rxb_complete. rewrite Hc1, Hf0.
    cbn [negb mbind option_bind]. fold r1.
    change (canintf r1) with (u8 c). rewrite H1.
    apply read_rxb_eq. simpl. rewrite ?length_replicate, ?length_drop. lia. }
  set (d2 := queued read_rxb1_complete 14 _ r1) in E2.
  (* READ_RXB1 completes *)
  assert (Hlen2 : length (rx_buf d2) = 14%nat).
  { change (rx_buf d2) with (rx_buf c1). rewrite Hc1.
    by rewrite length_fmap, length_resize. }
  set (c2 := set_rx_buf (clocked_in rx1 d2) d2).
  assert (Hc2 : rx_buf c2 = u8 <$> resize 14 0 rx1).
  { subst c2. change (rx_buf (set_rx_buf ?b _)) with b. unfold clocked_in.
    change (Z.to_nat (transfer_len d2)) with 14%nat.
    rewrite drop_ge by lia. apply app_nil_r. }
  set (r2 := netif_rx_ni f1
               (set_stats
                  (add_rx_bytes (can_dlc f1)
                     (stats (set_stats (add_rx_packets 1 (stats c2)) c2)))
                  (set_stats (add_rx_packets 1 (stats c2)) c2))).
  assert (E3 : spi_complete rx1 true d2 =
    Some (queued read_flags_complete 4
            ([0x03; 0x2c; 0; 0] ++ drop 4 (tx_buf r2)) r2)).
  { rewrite (spi_complete_callback _ true d2 read_rxb1_complete);
      [|rewrite Hlen2; simpl; lia|done].
    fold c2. unfold callback, mcp2515_read_rxb1_complete,
      mcp2515_read_rxb_complete. rewrite Hc2, Hf1.
    cbn [negb mbind option_bind]. fold r2.
    unfold mcp2515_transmit_or_read_flags.
    change (transmit r2) with (transmit dev). rewrite Ht.
    apply read_flags_eq. simpl. rewrite ?length_replicate, ?length_drop. lia. }
  eexists _, f0, f1. split.
  { cbn [run step]. rewrite E1. cbn [mbind option_bind].
    rewrite E2. cbn [mbind option_bind]. rewrite E3. reflexivity. }
  split; [exact Hf0|]. split; [exact Hf1|].
  simpl. rewrite <- !app_assoc. split_and!; done.
Qed.

End ChainProperties.

(** A concrete instance: the frame of P3 on a freshly probed device. *)
Lemma tx_chain_witness :
  exists dev' buf,
    mcp2515_set_txbuf 1 (mk_sk_buff frame_std)
      (<[0%nat := 0x40]> (tx_buf dev_probed))
      = Some (buf, 5 + can_dlc frame_std) /\
    run dropped_over_8 dev_probed
      [ev_start_xmit (mk_sk_buff frame_std); ev_spi_complete [] true;
       ev_spi_complete [] true] = Some dev' /\
    spi_queue dev' = spi_queue dev_probed ++
      [(Some load_txb0_complete,
        take (Z.to_nat (6 + can_dlc frame_std)) buf);
       (Some rts_txb0_complete, [0x81]);
       (Some read_flags_complete, [0x03; 0x2c; 0; 0])] /\
    busy dev' = true /\ skb dev' = Some (mk_sk_buff frame_std) /\
    queue_stopped dev' = true /\
    message_complete dev' = Some read_flags_complete.
Proof.
  apply (tx_chain dropped_over_8 (mk_sk_buff frame_std) dev_probed [] []
           true true).
  - reflexivity.
  - reflexivity.
  - reflexivity.
  - reflexivity.
  - reflexivity.
  - simpl. lia.
Defined.

(** A concrete instance: in scenario 3, when the first READ_FLAGS completes,
    let the flags read 0x03 and the two buffers hold the standard frames
    0x200 and 0x201. *)
Lemma rx_both_buffers_witness :
  exists dev' f0 f1,
    run dropped_over_8 (dev_scenario 4)
      [ev_spi_complete [0; 0; 0x03; 0] true;
       ev_spi_complete [0; 0x40; 0; 0; 0; 1; 0x5A] true;
       ev_spi_complete [0; 0x40; 0x20; 0; 0; 1; 0x5B] true] = Some dev' /\
    mcp2515_rxb_to_frame
      (u8 <$> resize 14 0 [0; 0x40; 0; 0; 0; 1; 0x5A]) zero_frame = Some f0 /\
    mcp2515_rxb_to_frame
      (u8 <$> resize 14 0 [0; 0x40; 0x20; 0; 0; 1; 0x5B]) zero_frame
      = Some f1 /\
    delivered dev' = delivered (dev_scenario 4) ++ [f0; f1] /\
    spi_queue dev' = spi_queue (dev_scenario 4) ++
      [(Some read_rxb0_complete, 0x90 :: replicate 13 0);
       (Some read_rxb1_complete, 0x94 :: replicate 13 0);
       (Some read_flags_complete, [0x03; 0x2c; 0; 0])] /\
    canintf dev' = u8 0x03 /\ eflg dev' = u8 0 /\
    busy dev' = busy (dev_scenario 4).
Proof.
  apply (rx_both_buffers dropped_over_8 (dev_scenario 4) 0 0 0x03 0 true).
  - vm_compute. reflexivity.
  - vm_compute. reflexivity.
  - vm_compute. reflexivity.
  - vm_compute. reflexivity.
  - vm_compute. reflexivity.
  - vm_compute. discriminate.
  - vm_compute. discriminate.
Defined.

(** ** The error chain and coalesced interrupts *)

Lemma u8_u8 (z : Z) : u8 (u8 z) = u8 z.
Proof. apply u8_id, u8_bounds. Qed.

Section ErrorChain.

Variable can_dropped_invalid_skb : sk_buff -> bool.

(** X15.  The error chain.  When READ_FLAGS completes with a non-zero
    CANINTF that has none of RX0IF, RX1IF and TX0IF, and a non-zero EFLG,
    the next three messages are the BIT-MODIFY of CANINTF (mask: the flags
    read, without the two RX flags; data 0), the BIT-MODIFY of EFLG (mask:
    the flags read; data 0) and READ_FLAGS, whatever the bus answers
    meanwhile.  [rx_over_errors] is incremented exactly when EFLG has RX0OVR
    or RX1OVR; the pending skb and the three flags are as before. *)
Theorem error_chain (dev : net_device) (a b c e : Z) (al1 al2 al3 : bool)
    (rx2 rx3 : list Z) :
  length (tx_buf dev) = MCP2515_BUF_SIZE ->
  length (rx_buf dev) = MCP2515_BUF_SIZE ->
  message_complete dev = Some read_flags_complete ->
  transfer_len dev = 4 ->
  Z.land (u8 c) CANINTF_RX0IF = 0 ->
  Z.land (u8 c) CANINTF_RX1IF = 0 ->
  Z.land (u8 c) CANINTF_TX0IF = 0 ->
  u8 c <> 0 ->
  u8 e <> 0 ->
  exists dev',
    run can_dropped_invalid_skb dev
      [ev_spi_complete [a; b; c; e] al1; ev_spi_complete rx2 al2;
       ev_spi_complete rx3 al3] = Some dev' /\
    spi_queue dev' = spi_queue dev ++
      [(Some clear_canintf_complete,
        [0x05; 0x2c;
         u8 (Z.land (u8 c) (Z.lnot (Z.lor CANINTF_RX0IF CANINTF_RX1IF)));
         0]);
       (Some clear_eflg_complete, [0x05; 0x2d; u8 e; 0]);
       (Some read_flags_complete, [0x03; 0x2c; 0; 0])] /\
    rx_over_errors (stats dev') =
      (if truthy (Z.land (u8 e) (Z.lor EFLG_RX0OVR EFLG_RX1OVR))
       then ulong (rx_over_errors (stats dev) + 1)
       else rx_over_errors (stats dev)) /\
    skb dev' = skb dev /\ busy dev' = busy dev /\
    transmit dev' = transmit dev /\ interrupt dev' = interrupt dev.
Proof.
  intros Htx Hrx Hm Hl H0 H1 H2 Hc He. unfold MCP2515_BUF_SIZE in *.
  apply truthy_false in H0, H1, H2. apply truthy_true in Hc, He.
  (* READ_FLAGS completes *)
  set (c0 := set_rx_buf (clocked_in [a; b; c; e] dev) dev).
  assert (Hc0 : rx_buf c0 = [u8 a; u8 b; u8 c; u8 e] ++ drop 4 (rx_buf dev)).
  { subst c0. simpl. unfold clocked_in. by rewrite Hl. }
  set (d0 := set_eflg (u8 e) (set_canintf (u8 c) c0)).
  assert (E1 : spi_complete [a; b; c; e] al1 dev =
    Some (queued clear_canintf_complete 4
            ([0x05; 0x2c;
              u8 (Z.land (canintf d0)
                    (Z.lnot (Z.lor CANINTF_RX0IF CANINTF_RX1IF)));
              0] ++ drop 4 (tx_buf d0)) d0)).
  { rewrite (spi_complete_callback _ al1 dev read_flags_complete)
      by (rewrite ?Hrx, ?Hl; lia || done).
    fold c0. unfold callback, mcp2515_read_flags_complete, load.
    change (rx_buf (set_canintf _ c0)) with (rx_buf c0).
    rewrite Hc0. cbn [app lookup list_lookup mbind option_bind].
    rewrite H0, H1, Hc. apply clear_canintf_eq. simpl. lia. }
  set (d1 := queued clear_canintf_complete 4 _ d0) in E1.
  (* CLEAR_CANINTF completes *)
  assert (Hlen1 : length (rx_buf d1) = 14%nat).
  { simpl. unfold clocked_in.
    rewrite length_app, length_fmap, length_resize, length_drop, Hl, Hrx.
    lia. }
  set (c1 := set_rx_buf (clocked_in rx2 d1) d1).
  assert (E2 : spi_complete rx2 al2 d1 =
    Some (queued clear_eflg_complete 4
            ([0x05; 0x2d; u8 (eflg c1); 0] ++ drop 4 (tx_buf c1)) c1)).
  { rewrite (spi_complete_callback _ al2 d1 clear_canintf_complete);
      [|rewrite Hlen1; simpl; lia|done].
    fold c1. unfold callback, mcp2515_clear_canintf_complete.
    change (canintf c1) with (u8 c). rewrite H2.
    change (eflg c1) with (u8 e) at 1. rewrite He.
    apply clear_eflg_eq. simpl. rewrite ?length_drop. lia. }
  set (d2 := queued clear_eflg_complete 4 _ c1) in E2.
  (* CLEAR_EFLG completes *)
  assert (Hlen2 : length (rx_buf d2) = 14%nat).
  { change (rx_buf d2) with (clocked_in rx2 d1).
    rewrite clocked_in_length; [done|]. rewrite Hlen1. simpl. lia. }
  set (c2 := set_rx_buf (clocked_in rx3 d2) d2).
  set (r2 := if truthy (Z.land (eflg c2) (Z.lor EFLG_RX0OVR EFLG_RX1OVR))
             then set_stats (add_rx_over_errors 1 (stats c2)) c2 else c2).
  assert (E3 : spi_complete rx3 al3 d2 =
    Some (queued read_flags_complete 4
            ([0x03; 0x2c; 0; 0] ++ drop 4 (tx_buf r2)) r2)).
  { rewrite (spi_complete_callback _ al3 d2 clear_eflg_complete);
      [|rewrite Hlen2; simpl; lia|done].
    fold c2. unfold callback, mcp2515_clear_eflg_complete. fold r2.
    apply read_flags_eq. unfold r2.
    destruct (truthy (Z.land (eflg c2) (Z.lor EFLG_RX0OVR EFLG_RX1OVR)));
      simpl; lia. }
  eexists. split.
  { cbn [run step]. rewrite E1. cbn [mbind option_bind].
    rewrite E2. cbn [mbind option_bind]. rewrite E3. reflexivity. }
  unfold r2. change (eflg c2) with (u8 e).
  destruct (truthy (Z.land (u8 e) (Z.lor EFLG_RX0OVR EFLG_RX1OVR)));
    simpl; rewrite <- !app_assoc; split_and!; try done;
    by rewrite !take_0, u8_u8.
Qed.

Lemma run_app (dev : net_device) (l1 l2 : list event) :
  run can_dropped_invalid_skb dev (l1 ++ l2) =
    run can_dropped_invalid_skb dev l1 ≫=
      fun d => run can_dropped_invalid_skb d l2.
Proof.
  revert dev. induction l1 as [|ev l1 IH]; intros dev; [done|].
  simpl. destruct (step can_dropped_invalid_skb dev ev); [apply IH|done].
Qed.

Lemma interrupts_while_busy (dev : net_device) (n : nat) :
  busy dev = true ->
  run can_dropped_invalid_skb dev (replicate (S n) ev_interrupt)
    = Some (set_interrupt true dev).
Proof.
  revert dev. induction n as [|n IH]; intros dev Hb.
  - simpl. unfold mcp2515_interrupt. by rewrite Hb.
  - change (replicate (S (S n)) ev_interrupt)
      with (ev_interrupt :: replicate (S n) ev_interrupt).
    cbn [run step]. unfold mcp2515_interrupt at 1. rewrite Hb.
    cbn [mbind option_bind]. by rewrite IH.
Qed.

(** X16.  Interrupts are coalesced.  Any number of interrupts raised while
    READ_FLAGS is in flight are served by one further READ_FLAGS: if the
    flags then read zero twice and no transmit is recorded, exactly one
    message is sent and the device ends idle with the interrupt flag
    clear. *)
Theorem interrupts_coalesce (dev : net_device) (n : nat)
    (a b c e a' b' c' e' : Z) (al al' : bool) :
  length (tx_buf dev) = MCP2515_BUF_SIZE ->
  length (rx_buf dev) = MCP2515_BUF_SIZE ->
  busy dev = true ->
  message_complete dev = Some read_flags_complete ->
  transfer_len dev = 4 ->
  transmit dev = false ->
  u8 c = 0 -> u8 c' = 0 ->
  exists dev',
    run can_dropped_invalid_skb dev
      (replicate (S n) ev_interrupt ++
       [ev_spi_complete [a; b; c; e] al;
        ev_spi_complete [a'; b'; c'; e'] al']) = Some dev' /\
    spi_queue dev' = spi_queue dev ++
      [(Some read_flags_complete, [0x03; 0x2c; 0; 0])] /\
    busy dev' = false /\ interrupt dev' = false /\ transmit dev' = false.
Proof.
  intros Htx Hrx Hb Hm Hl Ht Hc Hc'. unfold MCP2515_BUF_SIZE in *.
  rewrite run_app, interrupts_while_busy by done.
  cbn [mbind option_bind].
  set (di := set_interrupt true dev).
  (* the first READ_FLAGS completes: the recorded interrupt is served *)
  set (c0 := set_rx_buf (clocked_in [a; b; c; e] di) di).
  assert (Hc0 : rx_buf c0 = [u8 a; u8 b; u8 c; u8 e] ++ drop 4 (rx_buf dev)).
  { subst c0. simpl. unfold clocked_in. simpl. by rewrite Hl. }
  set (d0 := set_interrupt false (set_eflg (u8 e) (set_canintf 0 c0))).
  assert (E1 : spi_complete [a; b; c; e] al di =
    Some (queued read_flags_complete 4
            ([0x03; 0x2c; 0; 0] ++ drop 4 (tx_buf d0)) d0)).
  { rewrite (spi_complete_callback _ al di read_flags_complete);
      [|simpl; rewrite Hrx, Hl; lia|done].
    fold c0. unfold callback, mcp2515_read_flags_complete, load.
    change (rx_buf (set_canintf _ c0)) with (rx_buf c0).
    rewrite Hc0. cbn [app lookup list_lookup mbind option_bind].
    rewrite Hc. change (truthy (Z.land 0 _)) with false.
    change (truthy 0) with false. cbv iota.
    change (transmit (set_eflg _ _)) with (transmit dev). rewrite Ht.
    change (interrupt (set_eflg _ _)) with true. cbv iota.
    apply read_flags_eq. simpl. lia. }
  set (d1 := queued read_flags_complete 4 _ d0) in E1.
  (* the second one finds nothing to do *)
  set (c1 := set_rx_buf (clocked_in [a'; b'; c'; e'] d1) d1).
  assert (Hc1 : rx_buf c1 =
                [u8 a'; u8 b'; u8 c'; u8 e'] ++ drop 4 (rx_buf d1)).
  { subst c1. reflexivity. }
  assert (E2 : spi_complete [a'; b'; c'; e'] al' d1 =
    Some (set_busy false (set_eflg (u8 e') (set_canintf 0 c1)))).
  { rewrite (spi_complete_callback _ al' d1 read_flags_complete);
      [| |done].
    2: { change (transfer_len d1) with 4.
         change (rx_buf d1) with (clocked_in [a; b; c; e] di).
         rewrite clocked_in_length; simpl; rewrite Hrx, ?Hl; lia. }
    fold c1. unfold callback, mcp2515_read_flags_complete, load.
    change (rx_buf (set_canintf _ c1)) with (rx_buf c1).
    rewrite Hc1. cbn [app lookup list_lookup mbind option_bind].
    rewrite Hc'. change (truthy (Z.land 0 _)) with false.
    change (truthy 0) with false. cbv iota.
    change (transmit (set_eflg _ _)) with (transmit dev). rewrite Ht.
    reflexivity. }
  eexists. split.
  { cbn [run step]. rewrite E1. cbn [mbind option_bind]. rewrite E2.
    reflexivity. }
  simpl. rewrite ?take_0. split_and!; done.
Qed.

End ErrorChain.

(** A concrete instance: scenario 4 of the spec, started when the first
    READ_FLAGS of scenario 3 completes: ERRIF with RX0OVR. *)
Lemma error_chain_witness :
  exists dev',
    run dropped_over_8 (dev_scenario 4)
      [ev_spi_complete [0; 0; 0x20; 0x40] true; ev_spi_complete [] true;
       ev_spi_complete [] true] = Some dev' /\
    spi_queue dev' = spi_queue (dev_scenario 4) ++
      [(Some clear_canintf_complete,
        [0x05; 0x2c;
         u8 (Z.land (u8 0x20) (Z.lnot (Z.lor CANINTF_RX0IF CANINTF_RX1IF)));
         0]);
       (Some clear_eflg_complete, [0x05; 0x2d; u8 0x40; 0]);
       (Some read_flags_complete, [0x03; 0x2c; 0; 0])] /\
    rx_over_errors (stats dev') =
      (if truthy (Z.land (u8 0x40) (Z.lor EFLG_RX0OVR EFLG_RX1OVR))
       then ulong (rx_over_errors (stats (dev_scenario 4)) + 1)
       else rx_over_errors (stats (dev_scenario 4))) /\
    skb dev' = skb (dev_scenario 4) /\ busy dev' = busy (dev_scenario 4) /\
    transmit dev' = transmit (dev_scenario 4) /\
    interrupt dev' = interrupt (dev_scenario 4).
Proof.
  apply (error_chain dropped_over_8 (dev_scenario 4) 0 0 0x20 0x40
           true true true [] []).
  - vm_compute. reflexivity.
  - vm_compute. reflexivity.
  - vm_compute. reflexivity.
  - vm_compute. reflexivity.
  - vm_compute. reflexivity.
  - vm_compute. reflexivity.
  - vm_compute. reflexivity.
  - vm_compute. discriminate.
  - vm_compute. discriminate.
Defined.

(** A concrete instance: three interrupts while the first READ_FLAGS of
    scenario 3 is in flight. *)
Lemma interrupts_coalesce_witness :
  exists dev',
    run dropped_over_8 (dev_scenario 4)
      (replicate 3 ev_interrupt ++
       [ev_spi_complete [0; 0; 0; 0] true;
        ev_spi_complete [0; 0; 0; 0] true]) = Some dev' /\
    spi_queue dev' = spi_queue (dev_scenario 4) ++
      [(Some read_flags_complete, [0x03; 0x2c; 0; 0])] /\
    busy dev' = false /\ interrupt dev' = false /\ transmit dev' = false.
Proof.
  apply (interrupts_coalesce dropped_over_8 (dev_scenario 4) 2
           0 0 0 0 0 0 0 0 true true).
  - vm_compute. reflexivity.
  - vm_compute. reflexivity.
  - vm_compute. reflexivity.
  - vm_compute. reflexivity.
  - vm_compute. reflexivity.
  - vm_compute. reflexivity.
  - reflexivity.
  - reflexivity.
Defined.

(** ** Bring-up on the wire *)

(** The wait loop stops at the first read that fails or reports the mode,
    and after [polls + 1] reads at the latest. *)
Lemma chip_start_wait_stops (mode : Z) (polls : nat) (spi : spi_device) :
  exists k : nat,
    (k <= polls)%nat /\
    wire (chip_start_wait mode polls spi).2 =
      wire spi ++ replicate (S k) [0x03; 0x0e] /\
    answers (chip_start_wait mode polls spi).2 = answers spi /\
    (forall j : nat, (j < k)%nat ->
       truthy (read_err spi j) = false /\ reqop (read_val spi j) <> mode) /\
    (truthy (read_err spi k) = true /\
     (chip_start_wait mode polls spi).1 = read_err spi k \/
     truthy (read_err spi k) = false /\ reqop (read_val spi k) = mode /\
     (chip_start_wait mode polls spi).1 = 0 \/
     truthy (read_err spi k) = false /\ reqop (read_val spi k) <> mode /\
     k = polls /\ (chip_start_wait mode polls spi).1 = - EBUSY).
Proof.
  revert spi. induction polls as [|polls IH]; intros spi.
  - exists 0%nat. unfold read_err, read_val, reqop. rewrite Nat.add_0_r.
    simpl. destruct (truthy (reply_err _)) eqn:He; simpl.
    { split_and!; try done; [lia|]. by left. }
    destruct (Z.eqb_spec
                (Z.land (u8 (reply_val (answers spi (length (wire spi)))))
                        CANCTRL_REQOP_MASK) mode) as [Hm|Hm]; simpl.
    + split_and!; try done; [lia|]. right. by left.
    + split_and!; try done; [lia|]. right. by right.
  - simpl. destruct (truthy (reply_err _)) eqn:He; simpl.
    { exists 0%nat. unfold read_err, read_val, reqop. rewrite Nat.add_0_r.
      split_and!; try done; [lia|lia|]. left. by rewrite He. }
    destruct (Z.eqb_spec
                (Z.land (u8 (reply_val (answers spi (length (wire spi)))))
                        CANCTRL_REQOP_MASK) mode) as [Hm|Hm]; simpl.
    { exists 0%nat. unfold read_err, read_val, reqop. rewrite Nat.add_0_r.
      split_and!; try done; [lia|lia|]. right. left. by rewrite He. }
    match goal with
    | |- context [chip_start_wait mode polls ?s] => set (spi1 := s)
    end.
    destruct (IH spi1) as (k & Hk & Hw & Ha & Hbefore & Hat).
    assert (Hidx : forall j : nat,
              read_err spi1 j = read_err spi (S j) /\
              read_val spi1 j = read_val spi (S j)).
    { intros j. unfold read_err, read_val, spi1. simpl.
      rewrite length_app. simpl.
      by replace (length (wire spi) + 1 + j)%nat
        with (length (wire spi) + S j)%nat by lia. }
    exists (S k). split_and!.
    + lia.
    + rewrite Hw. unfold spi1. simpl. by rewrite <- app_assoc.
    + rewrite Ha. done.
    + intros [|j] Hj.
      * unfold read_err, read_val, reqop. rewrite Nat.add_0_r. done.
      * destruct (Hidx j) as [<- <-]. apply Hbefore. lia.
    + destruct (Hidx k) as [<- <-].
      destruct Hat as [Hat|[Hat|(? & ? & -> & ?)]]; [by left|right; by left|].
      right. right. done.
Qed.

(** A property checked on every pair of a finite range. *)
Lemma forall_range2 (P : Z -> Z -> bool) (a n b m x y : Z) :
  forallb (fun x => forallb (P x) (seqZ b m)) (seqZ a n) = true ->
  a <= x < a + n -> b <= y < b + m -> P x y = true.
Proof.
  intros H Hx Hy. rewrite forallb_forall in H.
  specialize (H x). rewrite forallb_forall in H.
  apply H; apply list_elem_of_In, elem_of_seqZ; lia.
Qed.

(** CNF1: the jump width in bits 7..6, the prescaler in bits 5..0. *)
Lemma cnf1_fields (s b : Z) :
  1 <= s <= 4 -> 1 <= b <= 64 ->
  Z.land (u8 (Z.lor (Z.shiftl (u32 (s - 1)) 6) (u32 (b - 1)))) 0x3f = b - 1 /\
  Z.shiftr (u8 (Z.lor (Z.shiftl (u32 (s - 1)) 6) (u32 (b - 1)))) 6 = s - 1.
Proof.
  intros Hs Hb.
  pose proof (forall_range2
    (fun s b =>
       (Z.land (u8 (Z.lor (Z.shiftl (u32 (s - 1)) 6) (u32 (b - 1)))) 0x3f
          =? b - 1) &&
       (Z.shiftr (u8 (Z.lor (Z.shiftl (u32 (s - 1)) 6) (u32 (b - 1)))) 6
          =? s - 1))
    1 4 1 64 s b ltac:(vm_compute; reflexivity) ltac:(lia) ltac:(lia)) as H.
  apply andb_true_iff in H as [H1 H2]. split; by apply Z.eqb_eq.
Qed.

(** CNF2: BTLMODE in bit 7, SAM in bit 6, PHSEG1 in bits 5..3, PRSEG in
    bits 2..0. *)
Lemma cnf2_fields (sam : bool) (p1 pr : Z) :
  1 <= p1 <= 8 -> 1 <= pr <= 8 ->
  let c := u8 (Z.lor (Z.lor (Z.lor CNF2_BTLMODE
                               (if sam then CNF2_SAM else 0))
                        (Z.shiftl (u32 (p1 - 1)) 3)) (u32 (pr - 1))) in
  Z.land c 7 = pr - 1 /\ Z.land (Z.shiftr c 3) 7 = p1 - 1 /\
  Z.testbit c 7 = true /\ Z.testbit c 6 = sam.
Proof.
  intros H1 Hr.
  pose proof (fun sam : bool => forall_range2
    (fun p1 pr =>
       let c := u8 (Z.lor (Z.lor (Z.lor CNF2_BTLMODE
                                    (if sam then CNF2_SAM else 0))
                             (Z.shiftl (u32 (p1 - 1)) 3)) (u32 (pr - 1))) in
       (Z.land c 7 =? pr - 1) && (Z.land (Z.shiftr c 3) 7 =? p1 - 1) &&
       Z.testbit c 7 && Bool.eqb (Z.testbit c 6) sam)
    1 8 1 8 p1 pr) as H.
  specialize (H sam ltac:(destruct sam; vm_compute; reflexivity)
                ltac:(lia) ltac:(lia)).
  cbv zeta in H |- *.
  apply andb_true_iff in H as [H H4]. apply andb_true_iff in H as [H H3].
  apply andb_true_iff in H as [Ha Hb].
  apply Z.eqb_eq in Ha, Hb. apply Bool.eqb_prop in H4. done.
Qed.

Lemma take6_inserts (l : list Z) (a0 a1 a2 a3 a4 a5 : Z) :
  (6 <= length l)%nat ->
  take 6 (<[5%nat := a5]> (<[4%nat := a4]> (<[3%nat := a3]>
           (<[2%nat := a2]> (<[1%nat := a1]> (<[0%nat := a0]> l))))))
  = [a0; a1; a2; a3; a4; a5].
Proof.
  intros H. do 6 (destruct l as [|? l]; [simpl in H; lia|]). reflexivity.
Qed.

Lemma chip_start_wait_wire (mode : Z) (polls : nat) (spi : spi_device) :
  exists rest, wire (chip_start_wait mode polls spi).2 = wire spi ++ rest.
Proof.
  destruct (chip_start_wait_stops mode polls spi) as (k & _ & H & _).
  eauto.
Qed.

(** X17.  The bit timing on the wire.  Once the reset went through,
    [mcp2515_chip_start] sends RESET and then one write of six bytes:
    WRITE, the address of CNF3, CNF3, CNF2, CNF1 and CANINTE = 0x3F.  For
    bit-timing values that fit the register fields, CNF3 is [phase_seg2 - 1],
    CNF2 has BTLMODE set, SAM as requested by the 3-samples mode,
    [phase_seg1 - 1] in bits 5..3 and [prop_seg - 1] in bits 2..0, and CNF1
    has [sjw - 1] in bits 7..6 and [brp - 1] in bits 5..0: no field spills
    into another. *)
Theorem chip_start_bit_timing (polls : nat) (dev dev' : net_device)
    (spi spi' : spi_device) (err : Z) :
  mcp2515_chip_start polls dev spi = Some (err, dev', spi') ->
  truthy (read_err spi 0) = false ->
  bt_in_range (can_bt dev) ->
  exists cnf3 cnf2 cnf1 rest,
    wire spi' =
      wire spi ++ [0xc0] :: [0x02; 0x28; cnf3; cnf2; cnf1; 0x3f] :: rest /\
    cnf3 = phase_seg2 (can_bt dev) - 1 /\
    Z.land cnf2 7 = prop_seg (can_bt dev) - 1 /\
    Z.land (Z.shiftr cnf2 3) 7 = phase_seg1 (can_bt dev) - 1 /\
    Z.testbit cnf2 7 = true /\
    Z.testbit cnf2 6 =
      truthy (Z.land (can_ctrlmode dev) CAN_CTRLMODE_3_SAMPLES) /\
    Z.land cnf1 0x3f = brp (can_bt dev) - 1 /\
    Z.shiftr cnf1 6 = sjw (can_bt dev) - 1.
Proof.
  intros H Hreset (Hpr & Hp1 & Hp2 & Hsjw & Hbrp).
  unfold read_err in Hreset. rewrite Nat.add_0_r in Hreset.
  unfold mcp2515_chip_start, mcp2515_hw_reset, mcp2515_write_reg, spi_write
    in H.
  cbn [fst snd] in H. rewrite Hreset in H.
  apply bind_Some in H as (x0 & [Hl0 ->]%store_inv & H).
  apply bind_Some in H as (x1 & [Hl1 ->]%store_inv & H).
  apply bind_Some in H as (x2 & [Hl2 ->]%store_inv & H).
  apply bind_Some in H as (x3 & [Hl3 ->]%store_inv & H).
  apply bind_Some in H as (x4 & [Hl4 ->]%store_inv & H).
  apply bind_Some in H as (x5 & [Hl5 ->]%store_inv & H).
  rewrite !length_insert in Hl5.
  rewrite take6_inserts in H by lia.
  destruct (cnf2_fields
              (truthy (Z.land (can_ctrlmode dev) CAN_CTRLMODE_3_SAMPLES))
              (phase_seg1 (can_bt dev)) (prop_seg (can_bt dev)) Hp1 Hpr)
    as (F1 & F2 & F3 & F4).
  destruct (cnf1_fields (sjw (can_bt dev)) (brp (can_bt dev)) Hsjw Hbrp)
    as (G1 & G2).
  assert (Hwire : exists rest,
    wire spi' = wire spi ++
      [0xc0] :: [0x02; 0x28; u8 (phase_seg2 (can_bt dev) - 1);
        u8 (Z.lor (Z.lor (Z.lor CNF2_BTLMODE
               (if truthy (Z.land (can_ctrlmode dev) CAN_CTRLMODE_3_SAMPLES)
                then CNF2_SAM else 0))
               (Z.shiftl (u32 (phase_seg1 (can_bt dev) - 1)) 3))
               (u32 (prop_seg (can_bt dev) - 1)));
        u8 (Z.lor (Z.shiftl (u32 (sjw (can_bt dev) - 1)) 6)
                  (u32 (brp (can_bt dev) - 1)));
        0x3f] :: rest).
  { case_truthy H E1.
    { injection H as _ _ <-. exists []. simpl. by rewrite <- app_assoc. }
    do 3 (apply bind_Some in H as (? & _ & H)).
    case_truthy H E2.
    { injection H as _ _ <-. eexists [_]. simpl.
      by rewrite <- !app_assoc. }
    match type of H with
    | context [chip_start_wait ?m ?p ?s] =>
        destruct (chip_start_wait_wire m p s) as [rest Hrest];
        destruct (chip_start_wait m p s) as [e4 spi4]
    end.
    simpl in Hrest.
    destruct (truthy e4); injection H as _ _ <-;
      unfold mcp2515_transceiver_switch; rewrite Hrest;
      eexists (_ :: _ :: rest); by rewrite <- !app_assoc. }
  destruct Hwire as [rest Hwire].
  eexists _, _, _, rest. split; [exact Hwire|].
  split_and!; try done.
  apply u8_id. lia.
Qed.

Lemma chip_start_mode_byte (ctrlmode : Z) :
  u8 (chip_start_mode ctrlmode) = chip_start_mode ctrlmode.
Proof.
  rewrite chip_start_mode_cases.
  destruct (truthy _); [reflexivity|]. destruct (truthy _); reflexivity.
Qed.

(** X18.  The outcome of [mcp2515_chip_start] when the reset and the two
    configuration writes succeed.  It sends RESET, the bit-timing write, the
    write of RXB0CTRL and RXB1CTRL (0x64, 0x60) and the write of the
    requested mode to CANCTRL (whose result is not looked at), then reads
    CANSTAT until a read fails or reports the requested mode, [polls + 1]
    times at most.  It returns the error of the failing read, or 0 with the
    state set to ERROR_ACTIVE when the mode is reported, or [-EBUSY] when
    the last read still reports another mode; the CAN state changes only
    when it returns 0. *)
Theorem chip_start_outcome (polls : nat) (dev dev' : net_device)
    (spi spi' : spi_device) (err : Z) :
  mcp2515_chip_start polls dev spi = Some (err, dev', spi') ->
  truthy (read_err spi 0) = false ->
  truthy (read_err spi 1) = false ->
  truthy (read_err spi 2) = false ->
  exists (k : nat) (cnf : list Z),
    (k <= polls)%nat /\
    wire spi' = wire spi ++
      [[0xc0]; cnf; [0x02; 0x60; 0x64; 0x60];
       [0x02; 0x0f; chip_start_mode (can_ctrlmode dev)]] ++
      replicate (S k) [0x03; 0x0e] /\
    (forall j : nat, (j < k)%nat ->
       truthy (read_err spi (4 + j)) = false /\
       reqop (read_val spi (4 + j)) <> chip_start_mode (can_ctrlmode dev)) /\
    (truthy (read_err spi (4 + k)) = true /\
     err = read_err spi (4 + k) /\ can_st dev' = can_st dev \/
     truthy (read_err spi (4 + k)) = false /\
     reqop (read_val spi (4 + k)) = chip_start_mode (can_ctrlmode dev) /\
     err = 0 /\ can_st dev' = CAN_STATE_ERROR_ACTIVE \/
     truthy (read_err spi (4 + k)) = false /\
     reqop (read_val spi (4 + k)) <> chip_start_mode (can_ctrlmode dev) /\
     k = polls /\ err = - EBUSY /\ can_st dev' = can_st dev).
Proof.
  intros H H0 H1 H2. pose proof H as Hframe.
  apply chip_start_frame in Hframe as (b & _ & Hdev).
  unfold read_err in H0, H1, H2. rewrite Nat.add_0_r in H0.
  unfold mcp2515_chip_start, mcp2515_hw_reset, mcp2515_write_reg, spi_write
    in H.
  cbn [fst snd] in H. rewrite H0 in H.
  apply bind_Some in H as (x0 & [Hl0 ->]%store_inv & H).
  apply bind_Some in H as (x1 & [Hl1 ->]%store_inv & H).
  apply bind_Some in H as (x2 & [Hl2 ->]%store_inv & H).
  apply bind_Some in H as (x3 & [Hl3 ->]%store_inv & H).
  apply bind_Some in H as (x4 & [Hl4 ->]%store_inv & H).
  apply bind_Some in H as (x5 & [Hl5 ->]%store_inv & H).
  rewrite !length_insert in Hl5.
  rewrite take6_inserts in H by lia.
  cbn [wire answers] in H. rewrite length_app in H. cbn [length] in H.
  rewrite H1 in H.
  match type of H with
  | context [store 1 RXB0CTRL ?l] => set (buf6 := l) in H
  end.
  assert (Hl6 : (6 <= length buf6)%nat)
    by (unfold buf6; rewrite !length_insert; lia).
  apply bind_Some in H as (y1 & [_ ->]%store_inv & H).
  apply bind_Some in H as (y2 & [_ ->]%store_inv & H).
  apply bind_Some in H as (y3 & [_ ->]%store_inv & H).
  cbn [wire answers] in H. rewrite !length_app in H. cbn [length] in H.
  replace (length (wire spi) + 1 + 1)%nat with (length (wire spi) + 2)%nat
    in H by lia.
  rewrite H2 in H.
  assert (Hrxb : take 4 (<[3%nat := u8 (Z.lor RXBCTRL_RXM1 RXBCTRL_RXM0)]>
                   (<[2%nat := u8 (Z.lor (Z.lor RXBCTRL_RXM1 RXBCTRL_RXM0)
                                          RXBCTRL_BUKT)]>
                      (<[1%nat := u8 RXB0CTRL]> buf6))) =
                 [0x02; 0x60; 0x64; 0x60]).
  { assert (Hb0 : buf6 !! 0%nat = Some 0x02).
    { unfold buf6. rewrite !list_lookup_insert_ne by lia.
      apply list_lookup_insert_eq. lia. }
    destruct buf6 as [|c0 [|c1 [|c2 [|c3 r]]]]; simpl in Hl6; try lia.
    simpl in Hb0. injection Hb0 as ->. reflexivity. }
  rewrite Hrxb in H.
  match type of H with
  | context [chip_start_wait ?m ?p ?s] =>
      destruct (chip_start_wait_stops m p s)
        as (k & Hk & Hw & _ & Hbefore & Hat);
      destruct (chip_start_wait m p s) as [e4 spi4];
      set (spiw := s) in *
  end.
  unfold mcp2515_transceiver_switch in *.
  assert (Hidx : forall j : nat,
            read_err spiw j = read_err spi (4 + j) /\
            read_val spiw j = read_val spi (4 + j)).
  { intros j. unfold read_err, read_val, spiw. simpl.
    rewrite !length_app. simpl.
    by replace (length (wire spi) + 1 + 1 + 1 + 1 + j)%nat
      with (length (wire spi) + (4 + j))%nat by lia. }
  assert (Hwire : wire spi4 = wire spi ++
            [[0xc0]; [0x02; 0x28; u8 (phase_seg2 (can_bt dev) - 1);
               u8 (Z.lor (Z.lor (Z.lor CNF2_BTLMODE
                 (if truthy (Z.land (can_ctrlmode dev) CAN_CTRLMODE_3_SAMPLES)
                  then CNF2_SAM else 0))
                 (Z.shiftl (u32 (phase_seg1 (can_bt dev) - 1)) 3))
                 (u32 (prop_seg (can_bt dev) - 1)));
               u8 (Z.lor (Z.shiftl (u32 (sjw (can_bt dev) - 1)) 6)
                         (u32 (brp (can_bt dev) - 1)));
               0x3f];
             [0x02; 0x60; 0x64; 0x60];
             [0x02; 0x0f; chip_start_mode (can_ctrlmode dev)]] ++
            replicate (S k) [0x03; 0x0e]).
  { simpl in Hw. rewrite Hw. unfold spiw. cbn [wire].
    rewrite <- !app_assoc. cbn [app take].
    by rewrite chip_start_mode_byte. }
  simpl in Hat.
  eexists k, _. split; [done|].
  assert (Hspi : spi' = spi4) by (by destruct (truthy e4); injection H as _ _ <-).
  assert (Herr : err = if truthy e4 then e4 else 0)
    by (by destruct (truthy e4) eqn:E; injection H as <- _ _).
  rewrite Hspi. split; [exact Hwire|]. split.
  - intros j Hj. destruct (Hidx j) as [<- <-]. by apply Hbefore.
  - destruct (Hidx k) as [<- <-]. rewrite Hdev. simpl.
    destruct Hat as [(Ha & ->)|[(Ha & Hm & ->)|(Ha & Hm & -> & ->)]].
    + left. rewrite Ha in Herr. subst err. rewrite Ha. done.
    + right. left. simpl in Herr. subst err. done.
    + right. right. simpl in Herr. subst err. done.
Qed.

(** X19.  The results of [mcp2515_open].  An error of [open_candev] or of
    [request_irq] is returned as it is, with the device untouched and
    nothing sent on the bus.  A return of 0 means both succeeded, the chip
    is in state ERROR_ACTIVE and the transmit queue is started; on any
    error the CAN state and the queue are as before. *)
Theorem open_result (open_err irq_err : Z) (polls : nat)
    (dev dev' : net_device) (spi spi' : spi_device) (err : Z) :
  mcp2515_open open_err irq_err polls dev spi = Some (err, dev', spi') ->
  (open_err <> 0 -> err = open_err /\ dev' = dev /\ spi' = spi) /\
  (open_err = 0 -> irq_err <> 0 ->
   err = irq_err /\ dev' = dev /\ spi' = spi) /\
  (err = 0 ->
   open_err = 0 /\ irq_err = 0 /\
   can_st dev' = CAN_STATE_ERROR_ACTIVE /\ queue_stopped dev' = false) /\
  (err <> 0 ->
   can_st dev' = can_st dev /\ queue_stopped dev' = queue_stopped dev).
Proof.
  unfold mcp2515_open, mcp2515_power_switch, netif_start_queue. intros H.
  destruct (truthy open_err) eqn:Eo.
  { injection H as <- <- <-. apply truthy_true in Eo.
    split_and!; try done. }
  apply truthy_false in Eo. subst open_err.
  destruct (truthy irq_err) eqn:Ei.
  { injection H as <- <- <-. apply truthy_true in Ei.
    split_and!; try done. }
  apply truthy_false in Ei. subst irq_err.
  apply bind_Some in H as ([[e d] s] & Hc & H).
  apply chip_start_frame in Hc as (b & _ & ->).
  destruct (truthy e) eqn:Ee.
  - injection H as <- <- <-. apply truthy_true in Ee.
    split_and!; try done.
  - injection H as <- <- <-. split_and!; try done.
Qed.

(** A concrete instance: the bit timing brp 4, prop_seg 2, phase_seg1 7,
    phase_seg2 6, sjw 1 goes out as CNF3 = 0x05, CNF2 = 0xB1, CNF1 = 0x03. *)
Lemma chip_start_bit_timing_witness :
  mcp2515_chip_start 3 dev_probed (quiet_bus 0) =
    Some ((started 3 0).1.1, (started 3 0).1.2, (started 3 0).2) /\
  wire (started 3 0).2 !! 1%nat = Some [0x02; 0x28; 0x05; 0xB1; 0x03; 0x3f] /\
  exists cnf3 cnf2 cnf1 rest,
    wire (started 3 0).2 =
      wire (quiet_bus 0) ++
        [0xc0] :: [0x02; 0x28; cnf3; cnf2; cnf1; 0x3f] :: rest /\
    cnf3 = phase_seg2 (can_bt dev_probed) - 1 /\
    Z.land cnf2 7 = prop_seg (can_bt dev_probed) - 1 /\
    Z.land (Z.shiftr cnf2 3) 7 = phase_seg1 (can_bt dev_probed) - 1 /\
    Z.testbit cnf2 7 = true /\
    Z.testbit cnf2 6 =
      truthy (Z.land (can_ctrlmode dev_probed) CAN_CTRLMODE_3_SAMPLES) /\
    Z.land cnf1 0x3f = brp (can_bt dev_probed) - 1 /\
    Z.shiftr cnf1 6 = sjw (can_bt dev_probed) - 1.
Proof.
  assert (H : mcp2515_chip_start 3 dev_probed (quiet_bus 0) =
                Some ((started 3 0).1.1, (started 3 0).1.2, (started 3 0).2))
    by (vm_compute; reflexivity).
  split; [exact H|]. split; [vm_compute; reflexivity|].
  apply (chip_start_bit_timing 3 dev_probed _ (quiet_bus 0) _ _ H).
  - reflexivity.
  - unfold bt_in_range. simpl. lia.
Defined.

(** A concrete instance: a chip that keeps reporting configuration mode
    (CANSTAT = 0x80) when NORMAL is requested; with three further polls
    [mcp2515_chip_start] gives up after four reads with [-EBUSY]. *)
Lemma chip_start_outcome_witness :
  mcp2515_chip_start 3 dev_probed (quiet_bus 0x80) =
    Some ((started 3 0x80).1.1, (started 3 0x80).1.2, (started 3 0x80).2) /\
  (started 3 0x80).1.1 = - EBUSY /\
  length (wire (started 3 0x80).2) = 8%nat /\
  exists (k : nat) (cnf : list Z),
    (k <= 3)%nat /\
    wire (started 3 0x80).2 = wire (quiet_bus 0x80) ++
      [[0xc0]; cnf; [0x02; 0x60; 0x64; 0x60];
       [0x02; 0x0f; chip_start_mode (can_ctrlmode dev_probed)]] ++
      replicate (S k) [0x03; 0x0e] /\
    (forall j : nat, (j < k)%nat ->
       truthy (read_err (quiet_bus 0x80) (4 + j)) = false /\
       reqop (read_val (quiet_bus 0x80) (4 + j)) <>
         chip_start_mode (can_ctrlmode dev_probed)) /\
    (truthy (read_err (quiet_bus 0x80) (4 + k)) = true /\
     (started 3 0x80).1.1 = read_err (quiet_bus 0x80) (4 + k) /\
     can_st (started 3 0x80).1.2 = can_st dev_probed \/
     truthy (read_err (quiet_bus 0x80) (4 + k)) = false /\
     reqop (read_val (quiet_bus 0x80) (4 + k)) =
       chip_start_mode (can_ctrlmode dev_probed) /\
     (started 3 0x80).1.1 = 0 /\
     can_st (started 3 0x80).1.2 = CAN_STATE_ERROR_ACTIVE \/
     truthy (read_err (quiet_bus 0x80) (4 + k)) = false /\
     reqop (read_val (quiet_bus 0x80) (4 + k)) <>
       chip_start_mode (can_ctrlmode dev_probed) /\
     k = 3%nat /\ (started 3 0x80).1.1 = - EBUSY /\
     can_st (started 3 0x80).1.2 = can_st dev_probed).
Proof.
  assert (H : mcp2515_chip_start 3 dev_probed (quiet_bus 0x80) =
                Some ((started 3 0x80).1.1, (started 3 0x80).1.2,
                      (started 3 0x80).2))
    by (vm_compute; reflexivity).
  split; [exact H|]. split; [vm_compute; reflexivity|].
  split; [vm_compute; reflexivity|].
  apply (chip_start_outcome 3 dev_probed _ (quiet_bus 0x80) _ _ H);
    reflexivity.
Defined.

(** A concrete instance: opening a probed device whose chip answers 0 to
    every read starts the queue. *)
Lemma open_result_witness :
  mcp2515_open 0 0 3 dev_probed (quiet_bus 0) =
    Some ((opened 3 0).1.1, (opened 3 0).1.2, (opened 3 0).2) /\
  (opened 3 0).1.1 = 0 /\
  can_st (opened 3 0).1.2 = CAN_STATE_ERROR_ACTIVE /\
  queue_stopped (opened 3 0).1.2 = false.
Proof.
  assert (H : mcp2515_open 0 0 3 dev_probed (quiet_bus 0) =
                Some ((opened 3 0).1.1, (opened 3 0).1.2, (opened 3 0).2))
    by (vm_compute; reflexivity).
  assert (H0 : (opened 3 0).1.1 = 0) by (vm_compute; reflexivity).
  split; [exact H|]. split; [exact H0|].
  destruct (open_result 0 0 3 dev_probed _ (quiet_bus 0) _ _ H)
    as (_ & _ & Hok & _).
  destruct (Hok H0) as (_ & _ & Hst & Hq). split; [exact Hst|exact Hq].
Defined.

(** ** Probe *)

(** X20.  The bus traffic and the results of the probe.  Without platform
    data the probe returns [-ENODEV], and when the allocation fails
    [-ENOMEM], in both cases without sending anything.  Otherwise it sends
    exactly three messages, whatever the chip answers: RESET, the read of
    CANSTAT and the read of CANCTRL.  It returns 0, [-ENODEV], [-ENOMEM] or
    the error of the framework's registration, and 0 only after the
    registration was called. *)
Theorem probe_bus_traffic (pdata alloc : bool) (register_err : Z)
    (spi : spi_device) :
  let r := mcp2515_probe pdata alloc register_err spi in
  wire (reg_spi r) =
    (if pdata && alloc
     then wire spi ++ [[0xc0]; [0x03; 0x0e]; [0x03; 0x0f]]
     else wire spi) /\
  (reg_ret r = 0 \/ reg_ret r = - ENODEV \/ reg_ret r = - ENOMEM \/
   reg_ret r = register_err) /\
  (reg_ret r = 0 -> pdata = true /\ alloc = true /\ reg_called r = true) /\
  (pdata = false -> reg_ret r = - ENODEV) /\
  (pdata = true -> alloc = false -> reg_ret r = - ENOMEM).
Proof.
  unfold mcp2515_probe.
  destruct pdata; [|simpl; split_and!; auto; done].
  destruct alloc; [|simpl; split_and!; auto; done].
  unfold mcp2515_register_candev, mcp2515_board_specific_setup,
    mcp2515_power_switch, mcp2515_hw_reset, mcp2515_read_reg,
    spi_write, spi_write_then_read.
  cbn [fst snd negb andb].
  destruct (negb _ || truthy _).
  - simpl. rewrite <- !app_assoc. split_and!; auto; done.
  - destruct (truthy register_err) eqn:Er.
    + cbn [reg_ret]. rewrite Er. simpl. rewrite <- !app_assoc.
      apply truthy_true in Er. split_and!; auto; done.
    + simpl. rewrite <- !app_assoc. split_and!; auto; done.
Qed.


(** ** Open, close and mode change *)


Section SyncProperties.

Variable can_dropped_invalid_skb : sk_buff -> bool.


End SyncProperties.

(** X22.  The results of [mcp2515_set_mode].  Any mode other than
    CAN_MODE_START is refused with [-EOPNOTSUPP], the device untouched and
    nothing sent on the bus.  For CAN_MODE_START the result is that of
    [mcp2515_chip_start]: on 0 the CAN state is ERROR_ACTIVE and the transmit
    queue is woken, on an error the CAN state and the queue are as
    before. *)
Theorem set_mode_result (mode : can_mode) (polls : nat)
    (dev dev' : net_device) (spi spi' : spi_device) (err : Z) :
  mcp2515_set_mode mode polls dev spi = Some (err, dev', spi') ->
  (mode <> CAN_MODE_START ->
   err = - EOPNOTSUPP /\ dev' = dev /\ spi' = spi) /\
  (mode = CAN_MODE_START ->
   (err = 0 ->
    can_st dev' = CAN_STATE_ERROR_ACTIVE /\ queue_stopped dev' = false) /\
   (err <> 0 ->
    can_st dev' = can_st dev /\ queue_stopped dev' = queue_stopped dev)).
Proof.
  unfold mcp2515_set_mode, netif_wake_queue. intros H.
  destruct mode; try (injection H as <- <- <-; split; done).
  split; [done|]. intros _.
  apply bind_Some in H as ([[e d] s] & Hc & H).
  apply chip_start_frame in Hc as (b & _ & ->).
  destruct (truthy e) eqn:Ee.
  - injection H as <- <- <-. apply truthy_true in Ee. done.
  - injection H as <- <- <-. done.
Qed.


(** A concrete instance: a restart on a chip that answers 0 to every read
    wakes the queue; a request to sleep is refused. *)
Lemma set_mode_result_witness :
  mcp2515_set_mode CAN_MODE_START 3 dev_probed (quiet_bus 0) =
    Some (0, (opened 3 0).1.2, (opened 3 0).2) /\
  can_st (opened 3 0).1.2 = CAN_STATE_ERROR_ACTIVE /\
  queue_stopped (opened 3 0).1.2 = false.
Proof.
  assert (H : mcp2515_set_mode CAN_MODE_START 3 dev_probed (quiet_bus 0) =
                Some (0, (opened 3 0).1.2, (opened 3 0).2))
    by (vm_compute; reflexivity).
  split; [exact H|].
  destruct (set_mode_result CAN_MODE_START 3 dev_probed _ (quiet_bus 0) _ _ H)
    as [_ Hstart].
  destruct (Hstart eq_refl) as [Hok _]. exact (Hok eq_refl).
Defined.
